(** * The InferenceScheduler operator: reconciliation engine

    A shallow embedding of [internal/controller/inferencescheduler_controller.go],
    [internal/controller/resources.go] and [api/v1alpha1/inferencescheduler_types.go].

    Layout:
    - [GoStrings]: the string functions of the Go standard library the
      controller calls ([strings.ToLower], [strings.Trim], [strings.Contains],
      [strings.Join], [%d], [%.Nf]) and [sanitizeName];
    - [API]: the Kubernetes object model the controller handles;
    - [Builders]: [resources.go];
    - [Conditions]: [updateCondition] over [meta.SetStatusCondition];
    - [Controller]: the client interface, the call trace, [createOrUpdate],
      [validatePrerequisites], [handleDeletion] and [Reconcile];
    - [Fake]: an in-memory API server used to run concrete scenarios. *)

From Stdlib Require Import ZArith NArith List String Ascii Bool Lia.
From Stdlib Require Import DecimalString SpecFloat.
From stdpp Require Import base gmap strings list.
Import ListNotations.

Open Scope string_scope.

(* ===================================================================== *)
(** * Go strings *)
(* ===================================================================== *)

Module GoStrings.

(** A Go string is a sequence of bytes; [bytes] gives them as numbers. *)
Definition bytes (s : string) : list N := map N_of_ascii (list_ascii_of_string s).
Definition of_bytes (l : list N) : string := string_of_list_ascii (map ascii_of_N l).

(** ** UTF-8 decoding, as [utf8.DecodeRuneInString] does it

    An ill-formed or truncated sequence decodes to [RuneError] and consumes
    one byte. *)
Local Open Scope N_scope.

Definition RuneError : N := 0xFFFD.

Definition between (lo hi b : N) : bool := (lo <=? b) && (b <=? hi).
Definition cont (b : N) : N := N.land b 0x3F.

(** The second byte of a sequence has a range that depends on the first. *)
Definition second_range (b0 : N) : N * N :=
  if (b0 =? 0xE0)%N then (0xA0, 0xBF)
  else if (b0 =? 0xED)%N then (0x80, 0x9F)
  else if (b0 =? 0xF0)%N then (0x90, 0xBF)
  else if (b0 =? 0xF4)%N then (0x80, 0x8F)
  else (0x80, 0xBF)%N.

Definition DecodeRune (p : list N) : N * nat :=
  match p with
  | [] => (RuneError, 0%nat)
  | b0 :: t =>
    if b0 <? 0x80 then (b0, 1%nat)
    else
      let '(lo, hi) := second_range b0 in
      if between 0xC2 0xDF b0 then
        match t with
        | b1 :: _ =>
          if between lo hi b1 then (N.land b0 0x1F * 64 + cont b1, 2%nat)
          else (RuneError, 1%nat)
        | _ => (RuneError, 1%nat)
        end
      else if between 0xE0 0xEF b0 then
        match t with
        | b1 :: b2 :: _ =>
          if between lo hi b1 && between 0x80 0xBF b2
          then ((N.land b0 0x0F * 64 + cont b1) * 64 + cont b2, 3%nat)
          else (RuneError, 1%nat)
        | _ => (RuneError, 1%nat)
        end
      else if between 0xF0 0xF4 b0 then
        match t with
        | b1 :: b2 :: b3 :: _ =>
          if between lo hi b1 && between 0x80 0xBF b2 && between 0x80 0xBF b3
          then (((N.land b0 0x07 * 64 + cont b1) * 64 + cont b2) * 64 + cont b3, 4%nat)
          else (RuneError, 1%nat)
        | _ => (RuneError, 1%nat)
        end
      else (RuneError, 1%nat)
  end.

(** The runes of a byte string, in order. [skip] counts the bytes of the
    current rune that are still to be passed over. *)
Fixpoint runes_from (skip : nat) (p : list N) : list N :=
  match p with
  | [] => []
  | _ :: t =>
    match skip with
    | S k => runes_from k t
    | O => let '(r, size) := DecodeRune p in r :: runes_from (Nat.pred size) t
    end
  end.

Definition runes (s : string) : list N := runes_from 0%nat (bytes s).

(** ** [unicode.ToLower]

    On ASCII it maps ['A'..'Z'] to ['a'..'z']. Outside ASCII exactly two code
    points have an ASCII lower case: U+0130 (to [i]) and U+212A, the Kelvin
    sign (to [k]). Every other code point lower-cases to a code point outside
    ASCII; which one does not matter to [sanitizeName], whose pattern
    replaces all of them, so the model leaves those code points in place. *)
Definition unicode_ToLower (r : N) : N :=
  if between 0x41 0x5A r then (r + 32)%N
  else if (r =? 0x130)%N then 0x69%N
  else if (r =? 0x212A)%N then 0x6B%N
  else r.

(** [regexp.MustCompile(`[^a-z0-9\-]`)]: the runes the pattern does NOT
    match are the lower-case letters, the digits and the hyphen. *)
Definition hyphen : N := 0x2D.
Definition allowed (r : N) : bool :=
  between 0x61 0x7A r || between 0x30 0x39 r || (r =? hyphen)%N.

(** [reg.ReplaceAllString(strings.ToLower(name), "-")], rune by rune: a rune
    the pattern matches becomes one hyphen, any other rune is kept. *)
Definition replace_invalid (rs : list N) : list N :=
  map (fun r => let r' := unicode_ToLower r in if allowed r' then r' else hyphen) rs.

(** [strings.Trim(s, "-")] on a byte list. *)
Fixpoint trim_left (l : list N) : list N :=
  match l with
  | b :: t => if (b =? hyphen)%N then trim_left t else l
  | [] => []
  end.
Definition trim_right (l : list N) : list N := rev (trim_left (rev l)).
Definition Trim_hyphen (l : list N) : list N := trim_right (trim_left l).

(** [sanitizeName], controller.go lines 460-474. After the replacement every
    rune is one ASCII byte, so [len(sanitized)] is the number of runes. *)
Definition sanitize_bytes (rs : list N) : list N :=
  let sanitized := replace_invalid rs in
  let sanitized := Trim_hyphen sanitized in
  if (63 <? length sanitized)%nat then take 63%nat sanitized else sanitized.

Definition sanitizeName (name : string) : string :=
  of_bytes (sanitize_bytes (runes name)).

Local Close Scope N_scope.

(** ** [strings.Contains], [strings.Join], number formatting *)

Fixpoint HasPrefix (s prefix : string) : bool :=
  match prefix, s with
  | EmptyString, _ => true
  | String c p, String d t => if Ascii.eqb c d then HasPrefix t p else false
  | String _ _, EmptyString => false
  end.

Fixpoint Contains (s substr : string) : bool :=
  HasPrefix s substr ||
  match s with
  | EmptyString => false
  | String _ t => Contains t substr
  end.

Fixpoint Join (elems : list string) (sep : string) : string :=
  match elems with
  | [] => ""
  | [e] => e
  | e :: rest => e +:+ sep +:+ Join rest sep
  end.

(** [%d] *)
Definition itoa (z : Z) : string := NilZero.string_of_int (Z.to_int z).

(** ** [float64] and the [%.Nf] verb

    A [float64] is a binary64 value, held as the Standard Library's
    [spec_float]: sign, mantissa, binary exponent. [%.Nf] prints the exact
    value rounded to [prec] decimals, ties to even; an infinity is printed
    with its sign, [+Inf] or [-Inf]. *)
Definition float64 := spec_float.

Definition pad_left (n : nat) (s : string) : string :=
  of_bytes (repeat 0x30%N (n - String.length s)) +:+ s.

Definition round_scaled (prec : nat) (m : positive) (e : Z) : Z :=
  let num := (Z.pos m * 10 ^ Z.of_nat prec * 2 ^ Z.max e 0)%Z in
  let den := (2 ^ Z.max (- e) 0)%Z in
  let q := (num / den)%Z in
  let r := (num mod den)%Z in
  if (den <? 2 * r)%Z then (q + 1)%Z
  else if (2 * r =? den)%Z && Z.odd q then (q + 1)%Z
  else q.

Definition fixed (prec : nat) (q : Z) : string :=
  let unit := (10 ^ Z.of_nat prec)%Z in
  match prec with
  | O => itoa q
  | _ => itoa (q / unit) +:+ "." +:+ pad_left prec (itoa (q mod unit))
  end.

Definition formatFloat (prec : nat) (f : float64) : string :=
  match f with
  | S754_nan => "NaN"
  | S754_infinity neg => if neg then "-Inf" else "+Inf"
  | S754_zero neg => (if neg then "-" else "") +:+ fixed prec 0
  | S754_finite neg m e => (if neg then "-" else "") +:+ fixed prec (round_scaled prec m e)
  end.

(** The float literals of the source, as binary64. *)
Definition f0_9 : float64 := S754_finite false 8106479329266893 (-53).
Definition f1_0 : float64 := S754_finite false 4503599627370496 (-52).
Definition f2_0 : float64 := S754_finite false 4503599627370496 (-51).

End GoStrings.

Import GoStrings.


(* ===================================================================== *)
(** * The object model *)
(* ===================================================================== *)

Module API.

(** [metav1.Time]: seconds from Go's zero instant, so that [IsZero] is [= 0]. *)
Definition Time := Z.
Definition Time_IsZero (t : Time) : bool := (t =? 0)%Z.

(** A [*metav1.Time]: [IsZero] holds of [nil] and of the zero instant. *)
Definition TimePtr_IsZero (t : option Time) : bool :=
  match t with
  | None => true
  | Some t => Time_IsZero t
  end.

Record GroupVersionKind := {
  Group : string;
  Version : string;
  gvkKind : string;
}.

Definition apiVersion_of (gvk : GroupVersionKind) : string :=
  if String.eqb (Group gvk) "" then Version gvk
  else Group gvk +:+ "/" +:+ Version gvk.

Record OwnerReference := {
  orAPIVersion : string;
  orKind : string;
  orName : string;
  orUID : string;
  orController : option bool;
  orBlockOwnerDeletion : option bool;
}.

Record ObjectMeta := {
  Name : string;
  Namespace : string;
  Labels : gmap string string;
  ResourceVersion : string;
  Generation : Z;
  UID : string;
  DeletionTimestamp : option Time;
  Finalizers : list string;
  OwnerReferences : list OwnerReference;
}.

(** The [ObjectMeta] a builder writes: name, namespace and labels. *)
Definition mkMeta (name namespace : string) (labels : gmap string string) : ObjectMeta :=
  {| Name := name; Namespace := namespace; Labels := labels;
     ResourceVersion := ""; Generation := 0; UID := "";
     DeletionTimestamp := None; Finalizers := []; OwnerReferences := [] |}.

Definition set_ResourceVersion (rv : string) (m : ObjectMeta) : ObjectMeta :=
  {| Name := Name m; Namespace := Namespace m; Labels := Labels m;
     ResourceVersion := rv; Generation := Generation m; UID := UID m;
     DeletionTimestamp := DeletionTimestamp m; Finalizers := Finalizers m;
     OwnerReferences := OwnerReferences m |}.

Definition set_OwnerReferences (refs : list OwnerReference) (m : ObjectMeta) : ObjectMeta :=
  {| Name := Name m; Namespace := Namespace m; Labels := Labels m;
     ResourceVersion := ResourceVersion m; Generation := Generation m; UID := UID m;
     DeletionTimestamp := DeletionTimestamp m; Finalizers := Finalizers m;
     OwnerReferences := refs |}.

Definition set_Finalizers (fs : list string) (m : ObjectMeta) : ObjectMeta :=
  {| Name := Name m; Namespace := Namespace m; Labels := Labels m;
     ResourceVersion := ResourceVersion m; Generation := Generation m; UID := UID m;
     DeletionTimestamp := DeletionTimestamp m; Finalizers := fs;
     OwnerReferences := OwnerReferences m |}.

(** [types.NamespacedName] *)
Record NamespacedName := {
  nnNamespace : string;
  nnName : string;
}.

(** ** core/v1, apps/v1, rbac/v1: the fields the builders set *)

(** [corev1.ResourceRequirements], an opaque pass-through of the spec. *)
Record ResourceRequirements := {
  Limits : list (string * string);
  Requests : list (string * string);
}.

Record ContainerPort := {
  ContainerPort_ : Z;
  cpName : string;
  cpProtocol : string;
}.

(** An [EnvVar] whose value comes from a key of a secret. *)
Record EnvVar := {
  evName : string;
  evSecretName : string;
  evSecretKey : string;
}.

Record VolumeMount := {
  vmName : string;
  MountPath : string;
}.

(** A [Volume] backed by a config map. *)
Record Volume := {
  volName : string;
  volConfigMap : string;
}.

Record Container := {
  cName : string;
  Image : string;
  Args : list string;
  Ports : list ContainerPort;
  Resources : ResourceRequirements;
  Env : list EnvVar;
  VolumeMounts : list VolumeMount;
}.

Record PodSpec := {
  ServiceAccountName : string;
  Containers : list Container;
  Volumes : list Volume;
}.

Record PodTemplateSpec := {
  tplLabels : gmap string string;
  tplSpec : PodSpec;
}.

Record DeploymentSpec := {
  Replicas : option Z;                 (* *int32 *)
  MatchLabels : gmap string string;    (* Selector.MatchLabels *)
  Template : PodTemplateSpec;
}.

Record DeploymentStatus := {
  ReadyReplicas : Z;
}.

Record Deployment := {
  dMeta : ObjectMeta;
  dSpec : DeploymentSpec;
  dStatus : DeploymentStatus;
}.

Record ServicePort := {
  spName : string;
  Port : Z;
  TargetPort : Z;
  spProtocol : string;
}.

Record ServiceSpec := {
  Selector : gmap string string;
  svcPorts : list ServicePort;
  svcType : string;
}.

Record Service := {
  sMeta : ObjectMeta;
  sSpec : ServiceSpec;
}.

Record ServiceAccount := {
  saMeta : ObjectMeta;
}.

Record PolicyRule := {
  APIGroups : list string;
  prResources : list string;
  Verbs : list string;
}.

Record Role := {
  rMeta : ObjectMeta;
  Rules : list PolicyRule;
}.

Record Subject := {
  subjKind : string;
  subjName : string;
  subjNamespace : string;
}.

Record RoleRef := {
  rrAPIGroup : string;
  rrKind : string;
  rrName : string;
}.

Record RoleBinding := {
  rbMeta : ObjectMeta;
  Subjects : list Subject;
  RoleRef_ : RoleRef;
}.

Record ConfigMap := {
  cmMeta : ObjectMeta;
  Data : gmap string string;
}.

(** ** [unstructured.Unstructured]

    The nested [map[string]interface{}] of the source: its [apiVersion] and
    [kind] entries as a [GroupVersionKind], its [metadata] entry through the
    [ObjectMeta] accessors the controller uses ([GetName],
    [GetResourceVersion], [SetResourceVersion], owner references), and its
    [spec] entry as a tree of values. *)
#[warnings="-register-all"]
Inductive Value :=
| VString (s : string)
| VInt (z : Z)
| VList (l : list Value)
| VMap (m : list (string * Value)).

Record Unstructured := {
  uGVK : GroupVersionKind;
  uMeta : ObjectMeta;
  uSpec : Value;
}.

(** ** The InferenceScheduler API, inferencescheduler_types.go *)

Record ScorerPlugin := {
  Enabled : bool;
  Weight : option float64;
  Parameters : gmap string string;
}.

Record PluginConfig := {
  LoadAwareScorer : option ScorerPlugin;
  PrefixCacheScorer : option ScorerPlugin;
  KVCacheUtilizationScorer : option ScorerPlugin;
}.

Record ModelServerSpec := {
  msType : string;
  ModelName : string;
  msReplicas : Z;                              (* int32 *)
  msImage : string;
  msResources : ResourceRequirements;
  EnablePrefixCaching : bool;
  GPUMemoryUtilization : option float64;       (* *float64 *)
  HFTokenSecretName : string;
  msPort : Z;                                  (* int32 *)
  msLabels : gmap string string;
}.

Record EndpointPickerSpec := {
  eppImage : string;
  eppReplicas : Z;
  GRPCPort : Z;
  Plugins : PluginConfig;
  eppResources : ResourceRequirements;
}.

Record GatewaySpec := {
  ClassName : string;
  ListenerPort : Z;
  ServiceType : string;
  gwName : string;
}.

Record InferenceSchedulerSpec := {
  ModelServer : ModelServerSpec;
  EndpointPicker : EndpointPickerSpec;
  Gateway : GatewaySpec;
}.

(** [metav1.Condition]; [ConditionStatus] is a string type. *)
Record Condition := {
  cType : string;
  cStatus : string;
  ObservedGeneration : Z;
  LastTransitionTime : Time;
  Reason : string;
  Message : string;
}.

Definition ConditionTrue : string := "True".
Definition ConditionFalse : string := "False".

Record InferenceSchedulerStatus := {
  Conditions : list Condition;
  Phase : string;
  ModelServerReplicas : Z;
  EPPReplicas : Z;
  GatewayReady : bool;
  InferencePoolReady : bool;
  PrerequisitesValidated : bool;
  PrerequisiteMessage : string;
}.

Record InferenceScheduler := {
  isMeta : ObjectMeta;
  Spec : InferenceSchedulerSpec;
  Status : InferenceSchedulerStatus;
}.

Definition with_meta (m : ObjectMeta) (o : InferenceScheduler) : InferenceScheduler :=
  {| isMeta := m; Spec := Spec o; Status := Status o |}.
Definition with_status (st : InferenceSchedulerStatus) (o : InferenceScheduler) : InferenceScheduler :=
  {| isMeta := isMeta o; Spec := Spec o; Status := st |}.

(** Assignments to single status fields. *)
Definition set_Conditions (cs : list Condition) (st : InferenceSchedulerStatus) :=
  {| Conditions := cs; Phase := Phase st; ModelServerReplicas := ModelServerReplicas st;
     EPPReplicas := EPPReplicas st; GatewayReady := GatewayReady st;
     InferencePoolReady := InferencePoolReady st;
     PrerequisitesValidated := PrerequisitesValidated st;
     PrerequisiteMessage := PrerequisiteMessage st |}.
Definition set_Phase (p : string) (st : InferenceSchedulerStatus) :=
  {| Conditions := Conditions st; Phase := p; ModelServerReplicas := ModelServerReplicas st;
     EPPReplicas := EPPReplicas st; GatewayReady := GatewayReady st;
     InferencePoolReady := InferencePoolReady st;
     PrerequisitesValidated := PrerequisitesValidated st;
     PrerequisiteMessage := PrerequisiteMessage st |}.
Definition set_ModelServerReplicas (n : Z) (st : InferenceSchedulerStatus) :=
  {| Conditions := Conditions st; Phase := Phase st; ModelServerReplicas := n;
     EPPReplicas := EPPReplicas st; GatewayReady := GatewayReady st;
     InferencePoolReady := InferencePoolReady st;
     PrerequisitesValidated := PrerequisitesValidated st;
     PrerequisiteMessage := PrerequisiteMessage st |}.
Definition set_EPPReplicas (n : Z) (st : InferenceSchedulerStatus) :=
  {| Conditions := Conditions st; Phase := Phase st; ModelServerReplicas := ModelServerReplicas st;
     EPPReplicas := n; GatewayReady := GatewayReady st;
     InferencePoolReady := InferencePoolReady st;
     PrerequisitesValidated := PrerequisitesValidated st;
     PrerequisiteMessage := PrerequisiteMessage st |}.
Definition set_GatewayReady (b : bool) (st : InferenceSchedulerStatus) :=
  {| Conditions := Conditions st; Phase := Phase st; ModelServerReplicas := ModelServerReplicas st;
     EPPReplicas := EPPReplicas st; GatewayReady := b;
     InferencePoolReady := InferencePoolReady st;
     PrerequisitesValidated := PrerequisitesValidated st;
     PrerequisiteMessage := PrerequisiteMessage st |}.
Definition set_InferencePoolReady (b : bool) (st : InferenceSchedulerStatus) :=
  {| Conditions := Conditions st; Phase := Phase st; ModelServerReplicas := ModelServerReplicas st;
     EPPReplicas := EPPReplicas st; GatewayReady := GatewayReady st;
     InferencePoolReady := b;
     PrerequisitesValidated := PrerequisitesValidated st;
     PrerequisiteMessage := PrerequisiteMessage st |}.
Definition set_PrerequisitesValidated (b : bool) (st : InferenceSchedulerStatus) :=
  {| Conditions := Conditions st; Phase := Phase st; ModelServerReplicas := ModelServerReplicas st;
     EPPReplicas := EPPReplicas st; GatewayReady := GatewayReady st;
     InferencePoolReady := InferencePoolReady st;
     PrerequisitesValidated := b;
     PrerequisiteMessage := PrerequisiteMessage st |}.
Definition set_PrerequisiteMessage (m : string) (st : InferenceSchedulerStatus) :=
  {| Conditions := Conditions st; Phase := Phase st; ModelServerReplicas := ModelServerReplicas st;
     EPPReplicas := EPPReplicas st; GatewayReady := GatewayReady st;
     InferencePoolReady := InferencePoolReady st;
     PrerequisitesValidated := PrerequisitesValidated st;
     PrerequisiteMessage := m |}.

(** ** [client.Object]: the kinds the controller reads and writes *)

Inductive Kind :=
| KInferenceScheduler
| KDeployment
| KService
| KServiceAccount
| KRole
| KRoleBinding
| KConfigMap
| KUnstructured (gvk : GroupVersionKind).

(** The Go type a typed client decodes an object of each kind into. *)
Definition ObjOf (k : Kind) : Type :=
  match k with
  | KInferenceScheduler => InferenceScheduler
  | KDeployment => Deployment
  | KService => Service
  | KServiceAccount => ServiceAccount
  | KRole => Role
  | KRoleBinding => RoleBinding
  | KConfigMap => ConfigMap
  | KUnstructured _ => Unstructured
  end.

Definition getMeta {k : Kind} : ObjOf k -> ObjectMeta :=
  match k with
  | KInferenceScheduler => isMeta
  | KDeployment => dMeta
  | KService => sMeta
  | KServiceAccount => saMeta
  | KRole => rMeta
  | KRoleBinding => rbMeta
  | KConfigMap => cmMeta
  | KUnstructured _ => uMeta
  end.

Definition setMeta {k : Kind} (m : ObjectMeta) : ObjOf k -> ObjOf k :=
  match k return ObjOf k -> ObjOf k with
  | KInferenceScheduler => with_meta m
  | KDeployment => fun d => {| dMeta := m; dSpec := dSpec d; dStatus := dStatus d |}
  | KService => fun s => {| sMeta := m; sSpec := sSpec s |}
  | KServiceAccount => fun _ => {| saMeta := m |}
  | KRole => fun r => {| rMeta := m; Rules := Rules r |}
  | KRoleBinding => fun b => {| rbMeta := m; Subjects := Subjects b; RoleRef_ := RoleRef_ b |}
  | KConfigMap => fun c => {| cmMeta := m; Data := Data c |}
  | KUnstructured _ => fun u => {| uGVK := uGVK u; uMeta := m; uSpec := uSpec u |}
  end.

(** [client.ObjectKeyFromObject] *)
Definition ObjectKeyFromObject {k : Kind} (obj : ObjOf k) : NamespacedName :=
  {| nnNamespace := Namespace (getMeta obj); nnName := Name (getMeta obj) |}.

(** [obj.SetResourceVersion(v)] *)
Definition SetResourceVersion {k : Kind} (v : string) (obj : ObjOf k) : ObjOf k :=
  setMeta (set_ResourceVersion v (getMeta obj)) obj.

(** An object of any kind, for the call trace and the store. *)
Record Object := {
  oKind : Kind;
  oValue : ObjOf oKind;
}.

Definition oMeta (o : Object) : ObjectMeta := getMeta (oValue o).

End API.

Import API.

(* ===================================================================== *)
(** * resources.go: the builders *)
(* ===================================================================== *)

Module Builders.

(** Constants, controller.go lines 44-53. *)
Definition finalizerName : string := "llm.llm-d.io/finalizer".
Definition defaultModelServerImage : string := "vllm/vllm-openai:latest".
Definition defaultEPPImage : string := "ghcr.io/llm-d/llm-d-inference-scheduler:v0.3.2".
Definition defaultModelServerPort : Z := 8000.
Definition defaultEPPGRPCPort : Z := 9002.
Definition defaultGatewayPort : Z := 80.

(** [getDefaultInt32], [getDefaultString], [getDefaultFloat64]
    (controller.go lines 476-498). A pointer argument is an [option]. *)
Definition getDefaultInt32 (value : option Z) (defaultValue : Z) : Z :=
  match value with
  | Some v => v
  | None => defaultValue
  end.

Definition getDefaultString (value defaultValue : string) : string :=
  if negb (String.eqb value "") then value else defaultValue.

Definition getDefaultFloat64 (value : option float64) (defaultValue : float64) : float64 :=
  match value with
  | Some v => v
  | None => defaultValue
  end.

(** [&x], the address of a field: a pointer that is never nil. *)
Definition addr {A : Type} (x : A) : option A := Some x.

Definition name_of (infScheduler : InferenceScheduler) : string := Name (isMeta infScheduler).
Definition namespace_of (infScheduler : InferenceScheduler) : string := Namespace (isMeta infScheduler).

Definition ProtocolTCP : string := "TCP".
Definition ServiceTypeClusterIP : string := "ClusterIP".

(** [buildModelServerDeployment], resources.go lines 33-116. *)
Definition buildModelServerDeployment (infScheduler : InferenceScheduler) : Deployment :=
  let ms := ModelServer (Spec infScheduler) in
  let modelName := sanitizeName (ModelName ms) in
  let labels : gmap string string :=
    <["app" := "vllm"]> (<["model" := modelName]>
    (<["app.kubernetes.io/name" := "model-server"]>
    (<["app.kubernetes.io/instance" := name_of infScheduler]>
    (<["app.kubernetes.io/component" := "inference"]> ∅)))) in
  (* for k, v := range Labels { labels[k] = v } *)
  let labels := msLabels ms ∪ labels in
  let replicas := getDefaultInt32 (addr (msReplicas ms)) 2 in
  let image := getDefaultString (msImage ms) defaultModelServerImage in
  let port := getDefaultInt32 (addr (msPort ms)) defaultModelServerPort in
  let args := ["--model=" +:+ ModelName ms; "--port=" +:+ itoa port] in
  let args := if EnablePrefixCaching ms then (args ++ ["--enable-prefix-caching"])%list else args in
  let gpuUtil := getDefaultFloat64 (GPUMemoryUtilization ms) f0_9 in
  let args := (args ++ ["--gpu-memory-utilization=" +:+ formatFloat 2 gpuUtil])%list in
  {| dMeta := mkMeta (name_of infScheduler +:+ "-vllm") (namespace_of infScheduler) labels;
     dSpec := {|
       Replicas := Some replicas;
       MatchLabels := labels;
       Template := {|
         tplLabels := labels;
         tplSpec := {|
           ServiceAccountName := "";
           Containers := [ {|
             cName := "vllm";
             Image := image;
             Args := args;
             Ports := [ {| ContainerPort_ := port; cpName := "http"; cpProtocol := ProtocolTCP |} ];
             Resources := msResources ms;
             Env := [ {| evName := "HF_TOKEN";
                         evSecretName := HFTokenSecretName ms;
                         evSecretKey := "token" |} ];
             VolumeMounts := [] |} ];
           Volumes := [] |} |} |};
     dStatus := {| ReadyReplicas := 0 |} |}.

(** [buildModelServerService], resources.go lines 119-150. *)
Definition buildModelServerService (infScheduler : InferenceScheduler) : Service :=
  let ms := ModelServer (Spec infScheduler) in
  let modelName := sanitizeName (ModelName ms) in
  let labels : gmap string string := <["app" := "vllm"]> (<["model" := modelName]> ∅) in
  let port := getDefaultInt32 (addr (msPort ms)) defaultModelServerPort in
  {| sMeta := mkMeta (name_of infScheduler +:+ "-vllm") (namespace_of infScheduler) labels;
     sSpec := {|
       Selector := labels;
       svcPorts := [ {| spName := "http"; Port := port; TargetPort := port;
                        spProtocol := ProtocolTCP |} ];
       svcType := ServiceTypeClusterIP |} |}.

(** [buildEPPServiceAccount], resources.go lines 153-160. *)
Definition buildEPPServiceAccount (infScheduler : InferenceScheduler) : ServiceAccount :=
  {| saMeta := mkMeta (name_of infScheduler +:+ "-epp") (namespace_of infScheduler) ∅ |}.

(** [buildEPPRole], resources.go lines 163-182. *)
Definition buildEPPRole (infScheduler : InferenceScheduler) : Role :=
  {| rMeta := mkMeta (name_of infScheduler +:+ "-epp") (namespace_of infScheduler) ∅;
     Rules := [
       {| APIGroups := [""]; prResources := ["pods"]; Verbs := ["get"; "list"; "watch"] |};
       {| APIGroups := ["inference.networking.k8s.io"]; prResources := ["inferencepools"];
          Verbs := ["get"; "list"; "watch"] |} ] |}.

(** [buildEPPRoleBinding], resources.go lines 185-204. *)
Definition buildEPPRoleBinding (infScheduler : InferenceScheduler) : RoleBinding :=
  {| rbMeta := mkMeta (name_of infScheduler +:+ "-epp") (namespace_of infScheduler) ∅;
     Subjects := [ {| subjKind := "ServiceAccount";
                      subjName := name_of infScheduler +:+ "-epp";
                      subjNamespace := namespace_of infScheduler |} ];
     RoleRef_ := {| rrAPIGroup := "rbac.authorization.k8s.io"; rrKind := "Role";
                    rrName := name_of infScheduler +:+ "-epp" |} |}.

(** A line feed, for the YAML text of the plugin configuration. *)
Definition LF : string := String (ascii_of_N 10) "".

(** [m[key]] on a [map[string]string]: the empty string when absent. *)
Definition index (m : gmap string string) (key : string) : string :=
  match m !! key with
  | Some v => v
  | None => ""
  end.

Definition scorer_enabled (p : option ScorerPlugin) : option ScorerPlugin :=
  match p with
  | Some pl => if Enabled pl then Some pl else None
  | None => None
  end.

(** [buildEPPConfigMap], resources.go lines 207-255. *)
Definition buildEPPConfigMap (infScheduler : InferenceScheduler) : ConfigMap :=
  let plugins := Plugins (EndpointPicker (Spec infScheduler)) in
  let pluginConfig :=
    "apiVersion: inference.networking.x-k8s.io/v1alpha1" +:+ LF +:+
    "kind: EndpointPickerConfig" +:+ LF +:+
    "plugins:" in
  let pluginConfig :=
    match scorer_enabled (LoadAwareScorer plugins) with
    | Some pl =>
      let weight := getDefaultFloat64 (Weight pl) f1_0 in
      pluginConfig +:+ LF +:+
      "  - type: load-aware-scorer" +:+ LF +:+
      "    weight: " +:+ formatFloat 1 weight +:+ LF +:+
      "    parameters:" +:+ LF +:+
      "      queueThreshold: " +:+ String (ascii_of_N 34) "" +:+
        getDefaultString (index (Parameters pl) "queueThreshold") "128" +:+
        String (ascii_of_N 34) ""
    | None => pluginConfig
    end in
  let pluginConfig :=
    match scorer_enabled (PrefixCacheScorer plugins) with
    | Some pl =>
      let weight := getDefaultFloat64 (Weight pl) f2_0 in
      pluginConfig +:+ LF +:+
      "  - type: prefix-cache-scorer" +:+ LF +:+
      "    weight: " +:+ formatFloat 1 weight +:+ LF +:+
      "    parameters:" +:+ LF +:+
      "      cacheHitBonus: " +:+ String (ascii_of_N 34) "" +:+
        getDefaultString (index (Parameters pl) "cacheHitBonus") "1.0" +:+
        String (ascii_of_N 34) ""
    | None => pluginConfig
    end in
  let pluginConfig :=
    match scorer_enabled (KVCacheUtilizationScorer plugins) with
    | Some pl =>
      let weight := getDefaultFloat64 (Weight pl) f1_0 in
      pluginConfig +:+ LF +:+
      "  - type: kv-cache-utilization-scorer" +:+ LF +:+
      "    weight: " +:+ formatFloat 1 weight
    | None => pluginConfig
    end in
  {| cmMeta := mkMeta (name_of infScheduler +:+ "-epp-config") (namespace_of infScheduler) ∅;
     Data := <["plugins.yaml" := pluginConfig]> ∅ |}.

(** [buildEPPDeployment], resources.go lines 258-343. *)
Definition buildEPPDeployment (infScheduler : InferenceScheduler) : Deployment :=
  let epp := EndpointPicker (Spec infScheduler) in
  let labels : gmap string string :=
    <["app" := "epp"]> (<["app.kubernetes.io/name" := "endpoint-picker"]>
    (<["app.kubernetes.io/instance" := name_of infScheduler]>
    (<["app.kubernetes.io/component" := "routing"]> ∅))) in
  let replicas := getDefaultInt32 (addr (eppReplicas epp)) 1 in
  let image := getDefaultString (eppImage epp) defaultEPPImage in
  let grpcPort := getDefaultInt32 (addr (GRPCPort epp)) defaultEPPGRPCPort in
  {| dMeta := mkMeta (name_of infScheduler +:+ "-epp") (namespace_of infScheduler) labels;
     dSpec := {|
       Replicas := Some replicas;
       MatchLabels := labels;
       Template := {|
         tplLabels := labels;
         tplSpec := {|
           ServiceAccountName := name_of infScheduler +:+ "-epp";
           Containers := [ {|
             cName := "epp";
             Image := image;
             Args := [ "--pool-name=" +:+ name_of infScheduler +:+ "-pool";
                       "--pool-namespace=" +:+ namespace_of infScheduler;
                       "--grpc-port=" +:+ itoa grpcPort;
                       "--grpc-health-port=9003";
                       "--config-file=/config/plugins.yaml";
                       "--v=2" ];
             Ports := [ {| ContainerPort_ := grpcPort; cpName := "grpc"; cpProtocol := ProtocolTCP |};
                        {| ContainerPort_ := 9003; cpName := "health"; cpProtocol := ProtocolTCP |};
                        {| ContainerPort_ := 9090; cpName := "metrics"; cpProtocol := ProtocolTCP |} ];
             Resources := eppResources epp;
             Env := [];
             VolumeMounts := [ {| vmName := "config"; MountPath := "/config" |} ] |} ];
           Volumes := [ {| volName := "config";
                           volConfigMap := name_of infScheduler +:+ "-epp-config" |} ] |} |} |};
     dStatus := {| ReadyReplicas := 0 |} |}.

(** [buildEPPService], resources.go lines 346-386. *)
Definition buildEPPService (infScheduler : InferenceScheduler) : Service :=
  let epp := EndpointPicker (Spec infScheduler) in
  let labels : gmap string string := <["app" := "epp"]> ∅ in
  let grpcPort := getDefaultInt32 (addr (GRPCPort epp)) defaultEPPGRPCPort in
  {| sMeta := mkMeta (name_of infScheduler +:+ "-epp") (namespace_of infScheduler) labels;
     sSpec := {|
       Selector := labels;
       svcPorts := [
         {| spName := "grpc"; Port := grpcPort; TargetPort := grpcPort; spProtocol := ProtocolTCP |};
         {| spName := "health"; Port := 9003; TargetPort := 9003; spProtocol := ProtocolTCP |};
         {| spName := "metrics"; Port := 9090; TargetPort := 9090; spProtocol := ProtocolTCP |} ];
       svcType := ServiceTypeClusterIP |} |}.

Definition gvkInferencePool : GroupVersionKind :=
  {| Group := "inference.networking.k8s.io"; Version := "v1"; gvkKind := "InferencePool" |}.
Definition gvkGateway : GroupVersionKind :=
  {| Group := "gateway.networking.k8s.io"; Version := "v1"; gvkKind := "Gateway" |}.
Definition gvkHTTPRoute : GroupVersionKind :=
  {| Group := "gateway.networking.k8s.io"; Version := "v1"; gvkKind := "HTTPRoute" |}.
Definition gvkGatewayClass : GroupVersionKind :=
  {| Group := "gateway.networking.k8s.io"; Version := "v1"; gvkKind := "GatewayClass" |}.

(** [buildInferencePool], resources.go lines 389-427. *)
Definition buildInferencePool (infScheduler : InferenceScheduler) : Unstructured :=
  let modelName := sanitizeName (ModelName (ModelServer (Spec infScheduler))) in
  let labels := VMap [("app", VString "vllm"); ("model", VString modelName)] in
  let grpcPort := getDefaultInt32 (addr (GRPCPort (EndpointPicker (Spec infScheduler)))) defaultEPPGRPCPort in
  let modelServerPort := getDefaultInt32 (addr (msPort (ModelServer (Spec infScheduler)))) defaultModelServerPort in
  {| uGVK := gvkInferencePool;
     uMeta := mkMeta (name_of infScheduler +:+ "-pool") (namespace_of infScheduler) ∅;
     uSpec := VMap [
       ("selector", VMap [("matchLabels", labels)]);
       ("targetPorts", VList [VMap [("number", VInt modelServerPort)]]);
       ("endpointPickerRef", VMap [
          ("name", VString (name_of infScheduler +:+ "-epp"));
          ("port", VInt grpcPort);
          ("failureMode", VString "FailOpen")]) ] |}.

(** [buildGateway], resources.go lines 430-461. *)
Definition buildGateway (infScheduler : InferenceScheduler) : Unstructured :=
  let className := getDefaultString (ClassName (Gateway (Spec infScheduler))) "kgateway" in
  let listenerPort := getDefaultInt32 (addr (ListenerPort (Gateway (Spec infScheduler)))) defaultGatewayPort in
  {| uGVK := gvkGateway;
     uMeta := mkMeta (name_of infScheduler +:+ "-gateway") (namespace_of infScheduler) ∅;
     uSpec := VMap [
       ("gatewayClassName", VString className);
       ("listeners", VList [VMap [
          ("name", VString "http");
          ("protocol", VString "HTTP");
          ("port", VInt listenerPort);
          ("allowedRoutes", VMap [("namespaces", VMap [("from", VString "Same")])])]]) ] |}.

(** [buildHTTPRoute], resources.go lines 464-507. *)
Definition buildHTTPRoute (infScheduler : InferenceScheduler) : Unstructured :=
  let modelServerPort := getDefaultInt32 (addr (msPort (ModelServer (Spec infScheduler)))) defaultModelServerPort in
  {| uGVK := gvkHTTPRoute;
     uMeta := mkMeta (name_of infScheduler +:+ "-route") (namespace_of infScheduler) ∅;
     uSpec := VMap [
       ("parentRefs", VList [VMap [
          ("name", VString (name_of infScheduler +:+ "-gateway"));
          ("namespace", VString (namespace_of infScheduler))]]);
       ("rules", VList [VMap [
          ("matches", VList [VMap [("path", VMap [
             ("type", VString "PathPrefix");
             ("value", VString "/v1/")])]]);
          ("backendRefs", VList [VMap [
             ("group", VString "inference.networking.k8s.io");
             ("kind", VString "InferencePool");
             ("name", VString (name_of infScheduler +:+ "-pool"));
             ("port", VInt modelServerPort)]])]]) ] |}.

(** ** Reading an unstructured payload

    [unstructured.NestedFieldNoCopy], with list positions: the value found
    by following map keys and list indices from the root of a payload. *)
Inductive PathStep :=
| Field (name : string)
| Item (index : nat).

Fixpoint assoc (key : string) (m : list (string * Value)) : option Value :=
  match m with
  | [] => None
  | (k, v) :: rest => if String.eqb k key then Some v else assoc key rest
  end.

Fixpoint at_path (path : list PathStep) (v : Value) : option Value :=
  match path with
  | [] => Some v
  | Field f :: rest =>
    match v with
    | VMap m =>
      match assoc f m with
      | Some v' => at_path rest v'
      | None => None
      end
    | _ => None
    end
  | Item n :: rest =>
    match v with
    | VList l =>
      match nth_error l n with
      | Some v' => at_path rest v'
      | None => None
      end
    | _ => None
    end
  end.

(** ** The descriptors of one pass

    The eleven descriptors [Reconcile] builds (controller.go lines 138-245),
    in the order it applies them. *)
Definition descriptors (infScheduler : InferenceScheduler) : list Object :=
  [ {| oKind := KDeployment; oValue := buildModelServerDeployment infScheduler |};
    {| oKind := KService; oValue := buildModelServerService infScheduler |};
    {| oKind := KServiceAccount; oValue := buildEPPServiceAccount infScheduler |};
    {| oKind := KRole; oValue := buildEPPRole infScheduler |};
    {| oKind := KRoleBinding; oValue := buildEPPRoleBinding infScheduler |};
    {| oKind := KConfigMap; oValue := buildEPPConfigMap infScheduler |};
    {| oKind := KDeployment; oValue := buildEPPDeployment infScheduler |};
    {| oKind := KService; oValue := buildEPPService infScheduler |};
    {| oKind := KUnstructured gvkInferencePool; oValue := buildInferencePool infScheduler |};
    {| oKind := KUnstructured gvkGateway; oValue := buildGateway infScheduler |};
    {| oKind := KUnstructured gvkHTTPRoute; oValue := buildHTTPRoute infScheduler |} ].

(** [infScheduler] with other values in [spec.modelServer.type],
    [spec.gateway.serviceType] and [spec.gateway.name]. *)
Definition with_type_serviceType_name (type serviceType name : string)
  (infScheduler : InferenceScheduler) : InferenceScheduler :=
  let ms := ModelServer (Spec infScheduler) in
  let gw := Gateway (Spec infScheduler) in
  {| isMeta := isMeta infScheduler;
     Spec := {|
       ModelServer := {|
         msType := type; ModelName := ModelName ms; msReplicas := msReplicas ms;
         msImage := msImage ms; msResources := msResources ms;
         EnablePrefixCaching := EnablePrefixCaching ms;
         GPUMemoryUtilization := GPUMemoryUtilization ms;
         HFTokenSecretName := HFTokenSecretName ms; msPort := msPort ms;
         msLabels := msLabels ms |};
       EndpointPicker := EndpointPicker (Spec infScheduler);
       Gateway := {| ClassName := ClassName gw; ListenerPort := ListenerPort gw;
                     ServiceType := serviceType; gwName := name |} |};
     Status := Status infScheduler |}.

End Builders.

Import Builders.

(* ===================================================================== *)
(** * Status conditions *)
(* ===================================================================== *)

Module Conditions.

(** [meta.FindStatusCondition]: the first condition of the given type. *)
Fixpoint FindStatusCondition (conditions : list Condition) (conditionType : string)
  : option Condition :=
  match conditions with
  | [] => None
  | c :: rest =>
    if String.eqb (cType c) conditionType then Some c
    else FindStatusCondition rest conditionType
  end.

(** What [meta.SetStatusCondition] writes into the condition it found:
    status and transition time only when the status differs, then reason,
    message and observed generation. [now] is [time.Now()]. *)
Definition overwrite (now : Time) (existingCondition newCondition : Condition) : Condition :=
  let changed := negb (String.eqb (cStatus existingCondition) (cStatus newCondition)) in
  {| cType := cType existingCondition;
     cStatus := if changed then cStatus newCondition else cStatus existingCondition;
     ObservedGeneration := ObservedGeneration newCondition;
     LastTransitionTime :=
       if changed then
         if negb (Time_IsZero (LastTransitionTime newCondition))
         then LastTransitionTime newCondition else now
       else LastTransitionTime existingCondition;
     Reason := Reason newCondition;
     Message := Message newCondition |}.

(** What it appends when the type is not in the list. *)
Definition stamped (now : Time) (newCondition : Condition) : Condition :=
  {| cType := cType newCondition;
     cStatus := cStatus newCondition;
     ObservedGeneration := ObservedGeneration newCondition;
     LastTransitionTime :=
       if Time_IsZero (LastTransitionTime newCondition) then now
       else LastTransitionTime newCondition;
     Reason := Reason newCondition;
     Message := Message newCondition |}.

(** [meta.SetStatusCondition(&conditions, newCondition)]. *)
Fixpoint SetStatusCondition (now : Time) (conditions : list Condition)
  (newCondition : Condition) : list Condition :=
  match conditions with
  | [] => [stamped now newCondition]
  | c :: rest =>
    if String.eqb (cType c) (cType newCondition)
    then overwrite now c newCondition :: rest
    else c :: SetStatusCondition now rest newCondition
  end.

(** [updateCondition], controller.go lines 441-457. [now] is the reading of
    [metav1.Now()]. *)
Definition updateCondition (now : Time) (infScheduler : InferenceScheduler)
  (conditionType status reason message : string) : InferenceScheduler :=
  let condition :=
    {| cType := conditionType;
       cStatus := status;
       ObservedGeneration := Generation (isMeta infScheduler);
       LastTransitionTime := now;
       Reason := reason;
       Message := message |} in
  with_status
    (set_Conditions (SetStatusCondition now (Conditions (Status infScheduler)) condition)
       (Status infScheduler))
    infScheduler.

End Conditions.

Import Conditions.

(* ===================================================================== *)
(** * controllerutil: finalizers and owner references *)
(* ===================================================================== *)

Module ControllerUtil.

Definition ContainsFinalizer (o : InferenceScheduler) (finalizer : string) : bool :=
  existsb (String.eqb finalizer) (Finalizers (isMeta o)).

Definition AddFinalizer (o : InferenceScheduler) (finalizer : string) : InferenceScheduler :=
  if ContainsFinalizer o finalizer then o
  else with_meta (set_Finalizers (Finalizers (isMeta o) ++ [finalizer])%list (isMeta o)) o.

Definition RemoveFinalizer (o : InferenceScheduler) (finalizer : string) : InferenceScheduler :=
  with_meta
    (set_Finalizers (List.filter (fun f => negb (String.eqb f finalizer)) (Finalizers (isMeta o)))
       (isMeta o)) o.

(** Errors. The reason is what [errors.IsNotFound] and
    [meta.IsNoMatchError] test; [Error] is the text of [err.Error()]. *)
Inductive ErrorReason :=
| ReasonNotFound
| ReasonNoMatch
| ReasonAlreadyExists
| ReasonConflict
| ReasonOther.

Record error := {
  reason : ErrorReason;
  Error : string;
}.

Definition IsNotFound (err : error) : bool :=
  match reason err with ReasonNotFound => true | _ => false end.

Definition IsNoMatchError (err : error) : bool :=
  match reason err with ReasonNoMatch => true | _ => false end.

(** [fmt.Errorf] *)
Definition Errorf (msg : string) : error := {| reason := ReasonOther; Error := msg |}.

(** [schema.ParseGroupVersion], the group part: empty without a slash, the
    text before the slash with one, and no parse with more. *)
Fixpoint split_slash (acc s : string) : list string :=
  match s with
  | EmptyString => [acc]
  | String c t =>
    if Ascii.eqb c "/" then acc :: split_slash "" t
    else split_slash (acc +:+ String c "") t
  end.

Definition ParseGroup (apiVersion : string) : option string :=
  match split_slash "" apiVersion with
  | [_] => Some ""
  | [g; _] => Some g
  | _ => None
  end.

Definition referSameObject (a b : OwnerReference) : bool :=
  match ParseGroup (orAPIVersion a), ParseGroup (orAPIVersion b) with
  | Some ga, Some gb =>
    String.eqb ga gb && String.eqb (orKind a) (orKind b) && String.eqb (orName a) (orName b)
  | _, _ => false
  end.

(** [metav1.GetControllerOf] *)
Definition GetControllerOf (refs : list OwnerReference) : option OwnerReference :=
  List.find (fun r => match orController r with Some true => true | _ => false end) refs.

Fixpoint upsertOwnerRef (ref : OwnerReference) (owners : list OwnerReference)
  : list OwnerReference :=
  match owners with
  | [] => [ref]
  | o :: rest =>
    if referSameObject o ref then ref :: rest else o :: upsertOwnerRef ref rest
  end.

(** [runtime.Scheme], as far as the controller uses it: the
    group-version-kind under which the InferenceScheduler type is registered,
    if it is. *)
Definition runtimeScheme := option GroupVersionKind.

(** The name of a scheme, which its errors quote: [runtime.NewScheme]
    names a scheme after the place it was made at, and for a scheme made
    by a program outside apimachinery that is this file and line of
    apimachinery itself. *)
Definition schemeName : string := "pkg/runtime/scheme.go:100".

(** [%q] of a string without quotes or escapes. *)
Definition quoted (s : string) : string :=
  String (ascii_of_N 34) "" +:+ s +:+ String (ascii_of_N 34) "".

Definition controllerRef (gvk : GroupVersionKind) (owner : InferenceScheduler) : OwnerReference :=
  {| orAPIVersion := apiVersion_of gvk;
     orKind := gvkKind gvk;
     orName := Name (isMeta owner);
     orUID := UID (isMeta owner);
     orController := Some true;
     orBlockOwnerDeletion := Some true |}.

(** [ctrl.SetControllerReference(owner, obj, scheme)]: the owner must not be
    in another namespace than the object, its type must be registered, and
    the object must not have another controller. *)
Definition SetControllerReference {k : Kind} (owner : InferenceScheduler) (obj : ObjOf k)
  (scheme : runtimeScheme) : error + ObjOf k :=
  let ownerNs := Namespace (isMeta owner) in
  let objNs := Namespace (getMeta obj) in
  if negb (String.eqb ownerNs "") && String.eqb objNs "" then
    inl (Errorf ("cluster-scoped resource must not have a namespace-scoped owner, owner's namespace "
                 +:+ ownerNs))
  else if negb (String.eqb ownerNs "") && negb (String.eqb ownerNs objNs) then
    inl (Errorf ("cross-namespace owner references are disallowed, owner's namespace "
                 +:+ ownerNs +:+ ", obj's namespace " +:+ objNs))
  else
    match scheme with
    | None =>
      inl (Errorf ("no kind is registered for the type v1alpha1.InferenceScheduler in scheme "
                   +:+ quoted schemeName))
    | Some gvk =>
      let ref := controllerRef gvk owner in
      let refs := OwnerReferences (getMeta obj) in
      match GetControllerOf refs with
      | Some existing =>
        if negb (referSameObject existing ref) then
          inl (Errorf ("Object " +:+ objNs +:+ "/" +:+ Name (getMeta obj)
                       +:+ " is already owned by another " +:+ orKind existing
                       +:+ " controller " +:+ orName existing))
        else inr (setMeta (set_OwnerReferences (upsertOwnerRef ref refs) (getMeta obj)) obj)
      | None => inr (setMeta (set_OwnerReferences (upsertOwnerRef ref refs) (getMeta obj)) obj)
      end
    end.

(** [obj'] is [obj] with the controller reference of [owner] among its
    owner references, and nothing else changed. *)
Definition attached (scheme : runtimeScheme) {k : Kind} (owner : InferenceScheduler)
  (obj obj' : ObjOf k) : Prop :=
  exists gvk refs,
    scheme = Some gvk /\
    In (controllerRef gvk owner) refs /\
    obj' = setMeta (set_OwnerReferences refs (getMeta obj)) obj.

End ControllerUtil.

Import ControllerUtil.

(* ===================================================================== *)
(** * The controller *)
(* ===================================================================== *)

Module Controller.

(** [time.Duration], in nanoseconds. *)
Definition Second : Z := 1000000000.
Definition Minute : Z := 60 * Second.

(** [ctrl.Result] *)
Record Result := {
  Requeue : bool;
  RequeueAfter : Z;
}.

Definition noRequeue : Result := {| Requeue := false; RequeueAfter := 0 |}.
Definition requeueAfter (d : Z) : Result := {| Requeue := false; RequeueAfter := d |}.

(** ** [client.Client]

    The API server seen through the calls the controller makes. [W] is the
    state of the world (the cluster and the clock); every call may change
    it. [Get] decodes into the Go type of the kind asked for. A write
    returns its error, as in the source. On success the client also copies
    the server's answer into the object it was given; under optimistic
    concurrency that answer is the object sent, but for metadata the server
    manages (the resourceVersion), which the controller does not read
    afterwards, so the in-memory object is left as it was sent.

    Every call returns. A panic raised inside the client library is not
    part of this model (the fake client of controller-runtime, for one,
    deep-copies an unstructured payload and panics on the [int32] values
    the builders put there); the one panic the model has is the
    controller's own, the nil dereference in [isDeploymentReady]. *)
Class Client (W : Type) := {
  Get : forall k : Kind, NamespacedName -> W -> (error + ObjOf k) * W;
  List : GroupVersionKind -> option Z -> W -> (error + list Unstructured) * W;
  Create : forall k : Kind, ObjOf k -> W -> option error * W;
  Update : forall k : Kind, ObjOf k -> W -> option error * W;
  StatusUpdate : InferenceScheduler -> W -> option error * W;
  Now : W -> Time;
}.

(** The calls of one invocation, in the order they were made. *)
Inductive Call :=
| CallGet (k : Kind) (key : NamespacedName)
| CallList (gvk : GroupVersionKind) (limit : option Z)
| CallCreate (o : Object)
| CallUpdate (o : Object)
| CallStatusUpdate (o : InferenceScheduler).

(** ** Statements with early return

    A statement either falls through to the next one with a value, or
    returns from the enclosing function, or panics. *)
Inductive Flow (R A : Type) : Type :=
| Next (a : A)
| Return (r : R)
| Panic.
Arguments Next {R A} a.
Arguments Return {R A} r.
Arguments Panic {R A}.

Section Engine.

Context {W : Type} `{Client W}.

(** [r.Scheme] *)
Variable Scheme : runtimeScheme.

Record Run := {
  world : W;
  calls : list Call;
}.

Definition Go (R A : Type) : Type := Run -> Flow R A * Run.

Definition ret {R A} (a : A) : Go R A := fun s => (Next a, s).
Definition return_ {R A} (r : R) : Go R A := fun s => (Return r, s).
Definition panic {R A} : Go R A := fun s => (Panic, s).

Definition bind {R A B} (m : Go R A) (f : A -> Go R B) : Go R B :=
  fun s =>
    match m s with
    | (Next a, s') => f a s'
    | (Return r, s') => (Return r, s')
    | (Panic, s') => (Panic, s')
    end.

(** A call of a function whose body is [body]: its [return] gives the
    value of the call. *)
Definition call {R R'} (body : Go R' R') : Go R R' :=
  fun s =>
    match body s with
    | (Next r, s') => (Next r, s')
    | (Return r, s') => (Next r, s')
    | (Panic, s') => (Panic, s')
    end.

Notation "x <- m ;; k" := (bind m (fun x => k))
  (at level 100, m at next level, right associativity).
Notation "m ;; k" := (bind m (fun _ => k))
  (at level 100, right associativity).

Definition record {R A} (c : Call) (r : A * W) (s : Run) : Flow R A * Run :=
  (Next (fst r), {| world := snd r; calls := calls s ++ [c] |}).

Definition r_Get {R} (k : Kind) (key : NamespacedName) : Go R (error + ObjOf k) :=
  fun s => record (CallGet k key) (Get k key (world s)) s.
Definition r_List {R} (gvk : GroupVersionKind) (limit : option Z)
  : Go R (error + list Unstructured) :=
  fun s => record (CallList gvk limit) (List gvk limit (world s)) s.
Definition r_Create {R} {k : Kind} (obj : ObjOf k) : Go R (option error) :=
  fun s => record (CallCreate {| oKind := k; oValue := obj |}) (Create k obj (world s)) s.
Definition r_Update {R} {k : Kind} (obj : ObjOf k) : Go R (option error) :=
  fun s => record (CallUpdate {| oKind := k; oValue := obj |}) (Update k obj (world s)) s.
Definition r_Status_Update {R} (obj : InferenceScheduler) : Go R (option error) :=
  fun s => record (CallStatusUpdate obj) (StatusUpdate obj (world s)) s.

(** [metav1.Now()] *)
Definition metav1_Now {R} : Go R Time := fun s => (Next (Now (world s)), s).

(** [r.updateCondition(...)]: reads the clock, then sets the condition. *)
Definition r_updateCondition {R} (infScheduler : InferenceScheduler)
  (conditionType status reason message : string) : Go R InferenceScheduler :=
  now <- metav1_Now ;;
  ret (updateCondition now infScheduler conditionType status reason message).

(** ** [createOrUpdate], controller.go lines 390-412 *)
Definition createOrUpdate {k : Kind} (obj : ObjOf k) (owner : InferenceScheduler)
  : Go (option error) (option error) :=
  let key := ObjectKeyFromObject obj in
  r <- r_Get k key ;;
  match r with
  | inl err =>
    if IsNotFound err then
      match SetControllerReference owner obj Scheme with
      | inl err => return_ (Some err)
      | inr obj => e <- r_Create obj ;; return_ e
      end
    else return_ (Some err)
  | inr existing =>
    let obj := SetResourceVersion (ResourceVersion (getMeta existing)) obj in
    match SetControllerReference owner obj Scheme with
    | inl err => return_ (Some err)
    | inr obj => e <- r_Update obj ;; return_ e
    end
  end.

(** ** [createOrUpdateUnstructured], controller.go lines 415-438

    [existing] takes the group-version-kind of [obj]; that is the kind the
    read asks for. *)
Definition createOrUpdateUnstructured (obj : Unstructured) (owner : InferenceScheduler)
  : Go (option error) (option error) :=
  let k := KUnstructured (uGVK obj) in
  let key := ObjectKeyFromObject (k := k) obj in
  r <- r_Get k key ;;
  match r with
  | inl err =>
    if IsNotFound err then
      match SetControllerReference (k := k) owner obj Scheme with
      | inl err => return_ (Some err)
      | inr obj => e <- r_Create (k := k) obj ;; return_ e
      end
    else return_ (Some err)
  | inr existing =>
    let obj := SetResourceVersion (k := k) (ResourceVersion (uMeta existing)) obj in
    match SetControllerReference (k := k) owner obj Scheme with
    | inl err => return_ (Some err)
    | inr obj => e <- r_Update (k := k) obj ;; return_ e
    end
  end.

(** ** [isDeploymentReady], controller.go lines 378-387

    [*deployment.Spec.Replicas] panics on a nil pointer. *)
Definition isDeploymentReady (namespace name : string) : Go (bool * option error) (bool * option error) :=
  r <- r_Get KDeployment {| nnNamespace := namespace; nnName := name |} ;;
  match r with
  | inl err => return_ (false, Some err)
  | inr deployment =>
    match Replicas (dSpec deployment) with
    | None => panic
    | Some replicas => return_ ((ReadyReplicas (dStatus deployment) =? replicas)%Z, None)
    end
  end.

(** ** [contains], controller.go lines 368-375 *)
Definition contains (slice : list string) (substr : string) : bool :=
  existsb (fun item => GoStrings.Contains item substr) slice.

Definition missingGatewayAPI : string :=
  "Gateway API v1.3.0+ (install: kubectl apply -f https://github.com/kubernetes-sigs/gateway-api/releases/download/v1.3.0/standard-install.yaml)".
Definition missingHTTPRoute : string := "Gateway API HTTPRoute CRD".
Definition missingGIE : string :=
  "Gateway API Inference Extension v1.1.0+ (install: kubectl apply -f https://github.com/kubernetes-sigs/gateway-api-inference-extension/releases/download/v1.1.0/manifests.yaml)".
Definition missingGatewayClassCRD : string := "GatewayClass CRD".
Definition missingGatewayClass (gatewayClassName : string) : string :=
  "GatewayClass '" +:+ gatewayClassName +:+
  "' (install gateway implementation: kgateway, istio, or gke)".

Definition missingError (missingPrereqs : list string) : error :=
  Errorf ("missing prerequisites: " +:+ Join missingPrereqs "; " +:+
          ". See installation guide: https://github.com/aneeshkp/inference-scheduler-operator/blob/main/README.md#prerequisites").

(** ** [validatePrerequisites], controller.go lines 292-365 *)
Definition validatePrerequisites (infScheduler : InferenceScheduler)
  : Go (option error) (option error) :=
  let missingPrereqs : list string := [] in
  (* Check Gateway API CRDs exist *)
  r <- r_List gvkGateway (Some 1%Z) ;;
  let missingPrereqs :=
    match r with
    | inl err =>
      if IsNoMatchError err then (missingPrereqs ++ [missingGatewayAPI])%list
      else missingPrereqs
    | inr _ => missingPrereqs
    end in
  (* Check HTTPRoute CRD exists *)
  r <- r_List gvkHTTPRoute (Some 1%Z) ;;
  let missingPrereqs :=
    match r with
    | inl err =>
      if IsNoMatchError err && negb (contains missingPrereqs "Gateway API")
      then (missingPrereqs ++ [missingHTTPRoute])%list
      else missingPrereqs
    | inr _ => missingPrereqs
    end in
  (* Check GIE CRDs exist *)
  r <- r_List gvkInferencePool (Some 1%Z) ;;
  let missingPrereqs :=
    match r with
    | inl err =>
      if IsNoMatchError err then (missingPrereqs ++ [missingGIE])%list
      else missingPrereqs
    | inr _ => missingPrereqs
    end in
  (* Check GatewayClass exists *)
  r <- r_List gvkGatewayClass None ;;
  let missingPrereqs :=
    match r with
    | inl err =>
      if IsNoMatchError err then (missingPrereqs ++ [missingGatewayClassCRD])%list
      else missingPrereqs
    | inr items =>
      (* Check if the requested GatewayClass exists *)
      let gatewayClassName :=
        getDefaultString (ClassName (Gateway (Spec infScheduler))) "kgateway" in
      let found := existsb (fun item => String.eqb (Name (uMeta item)) gatewayClassName) items in
      if negb found then (missingPrereqs ++ [missingGatewayClass gatewayClassName])%list
      else missingPrereqs
    end in
  if (0 <? length missingPrereqs)%nat then return_ (Some (missingError missingPrereqs))
  else return_ None.

(** ** [handleDeletion], controller.go lines 268-288 *)
Definition handleDeletion (infScheduler : InferenceScheduler)
  : Go (Result * option error) (Result * option error) :=
  (if negb (ContainsFinalizer infScheduler finalizerName)
   then return_ (noRequeue, None) else ret tt) ;;
  (* Resources are automatically cleaned up due to owner references *)
  (* Remove finalizer *)
  let infScheduler := RemoveFinalizer infScheduler finalizerName in
  err <- r_Update (k := KInferenceScheduler) infScheduler ;;
  match err with
  | Some err => return_ (noRequeue, Some err)
  | None => return_ (noRequeue, None)
  end.

(** ** [Reconcile], controller.go lines 75-265

    The body is one sequence of statements; it is cut here at the phase
    comments of the source. Each part takes the in-memory object and hands
    it, as the assignments have left it, to the next part. *)
Definition R := (Result * option error)%type.

Definition set_status (f : InferenceSchedulerStatus -> InferenceSchedulerStatus)
  (infScheduler : InferenceScheduler) : InferenceScheduler :=
  with_status (f (Status infScheduler)) infScheduler.

(** Lines 79-109: fetch the instance, handle deletion, add the finalizer,
    set the initial phase. *)
Definition Reconcile_fetch (req : NamespacedName) : Go R InferenceScheduler :=
  (* Fetch the InferenceScheduler instance *)
  r <- r_Get KInferenceScheduler req ;;
  infScheduler <-
    match r with
    | inl err =>
      if IsNotFound err then return_ (noRequeue, None)
      else return_ (noRequeue, Some err)
    | inr infScheduler => ret (infScheduler : InferenceScheduler)
    end ;;
  (* Handle deletion *)
  (if negb (TimePtr_IsZero (DeletionTimestamp (isMeta infScheduler)))
   then res <- call (handleDeletion infScheduler) ;; return_ res
   else ret tt) ;;
  (* Add finalizer if not present *)
  infScheduler <-
    (if negb (ContainsFinalizer infScheduler finalizerName) then
       let infScheduler := AddFinalizer infScheduler finalizerName in
       err <- r_Update (k := KInferenceScheduler) infScheduler ;;
       match err with
       | Some err => return_ (noRequeue, Some err)
       | None => ret infScheduler
       end
     else ret infScheduler) ;;
  (* Set initial phase *)
  if String.eqb (Phase (Status infScheduler)) "" then
    let infScheduler := set_status (set_Phase "Initializing") infScheduler in
    err <- r_Status_Update infScheduler ;;
    match err with
    | Some err => return_ (noRequeue, Some err)
    | None => ret infScheduler
    end
  else ret infScheduler.

(** Lines 111-133, Phase 1: validate prerequisites. *)
Definition Reconcile_phase1 (infScheduler : InferenceScheduler) : Go R InferenceScheduler :=
  verr <- call (validatePrerequisites infScheduler) ;;
  match verr with
  | Some err =>
    let infScheduler := set_status (set_PrerequisitesValidated false) infScheduler in
    let infScheduler := set_status (set_PrerequisiteMessage (Error err)) infScheduler in
    let infScheduler := set_status (set_Phase "PrerequisitesMissing") infScheduler in
    infScheduler <- r_updateCondition infScheduler "PrerequisitesValidated" ConditionFalse
                      "ValidationFailed" (Error err) ;;
    r_Status_Update infScheduler ;;
    (* Requeue after 60 seconds to check again *)
    return_ (requeueAfter (60 * Second), None)
  | None => ret tt
  end ;;
  (* Prerequisites validated successfully *)
  infScheduler <-
    (if negb (PrerequisitesValidated (Status infScheduler)) then
       let infScheduler := set_status (set_PrerequisitesValidated true) infScheduler in
       let infScheduler :=
         set_status (set_PrerequisiteMessage "All prerequisites validated successfully")
           infScheduler in
       r_updateCondition infScheduler "PrerequisitesValidated" ConditionTrue "Validated"
         "Gateway API, GIE, and GatewayClass are present"
     else ret infScheduler) ;;
  let infScheduler := set_status (set_Phase "Deploying") infScheduler in
  r_Status_Update infScheduler ;;
  ret infScheduler.

(** Lines 135-166, Phase 4: deploy the model server. *)
Definition Reconcile_phase4 (infScheduler : InferenceScheduler) : Go R InferenceScheduler :=
  let deployment := buildModelServerDeployment infScheduler in
  cerr <- call (createOrUpdate (k := KDeployment) deployment infScheduler) ;;
  match cerr with
  | Some err =>
    infScheduler <- r_updateCondition infScheduler "ModelServerReady" ConditionFalse
                      "DeploymentFailed" (Error err) ;;
    r_Status_Update infScheduler ;;
    return_ (noRequeue, Some err)
  | None => ret tt
  end ;;
  let service := buildModelServerService infScheduler in
  cerr <- call (createOrUpdate (k := KService) service infScheduler) ;;
  match cerr with
  | Some err => return_ (noRequeue, Some err)
  | None => ret tt
  end ;;
  (* Check deployment readiness *)
  rd <- call (isDeploymentReady (Namespace (dMeta deployment)) (Name (dMeta deployment))) ;;
  let '(ready, err) := rd in
  match err with
  | Some err => return_ (noRequeue, Some err)
  | None => ret tt
  end ;;
  (if negb ready then
     infScheduler <- r_updateCondition infScheduler "ModelServerReady" ConditionFalse
                       "NotReady" "Model server pods are not ready yet" ;;
     let infScheduler := set_status (set_ModelServerReplicas 0) infScheduler in
     r_Status_Update infScheduler ;;
     return_ (requeueAfter (30 * Second), None)
   else ret tt) ;;
  infScheduler <- r_updateCondition infScheduler "ModelServerReady" ConditionTrue "Ready"
                    "All model server pods are running" ;;
  ret (set_status (set_ModelServerReplicas (msReplicas (ModelServer (Spec infScheduler))))
         infScheduler).

(** One [if err := r.createOrUpdate(...); err != nil { return ctrl.Result{}, err }]. *)
Definition apply_or_return {k : Kind} (obj : ObjOf k) (infScheduler : InferenceScheduler)
  : Go R unit :=
  cerr <- call (createOrUpdate obj infScheduler) ;;
  match cerr with
  | Some err => return_ (noRequeue, Some err)
  | None => ret tt
  end.

(** Lines 168-219, Phase 5: deploy the endpoint picker. *)
Definition Reconcile_phase5 (infScheduler : InferenceScheduler) : Go R InferenceScheduler :=
  (* Create EPP resources *)
  let sa := buildEPPServiceAccount infScheduler in
  apply_or_return (k := KServiceAccount) sa infScheduler ;;
  let role := buildEPPRole infScheduler in
  apply_or_return (k := KRole) role infScheduler ;;
  let roleBinding := buildEPPRoleBinding infScheduler in
  apply_or_return (k := KRoleBinding) roleBinding infScheduler ;;
  let configMap := buildEPPConfigMap infScheduler in
  apply_or_return (k := KConfigMap) configMap infScheduler ;;
  let eppDeployment := buildEPPDeployment infScheduler in
  cerr <- call (createOrUpdate (k := KDeployment) eppDeployment infScheduler) ;;
  match cerr with
  | Some err =>
    infScheduler <- r_updateCondition infScheduler "EPPReady" ConditionFalse
                      "DeploymentFailed" (Error err) ;;
    r_Status_Update infScheduler ;;
    return_ (noRequeue, Some err)
  | None => ret tt
  end ;;
  let eppService := buildEPPService infScheduler in
  apply_or_return (k := KService) eppService infScheduler ;;
  (* Check EPP readiness *)
  rd <- call (isDeploymentReady (Namespace (dMeta eppDeployment)) (Name (dMeta eppDeployment))) ;;
  let '(eppReady, err) := rd in
  match err with
  | Some err => return_ (noRequeue, Some err)
  | None => ret tt
  end ;;
  (if negb eppReady then
     infScheduler <- r_updateCondition infScheduler "EPPReady" ConditionFalse
                       "NotReady" "EPP pods are not ready yet" ;;
     let infScheduler := set_status (set_EPPReplicas 0) infScheduler in
     r_Status_Update infScheduler ;;
     return_ (requeueAfter (30 * Second), None)
   else ret tt) ;;
  infScheduler <- r_updateCondition infScheduler "EPPReady" ConditionTrue "Ready"
                    "EPP is running" ;;
  ret (set_status (set_EPPReplicas (eppReplicas (EndpointPicker (Spec infScheduler))))
         infScheduler).

(** Lines 221-233, Phase 6: create the InferencePool. *)
Definition Reconcile_phase6 (infScheduler : InferenceScheduler) : Go R InferenceScheduler :=
  let inferencePool := buildInferencePool infScheduler in
  cerr <- call (createOrUpdateUnstructured inferencePool infScheduler) ;;
  match cerr with
  | Some err =>
    infScheduler <- r_updateCondition infScheduler "InferencePoolReady" ConditionFalse
                      "CreationFailed" (Error err) ;;
    r_Status_Update infScheduler ;;
    return_ (noRequeue, Some err)
  | None => ret tt
  end ;;
  infScheduler <- r_updateCondition infScheduler "InferencePoolReady" ConditionTrue "Ready"
                    "InferencePool created successfully" ;;
  ret (set_status (set_InferencePoolReady true) infScheduler).

(** Lines 235-264, Phase 7: create the Gateway and the HTTPRoute, then the
    final status update. *)
Definition Reconcile_phase7 (infScheduler : InferenceScheduler) : Go R R :=
  let gateway := buildGateway infScheduler in
  cerr <- call (createOrUpdateUnstructured gateway infScheduler) ;;
  match cerr with
  | Some err =>
    infScheduler <- r_updateCondition infScheduler "GatewayReady" ConditionFalse
                      "CreationFailed" (Error err) ;;
    r_Status_Update infScheduler ;;
    return_ (noRequeue, Some err)
  | None => ret tt
  end ;;
  let httpRoute := buildHTTPRoute infScheduler in
  cerr <- call (createOrUpdateUnstructured httpRoute infScheduler) ;;
  match cerr with
  | Some err => return_ (noRequeue, Some err)
  | None => ret tt
  end ;;
  infScheduler <- r_updateCondition infScheduler "GatewayReady" ConditionTrue "Ready"
                    "Gateway and HTTPRoute created successfully" ;;
  let infScheduler := set_status (set_GatewayReady true) infScheduler in
  (* Final status update *)
  let infScheduler := set_status (set_Phase "Ready") infScheduler in
  err <- r_Status_Update infScheduler ;;
  match err with
  | Some err => return_ (noRequeue, Some err)
  | None => ret tt
  end ;;
  (* Requeue after 5 minutes to check health *)
  return_ (requeueAfter (5 * Minute), None).

Definition Reconcile (req : NamespacedName) : Go R R :=
  infScheduler <- Reconcile_fetch req ;;
  infScheduler <- Reconcile_phase1 infScheduler ;;
  infScheduler <- Reconcile_phase4 infScheduler ;;
  infScheduler <- Reconcile_phase5 infScheduler ;;
  infScheduler <- Reconcile_phase6 infScheduler ;;
  Reconcile_phase7 infScheduler.

(** The start of an invocation: no call made yet. *)
Definition start (w : W) : Run := {| world := w; calls := [] |}.

(** One invocation by the driving scheduler, from a world [w]: what
    [Reconcile] returned ([None] for a panic), the world it left, and the
    calls it made. *)
Definition invoke (req : NamespacedName) (w : W) : option R * W * list Call :=
  let '(f, s) := call (R := R) (Reconcile req) (start w) in
  (match f with Next r => Some r | Return r => Some r | Panic => None end,
   world s, calls s).

(** ** [Reconcile] once the instance is fetched

    Lines 89-109 for the instance the fetch returned, and the whole of
    [Reconcile] from there on (lines 89-264). *)
Definition Reconcile_fetched (infScheduler : InferenceScheduler) : Go R InferenceScheduler :=
  (* Handle deletion *)
  (if negb (TimePtr_IsZero (DeletionTimestamp (isMeta infScheduler)))
   then res <- call (handleDeletion infScheduler) ;; return_ res
   else ret tt) ;;
  (* Add finalizer if not present *)
  infScheduler <-
    (if negb (ContainsFinalizer infScheduler finalizerName) then
       let infScheduler := AddFinalizer infScheduler finalizerName in
       err <- r_Update (k := KInferenceScheduler) infScheduler ;;
       match err with
       | Some err => return_ (noRequeue, Some err)
       | None => ret infScheduler
       end
     else ret infScheduler) ;;
  (* Set initial phase *)
  if String.eqb (Phase (Status infScheduler)) "" then
    let infScheduler := set_status (set_Phase "Initializing") infScheduler in
    err <- r_Status_Update infScheduler ;;
    match err with
    | Some err => return_ (noRequeue, Some err)
    | None => ret infScheduler
    end
  else ret infScheduler.

(** Lines 111-264: the phases. *)
Definition Reconcile_phases (infScheduler : InferenceScheduler) : Go R R :=
  infScheduler <- Reconcile_phase1 infScheduler ;;
  infScheduler <- Reconcile_phase4 infScheduler ;;
  infScheduler <- Reconcile_phase5 infScheduler ;;
  infScheduler <- Reconcile_phase6 infScheduler ;;
  Reconcile_phase7 infScheduler.

Definition Reconcile_live (infScheduler : InferenceScheduler) : Go R R :=
  infScheduler <- Reconcile_fetched infScheduler ;;
  Reconcile_phases infScheduler.

(** ** What a computation adds to the trace

    [traces m G]: from every state, [m] appends a list [cs] of calls to the
    trace and ends in [f], with [G cs f]. *)
Definition traces {R A} (m : Go R A) (G : list Call -> Flow R A -> Prop) : Prop :=
  forall s, exists cs, calls (snd (m s)) = (calls s ++ cs)%list /\ G cs (fst (m s)).

(** The write of an upsert of [obj] for [owner]: the descriptor, with the
    owner reference attached, created, or updated under the
    resourceVersion of the object read. *)
Definition applied {k : Kind} (owner : InferenceScheduler) (obj : ObjOf k) (c : Call) : Prop :=
  exists obj' : ObjOf k,
    (c = CallCreate {| oKind := k; oValue := obj' |} /\ attached Scheme owner obj obj')
    \/ (exists rv,
          c = CallUpdate {| oKind := k; oValue := obj' |}
          /\ attached Scheme owner (SetResourceVersion rv obj) obj').

(** The calls of one upsert that returned [res]: the read, then at most
    one write; no write only with an error. *)
Definition upsert_trace {k : Kind} (owner : InferenceScheduler) (obj : ObjOf k)
  (res : option error) (cs : list Call) : Prop :=
  exists tail,
    cs = CallGet k (ObjectKeyFromObject obj) :: tail
    /\ ((tail = [] /\ res <> None) \/ exists c, tail = [c] /\ applied owner obj c).

End Engine.

(** ** Reading a call trace *)

Definition is_root (k : Kind) : bool :=
  match k with KInferenceScheduler => true | _ => false end.

(** A call that reads or writes a child resource. *)
Definition touches_child (c : Call) : bool :=
  match c with
  | CallGet k _ => negb (is_root k)
  | CallCreate o | CallUpdate o => negb (is_root (oKind o))
  | CallList _ _ | CallStatusUpdate _ => false
  end.

(** Kind, namespace and name of an object. *)
Definition ident (o : Object) : Kind * string * string :=
  (oKind o, Namespace (oMeta o), Name (oMeta o)).

(** The child a call creates or replaces, if it does. *)
Definition child_write (c : Call) : option (Kind * string * string) :=
  match c with
  | CallCreate o | CallUpdate o => if is_root (oKind o) then None else Some (ident o)
  | _ => None
  end.

Definition child_writes (cs : list Call) : list (Kind * string * string) :=
  omap child_write cs.

Definition child_creates (cs : list Call) : list (Kind * string * string) :=
  omap (fun c => match c with CallCreate _ => child_write c | _ => None end) cs.

(** A call that sends the root object with the finalizer on it. *)
Definition sends_finalizer (c : Call) : bool :=
  match c with
  | CallCreate o | CallUpdate o =>
    existsb (String.eqb finalizerName) (Finalizers (oMeta o))
  | CallStatusUpdate o => ContainsFinalizer o finalizerName
  | _ => false
  end.




(** What the status writes of a trace say of the prerequisites: the phase,
    the validated flag and the message; and the class of every Gateway a
    trace creates. *)
Definition prerequisites_written (cs : list Call) : list (string * bool * string) :=
  omap (fun c => match c with
                 | CallStatusUpdate o =>
                   Some (Phase (Status o), PrerequisitesValidated (Status o),
                         PrerequisiteMessage (Status o))
                 | _ => None
                 end) cs.

Definition gateway_classes_created (cs : list Call) : list Value :=
  omap (fun c => match c with
                 | CallCreate {| oKind := KUnstructured _; oValue := u |} =>
                   at_path [Field "gatewayClassName"] (uSpec u)
                 | _ => None
                 end) cs.

(** The children of a root object, in the order [Reconcile] applies them. *)
Definition children (namespace name : string) : list (Kind * string * string) :=
  [ (KDeployment, namespace, name +:+ "-vllm");
    (KService, namespace, name +:+ "-vllm");
    (KServiceAccount, namespace, name +:+ "-epp");
    (KRole, namespace, name +:+ "-epp");
    (KRoleBinding, namespace, name +:+ "-epp");
    (KConfigMap, namespace, name +:+ "-epp-config");
    (KDeployment, namespace, name +:+ "-epp");
    (KService, namespace, name +:+ "-epp");
    (KUnstructured gvkInferencePool, namespace, name +:+ "-pool");
    (KUnstructured gvkGateway, namespace, name +:+ "-gateway");
    (KUnstructured gvkHTTPRoute, namespace, name +:+ "-route") ].

(** The result of a list probe: no such type, or another error. *)
Definition no_match {A} (r : error + A) : bool :=
  match r with inl err => IsNoMatchError err | inr _ => false end.
Definition other_error {A} (r : error + A) : bool :=
  match r with inl err => negb (IsNoMatchError err) | inr _ => false end.

(** The missing list [validatePrerequisites] has built after its four
    probes, from what they returned. *)
Definition missing_of (infScheduler : InferenceScheduler)
  (gateways routes pools classes : error + list Unstructured) : list string :=
  ((if no_match gateways then [missingGatewayAPI] else []) ++
   (if no_match routes && negb (no_match gateways) then [missingHTTPRoute] else []) ++
   (if no_match pools then [missingGIE] else []) ++
   match classes with
   | inl err => if IsNoMatchError err then [missingGatewayClassCRD] else []
   | inr items =>
     let gatewayClassName :=
       getDefaultString (ClassName (Gateway (Spec infScheduler))) "kgateway" in
     if existsb (fun item => String.eqb (Name (uMeta item)) gatewayClassName) items
     then [] else [missingGatewayClass gatewayClassName]
   end)%list.

(** What the validator returns for a missing list. *)
Definition verdict (missingPrereqs : list string) : option error :=
  if (0 <? length missingPrereqs)%nat then Some (missingError missingPrereqs) else None.

(** ** Reading an invocation *)

(** How a statement ends: with a value, a result, or a panic. *)
Definition ends {R A} (Q : A -> Prop) (QR : R -> Prop) (QP : Prop) (f : Flow R A) : Prop :=
  match f with
  | Next a => Q a
  | Return r => QR r
  | Panic => QP
  end.

(** [infScheduler] is the in-memory object of [root]: same name, namespace
    and UID. *)
Definition same_root (root infScheduler : InferenceScheduler) : Prop :=
  Name (isMeta infScheduler) = Name (isMeta root)
  /\ Namespace (isMeta infScheduler) = Namespace (isMeta root)
  /\ UID (isMeta infScheduler) = UID (isMeta root).

(** An object written as a child of [root]: one of its eleven children, with
    the controller reference to [root] among its owner references. *)
Definition owned (scheme : runtimeScheme) (root : InferenceScheduler) (o : Object) : Prop :=
  In (ident o) (children (Namespace (isMeta root)) (Name (isMeta root)))
  /\ exists gvk, scheme = Some gvk
       /\ In (controllerRef gvk root) (OwnerReferences (oMeta o)).

(** A call that stays within [root]: a probe of one of the four
    prerequisite types, a read of [root]'s kind or of one of its children, a
    write of [root] under its name, or the write of an owned child. *)
Definition within (scheme : runtimeScheme) (root : InferenceScheduler) (c : Call) : Prop :=
  match c with
  | CallGet k key =>
    is_root k = true
    \/ In (k, nnNamespace key, nnName key)
         (children (Namespace (isMeta root)) (Name (isMeta root)))
  | CallList gvk _ => In gvk [gvkGateway; gvkHTTPRoute; gvkInferencePool; gvkGatewayClass]
  | CallCreate o => owned scheme root o
  | CallUpdate o =>
    if is_root (oKind o)
    then Name (oMeta o) = Name (isMeta root) /\ Namespace (oMeta o) = Namespace (isMeta root)
    else owned scheme root o
  | CallStatusUpdate o =>
    Name (isMeta o) = Name (isMeta root) /\ Namespace (isMeta o) = Namespace (isMeta root)
  end.

(** What [Reconcile] may return: never the [Requeue] flag; with an error no
    delay; without one, a delay of 30 s, 60 s or 5 min, or, unless the object
    is [live], none. *)
Definition result_ok (live : bool) (r : Result * option error) : Prop :=
  Requeue (fst r) = false
  /\ match snd r with
     | Some _ => RequeueAfter (fst r) = 0%Z
     | None =>
       In (RequeueAfter (fst r)) [(30 * Second)%Z; (60 * Second)%Z; (5 * Minute)%Z]
       \/ (live = false /\ RequeueAfter (fst r) = 0%Z)
     end.

(** A read of one of the two workloads of [root] can give a Deployment
    without a replica count. *)
Definition nil_replicas {W : Type} `{Client W} (root : InferenceScheduler) : Prop :=
  exists suffix w deployment,
    In suffix ["-vllm"; "-epp"]
    /\ fst (Get KDeployment {| nnNamespace := Namespace (isMeta root);
                               nnName := Name (isMeta root) +:+ suffix |} w)
       = inr deployment
    /\ Replicas (dSpec deployment) = None.

(** Every call stays within [root], and the statement ends with [Q], with a
    result [Reconcile] may return, or in a panic that a nil replica count
    explains. *)
Definition contained {W : Type} `{Client W} (scheme : runtimeScheme)
  (root : InferenceScheduler) (live : bool) {A} (Q : A -> Prop)
  (cs : list Call) (fl : Flow (Result * option error) A) : Prop :=
  Forall (within scheme root) cs /\ ends Q (result_ok live) (nil_replicas root) fl.

(** The children written are an initial segment of [expected], and all of
    it when the statement goes on. *)
Definition ordered {R A} (expected : list (Kind * string * string)) (cs : list Call)
  (fl : Flow R A) : Prop :=
  (exists n, child_writes cs = take n expected)
  /\ match fl with
     | Next _ => child_writes cs = expected
     | _ => True
     end.

(** The condition of type [type] is present with status [status]. *)
Definition condition_is (st : InferenceSchedulerStatus) (type status : string) : Prop :=
  exists c, FindStatusCondition (Conditions st) type = Some c /\ cStatus c = status.

(** The status of an object in phase Ready. *)
Definition ready_status (o : InferenceScheduler) : Prop :=
  PrerequisitesValidated (Status o) = true
  /\ GatewayReady (Status o) = true
  /\ InferencePoolReady (Status o) = true
  /\ ModelServerReplicas (Status o) = msReplicas (ModelServer (Spec o))
  /\ EPPReplicas (Status o) = eppReplicas (EndpointPicker (Spec o))
  /\ Forall (fun type => condition_is (Status o) type ConditionTrue)
       ["ModelServerReady"; "EPPReady"; "InferencePoolReady"; "GatewayReady"].

(** The status of an object in phase PrerequisitesMissing. *)
Definition blocked_status (o : InferenceScheduler) : Prop :=
  PrerequisitesValidated (Status o) = false
  /\ exists c, FindStatusCondition (Conditions (Status o)) "PrerequisitesValidated" = Some c
       /\ cStatus c = ConditionFalse
       /\ Message c = PrerequisiteMessage (Status o).

(** A status write is consistent: its phase is one of four, and the flags
    and conditions are those of the phase. *)
Definition status_ok (c : Call) : Prop :=
  match c with
  | CallStatusUpdate o =>
    In (Phase (Status o)) ["Initializing"; "PrerequisitesMissing"; "Deploying"; "Ready"]
    /\ (Phase (Status o) = "Ready" -> ready_status o)
    /\ (Phase (Status o) = "PrerequisitesMissing" -> blocked_status o)
  | _ => True
  end.

(** The status of the in-memory object while the phases run: phase
    Deploying, prerequisites validated, and the conditions, replica counts
    and flags of the steps [done] so far. *)
Definition deploying (done : list string) (o : InferenceScheduler) : Prop :=
  Phase (Status o) = "Deploying"
  /\ PrerequisitesValidated (Status o) = true
  /\ Forall (fun type => condition_is (Status o) type ConditionTrue) done
  /\ (In "ModelServerReady" done ->
      ModelServerReplicas (Status o) = msReplicas (ModelServer (Spec o)))
  /\ (In "EPPReady" done ->
      EPPReplicas (Status o) = eppReplicas (EndpointPicker (Spec o)))
  /\ (In "InferencePoolReady" done -> InferencePoolReady (Status o) = true).

(** Every status write is consistent, and the statement, if it goes on,
    leaves an object with [Q]. *)
Definition reported {A} (Q : A -> Prop) (cs : list Call)
  (fl : Flow (Result * option error) A) : Prop :=
  Forall status_ok cs /\ ends Q (fun _ => True) True fl.

End Controller.

Import Controller.

(* ===================================================================== *)
(** * An in-memory API server *)
(* ===================================================================== *)

Module Fake.

Definition gvk_eqb (a b : GroupVersionKind) : bool :=
  String.eqb (Group a) (Group b) && String.eqb (Version a) (Version b)
  && String.eqb (gvkKind a) (gvkKind b).

Definition kind_eqb (a b : Kind) : bool :=
  match a, b with
  | KInferenceScheduler, KInferenceScheduler
  | KDeployment, KDeployment
  | KService, KService
  | KServiceAccount, KServiceAccount
  | KRole, KRole
  | KRoleBinding, KRoleBinding
  | KConfigMap, KConfigMap => true
  | KUnstructured g, KUnstructured g' => gvk_eqb g g'
  | _, _ => false
  end.

(** The stored object as the Go type of kind [k], when it is of that kind. *)
Definition cast (k : Kind) (o : Object) : option (ObjOf k) :=
  let 'Build_Object k' v := o in
  match k' as k1, k as k2 return ObjOf k1 -> option (ObjOf k2) with
  | KInferenceScheduler, KInferenceScheduler => fun v => Some v
  | KDeployment, KDeployment => fun v => Some v
  | KService, KService => fun v => Some v
  | KServiceAccount, KServiceAccount => fun v => Some v
  | KRole, KRole => fun v => Some v
  | KRoleBinding, KRoleBinding => fun v => Some v
  | KConfigMap, KConfigMap => fun v => Some v
  | KUnstructured g', KUnstructured g => fun v => if gvk_eqb g g' then Some v else None
  | _, _ => fun _ => None
  end v.

Record Cluster := {
  objects : list Object;               (* what is stored *)
  registered : list GroupVersionKind;  (* the custom resource types installed *)
  outage : option error;               (* when set, every call fails with it *)
  workloadsReady : bool;               (* a Deployment reads back with all replicas ready *)
  nextVersion : Z;
  clock : Time;
}.

Definition with_objects (os : list Object) (c : Cluster) : Cluster :=
  {| objects := os; registered := registered c; outage := outage c;
     workloadsReady := workloadsReady c; nextVersion := (nextVersion c + 1)%Z;
     clock := (clock c + 1)%Z |}.

Definition is_at (k : Kind) (key : NamespacedName) (o : Object) : bool :=
  kind_eqb (oKind o) k && String.eqb (Namespace (oMeta o)) (nnNamespace key)
  && String.eqb (Name (oMeta o)) (nnName key).

Definition lookup (k : Kind) (key : NamespacedName) (c : Cluster) : option (ObjOf k) :=
  match List.find (is_at k key) (objects c) with
  | Some o => cast k o
  | None => None
  end.

Definition notFound (key : NamespacedName) : error :=
  {| reason := ReasonNotFound; Error := nnName key +:+ " not found" |}.
Definition noMatch (gvk : GroupVersionKind) : error :=
  {| reason := ReasonNoMatch; Error := "no matches for kind " +:+ gvkKind gvk |}.

(** A Deployment as the cluster reports it. *)
Definition observe (c : Cluster) (k : Kind) : ObjOf k -> ObjOf k :=
  match k return ObjOf k -> ObjOf k with
  | KDeployment => fun d =>
    if workloadsReady c then
      {| dMeta := dMeta d; dSpec := dSpec d;
         dStatus := {| ReadyReplicas := default 0%Z (Replicas (dSpec d)) |} |}
    else d
  | _ => fun o => o
  end.

Definition fake_Get (k : Kind) (key : NamespacedName) (c : Cluster)
  : (error + ObjOf k) * Cluster :=
  match outage c with
  | Some e => (inl e, c)
  | None =>
    match lookup k key c with
    | Some o => (inr (observe c k o), c)
    | None => (inl (notFound key), c)
    end
  end.

Definition unstructured_of (gvk : GroupVersionKind) (o : Object) : option Unstructured :=
  cast (KUnstructured gvk) o.

Definition fake_List (gvk : GroupVersionKind) (limit : option Z) (c : Cluster)
  : (error + list Unstructured) * Cluster :=
  match outage c with
  | Some e => (inl e, c)
  | None =>
    if existsb (gvk_eqb gvk) (registered c) then
      let items := omap (unstructured_of gvk) (objects c) in
      (inr (match limit with Some n => take (Z.to_nat n) items | None => items end), c)
    else (inl (noMatch gvk), c)
  end.

Definition stamp {k : Kind} (c : Cluster) (obj : ObjOf k) : Object :=
  {| oKind := k; oValue := SetResourceVersion (itoa (nextVersion c)) obj |}.

Definition fake_Create (k : Kind) (obj : ObjOf k) (c : Cluster) : option error * Cluster :=
  match outage c with
  | Some e => (Some e, c)
  | None =>
    match lookup k (ObjectKeyFromObject obj) c with
    | Some _ =>
      (Some {| reason := ReasonAlreadyExists; Error := Name (getMeta obj) +:+ " already exists" |}, c)
    | None => (None, with_objects (objects c ++ [stamp c obj])%list c)
    end
  end.

Definition replace (k : Kind) (key : NamespacedName) (new : Object) (os : list Object)
  : list Object :=
  map (fun o => if is_at k key o then new else o) os.

Definition fake_Update (k : Kind) (obj : ObjOf k) (c : Cluster) : option error * Cluster :=
  match outage c with
  | Some e => (Some e, c)
  | None =>
    let key := ObjectKeyFromObject obj in
    match lookup k key c with
    | None => (Some (notFound key), c)
    | Some existing =>
      if String.eqb (ResourceVersion (getMeta obj)) (ResourceVersion (getMeta existing))
      then (None, with_objects (replace k key (stamp c obj) (objects c)) c)
      else (Some {| reason := ReasonConflict;
                    Error := "the object has been modified; please apply your changes to the latest version" |}, c)
    end
  end.

(** The status subresource: only the status of the stored object changes. *)
Definition fake_StatusUpdate (obj : InferenceScheduler) (c : Cluster) : option error * Cluster :=
  match outage c with
  | Some e => (Some e, c)
  | None =>
    let key := ObjectKeyFromObject (k := KInferenceScheduler) obj in
    match lookup KInferenceScheduler key c with
    | None => (Some (notFound key), c)
    | Some existing =>
      (None, with_objects
               (replace KInferenceScheduler key
                  (stamp (k := KInferenceScheduler) c (with_status (Status obj) existing))
                  (objects c)) c)
    end
  end.

#[export] Instance fake_client : Client Cluster := {|
  Get := fake_Get;
  List := fake_List;
  Create := fake_Create;
  Update := fake_Update;
  StatusUpdate := fake_StatusUpdate;
  Now := clock;
|}.

(** ** Sample objects *)

Definition gvkInferenceScheduler : GroupVersionKind :=
  {| Group := "llm.llm-d.io"; Version := "v1alpha1"; gvkKind := "InferenceScheduler" |}.

Definition scheme : runtimeScheme := Some gvkInferenceScheduler.

Definition noResources : ResourceRequirements := {| Limits := []; Requests := [] |}.

Definition sampleSpec (replicas : Z) (className : string) : InferenceSchedulerSpec :=
  {| ModelServer := {|
       msType := "vllm"; ModelName := "meta-llama/Llama-3.1-8B"; msReplicas := replicas;
       msImage := ""; msResources := noResources; EnablePrefixCaching := true;
       GPUMemoryUtilization := None; HFTokenSecretName := "hf-token"; msPort := 8000;
       msLabels := ∅ |};
     EndpointPicker := {|
       eppImage := ""; eppReplicas := 1; GRPCPort := 9002;
       Plugins := {| LoadAwareScorer := None; PrefixCacheScorer := None;
                     KVCacheUtilizationScorer := None |};
       eppResources := noResources |};
     Gateway := {| ClassName := className; ListenerPort := 80; ServiceType := "ClusterIP";
                   gwName := "" |} |}.

Definition emptyStatus : InferenceSchedulerStatus :=
  {| Conditions := []; Phase := ""; ModelServerReplicas := 0; EPPReplicas := 0;
     GatewayReady := false; InferencePoolReady := false; PrerequisitesValidated := false;
     PrerequisiteMessage := "" |}.

Definition sample (replicas : Z) (className : string) : InferenceScheduler :=
  {| isMeta := {| Name := "demo"; Namespace := "default"; Labels := ∅;
                  ResourceVersion := "1"; Generation := 1; UID := "uid-1";
                  DeletionTimestamp := None; Finalizers := []; OwnerReferences := [] |};
     Spec := sampleSpec replicas className;
     Status := emptyStatus |}.

Definition demo : NamespacedName := {| nnNamespace := "default"; nnName := "demo" |}.

Definition gatewayClass (name : string) : Object :=
  {| oKind := KUnstructured gvkGatewayClass;
     oValue := {| uGVK := gvkGatewayClass; uMeta := mkMeta name "" ∅; uSpec := VMap [] |} |}.

Definition root (o : InferenceScheduler) : Object :=
  {| oKind := KInferenceScheduler; oValue := o |}.

Definition allTypes : list GroupVersionKind :=
  [gvkGateway; gvkHTTPRoute; gvkInferencePool; gvkGatewayClass].

(** A cluster with every prerequisite, holding the root object [o]. *)
Definition cluster (o : InferenceScheduler) (ready : bool) : Cluster :=
  {| objects := [gatewayClass "kgateway"; root o]; registered := allTypes;
     outage := None; workloadsReady := ready; nextVersion := 2%Z; clock := 1000%Z |}.

(** A cluster that does not hold the object asked for. *)
Definition emptyCluster : Cluster :=
  {| objects := [gatewayClass "kgateway"]; registered := allTypes;
     outage := None; workloadsReady := false; nextVersion := 2%Z; clock := 1000%Z |}.

(** A cluster whose API server times out on every call. *)
Definition timeout : error := {| reason := ReasonOther; Error := "context deadline exceeded" |}.
Definition unreachable (o : InferenceScheduler) : Cluster :=
  {| objects := [root o]; registered := []; outage := Some timeout;
     workloadsReady := false; nextVersion := 2%Z; clock := 1000%Z |}.

(** The root object after a delete request, with the finalizer still on. *)
Definition deleting : InferenceScheduler :=
  with_meta
    {| Name := "demo"; Namespace := "default"; Labels := ∅;
       ResourceVersion := "7"; Generation := 1; UID := "uid-1";
       DeletionTimestamp := Some 900%Z; Finalizers := [finalizerName];
       OwnerReferences := [] |}
    (sample 2 "").


(** A long model name, 74 bytes. *)
Definition longModelName : string :=
  "acme-research/Llama-3.1-70B-Instruct-customer-support-finetune-v2-awq-int4".

(** ** An API server whose list calls fail

    Every list call is answered with a timeout; reads and writes of single
    objects are served by the cluster behind. *)
Record Throttled := {
  served : Cluster;
}.

Definition behind {A : Type} (r : A * Cluster) : A * Throttled :=
  (fst r, {| served := snd r |}).

#[export] Instance throttled_client : Client Throttled := {|
  Get := fun k key t => behind (fake_Get k key (served t));
  List := fun _ _ t => (inl timeout, t);
  Create := fun k obj t => behind (fake_Create k obj (served t));
  Update := fun k obj t => behind (fake_Update k obj (served t));
  StatusUpdate := fun obj t => behind (fake_StatusUpdate obj (served t));
  Now := fun t => clock (served t);
|}.

End Fake.


(* ===================================================================== *)
(** * Properties *)
(* ===================================================================== *)

Import Fake.

Section Properties.

Context {W : Type} `{Client W}.
Variable scheme : runtimeScheme.

Ltac go := unfold bind, call, ret, return_, panic, r_Get, r_List, r_Create, r_Update,
  r_Status_Update, r_updateCondition, metav1_Now, record in *; simpl in *.

Lemma getMeta_setMeta (k : Kind) (m : ObjectMeta) (o : ObjOf k) : getMeta (setMeta m o) = m.
Proof. destruct k; reflexivity. Qed.


(** ** Root not found *)

(** C8. When the fetch of the root object reports not-found, the invocation
    ends at once: no error, no requeue, and the fetch is the only call made
    (no status write, no child operation). *)
Theorem root_not_found_ends (req : NamespacedName) (w w' : W) (err : error) :
  Get KInferenceScheduler req w = (inl err, w') ->
  IsNotFound err = true ->
  invoke scheme req w = (Some (noRequeue, None), w', [CallGet KInferenceScheduler req]).
Proof.
  intros Hget Hnf. unfold invoke, Reconcile, Reconcile_fetch. go.
  rewrite Hget. simpl. rewrite Hnf. reflexivity.
Qed.

(** ** Deletion *)

Lemma RemoveFinalizer_gone (o : InferenceScheduler) (f : string) :
  ContainsFinalizer (RemoveFinalizer o f) f = false.
Proof.
  unfold ContainsFinalizer, RemoveFinalizer. simpl.
  induction (Finalizers (isMeta o)) as [|x l IH]; simpl; [reflexivity|].
  destruct (String.eqb x f) eqn:E; simpl; [exact IH|].
  rewrite String.eqb_sym, E. exact IH.
Qed.

(** C5. An invocation that fetches an object whose deletion marker is set:
    without the finalizer marker it makes no further call and returns
    success; with it, it removes the marker and persists the object by one
    update, in that invocation, and returns what the update returned. In
    both cases no call touches a child (no upsert, no delete), and no call
    of such an invocation sends the marker: it is never added again. *)
Theorem deletion_removes_finalizer (req : NamespacedName) (w w1 : W)
  (infScheduler : InferenceScheduler) :
  Get KInferenceScheduler req w = (inr infScheduler, w1) ->
  TimePtr_IsZero (DeletionTimestamp (isMeta infScheduler)) = false ->
  let cleaned := RemoveFinalizer infScheduler finalizerName in
  let persisted := Update KInferenceScheduler cleaned w1 in
  (ContainsFinalizer infScheduler finalizerName = false ->
   invoke scheme req w = (Some (noRequeue, None), w1, [CallGet KInferenceScheduler req]))
  /\ (ContainsFinalizer infScheduler finalizerName = true ->
      invoke scheme req w =
        (Some (noRequeue, fst persisted), snd persisted,
         [CallGet KInferenceScheduler req;
          CallUpdate {| oKind := KInferenceScheduler; oValue := cleaned |}])
      /\ ContainsFinalizer cleaned finalizerName = false)
  /\ Forall (fun c => sends_finalizer c = false /\ touches_child c = false)
       (snd (invoke scheme req w)).
Proof.
  intros Hget Hdel cleaned persisted.
  assert (Hgone : ContainsFinalizer cleaned finalizerName = false)
    by apply RemoveFinalizer_gone.
  unfold invoke, Reconcile, Reconcile_fetch, handleDeletion. go.
  rewrite Hget. simpl. rewrite Hdel. simpl.
  destruct (ContainsFinalizer infScheduler finalizerName) eqn:Hc; simpl.
  - fold cleaned. fold persisted.
    destruct persisted as [[e|] w2] eqn:Hp; simpl;
      (split; [discriminate|]; split; [intros _; split; [reflexivity|exact Hgone]|]);
      repeat constructor; exact Hgone.
  - split; [reflexivity|]. split; [discriminate|]. repeat constructor.
Qed.

(** ** The upsert *)

Lemma upsertOwnerRef_In (ref : OwnerReference) (owners : list OwnerReference) :
  In ref (upsertOwnerRef ref owners).
Proof.
  induction owners as [|o rest IH]; simpl; [now left|].
  destruct (referSameObject o ref); simpl; auto.
Qed.

Lemma SetControllerReference_attached {k : Kind} (owner : InferenceScheduler)
  (obj obj' : ObjOf k) :
  SetControllerReference owner obj scheme = inr obj' -> attached scheme owner obj obj'.
Proof.
  unfold SetControllerReference, attached.
  destruct (negb (Namespace (isMeta owner) =? "")%string && (Namespace (getMeta obj) =? "")%string);
    [discriminate|].
  destruct (negb (Namespace (isMeta owner) =? "")%string
            && negb (Namespace (isMeta owner) =? Namespace (getMeta obj))%string);
    [discriminate|].
  destruct scheme as [gvk|]; [|discriminate].
  intros Hs. exists gvk, (upsertOwnerRef (controllerRef gvk owner) (OwnerReferences (getMeta obj))).
  split; [reflexivity|]. split; [apply upsertOwnerRef_In|].
  destruct (GetControllerOf (OwnerReferences (getMeta obj))) as [existing|].
  - destruct (negb (referSameObject existing (controllerRef gvk owner))); [discriminate|].
    now inversion Hs.
  - now inversion Hs.
Qed.

Lemma createOrUpdateUnstructured_eq (obj : Unstructured) (owner : InferenceScheduler) :
  createOrUpdateUnstructured scheme obj owner
  = createOrUpdate scheme (k := KUnstructured (uGVK obj)) obj owner.
Proof. reflexivity. Qed.


(** ** Conditions *)

Lemma Find_Set_same (now : Time) (conds : list Condition) (c : Condition) :
  FindStatusCondition (SetStatusCondition now conds c) (cType c)
  = Some (match FindStatusCondition conds (cType c) with
          | Some c0 => overwrite now c0 c
          | None => stamped now c
          end).
Proof.
  induction conds as [|x l IH]; simpl.
  - now rewrite String.eqb_refl.
  - destruct (String.eqb (cType x) (cType c)) eqn:E; simpl.
    + now rewrite E.
    + now rewrite E.
Qed.

Lemma Find_Set_other (now : Time) (conds : list Condition) (c : Condition) (ty : string) :
  ty <> cType c ->
  FindStatusCondition (SetStatusCondition now conds c) ty = FindStatusCondition conds ty.
Proof.
  intros Hne. induction conds as [|x l IH]; simpl.
  - destruct (String.eqb (cType c) ty) eqn:E; [|reflexivity].
    apply String.eqb_eq in E. congruence.
  - destruct (String.eqb (cType x) (cType c)) eqn:E; simpl.
    + apply String.eqb_eq in E.
      destruct (String.eqb (cType x) ty) eqn:E'; [|reflexivity].
      apply String.eqb_eq in E'. congruence.
    + now rewrite IH.
Qed.

Lemma Set_types (now : Time) (conds : list Condition) (c : Condition) :
  map cType (SetStatusCondition now conds c)
  = if existsb (fun x => String.eqb (cType x) (cType c)) conds
    then map cType conds
    else (map cType conds ++ [cType c])%list.
Proof.
  induction conds as [|x l IH]; simpl; [reflexivity|].
  destruct (String.eqb (cType x) (cType c)) eqn:E; simpl; [reflexivity|].
  rewrite IH. now destruct (existsb _ l).
Qed.

Lemma Set_NoDup (now : Time) (conds : list Condition) (c : Condition) :
  NoDup (map cType conds) -> NoDup (map cType (SetStatusCondition now conds c)).
Proof.
  intros Hnd. rewrite Set_types.
  destruct (existsb _ conds) eqn:E; [exact Hnd|].
  apply NoDup_app. split; [exact Hnd|]. split; [|apply NoDup_singleton].
  intros ty Hin Hin'. apply list_elem_of_In in Hin, Hin'.
  destruct Hin' as [<-|[]].
  apply in_map_iff in Hin as (x & Hx & Hin).
  assert (existsb (fun x => String.eqb (cType x) (cType c)) conds = true); [|congruence].
  apply existsb_exists. exists x. split; [exact Hin|]. now apply String.eqb_eq.
Qed.

Lemma Find_type (conds : list Condition) (ty : string) (c : Condition) :
  FindStatusCondition conds ty = Some c -> cType c = ty.
Proof.
  induction conds as [|x l IH]; simpl; [discriminate|].
  destruct (String.eqb (cType x) ty) eqn:E; [|exact IH].
  intros [= <-]. now apply String.eqb_eq.
Qed.

(** [SetStatusCondition] as one edit of the list: the first condition of the
    type is overwritten where it stands, or the new one is appended; every
    other condition stays, in its place. *)
Lemma Set_splits (now : Time) (conds : list Condition) (c : Condition) :
  match FindStatusCondition conds (cType c) with
  | Some c0 =>
    exists before after,
      conds = (before ++ c0 :: after)%list
      /\ Forall (fun x => cType x <> cType c) before
      /\ SetStatusCondition now conds c = (before ++ overwrite now c0 c :: after)%list
  | None => SetStatusCondition now conds c = (conds ++ [stamped now c])%list
  end.
Proof.
  induction conds as [|x l IH]; simpl; [reflexivity|].
  destruct (String.eqb (cType x) (cType c)) eqn:E.
  - exists [], l. split; [reflexivity|]. split; [constructor|reflexivity].
  - apply String.eqb_neq in E.
    destruct (FindStatusCondition l (cType c)) as [c0|].
    + destruct IH as (before & after & -> & Hb & ->).
      exists (x :: before), after. split; [reflexivity|].
      split; [now constructor|reflexivity].
    + now rewrite IH.
Qed.

(** C7. Setting a condition is an upsert keyed by the condition type: a
    list without duplicate types stays without duplicates. One setting
    overwrites the first condition of the type where it stands, or appends
    the condition when the type is not in the list; the condition stored
    then has the status, reason and message given, and every other
    condition, and the rest of the object, is as it was. Setting the same
    type a second time with the same status keeps the transition time of
    the first setting and replaces reason and message, and no condition of
    another type changes. In general the transition time of a stored
    condition is kept when the status set is the stored one, and becomes
    the time of the call when it differs. *)
Theorem condition_upsert_by_type (now1 now2 : Time) (infScheduler : InferenceScheduler)
  (ty st reason1 message1 reason2 message2 : string) :
  let first := updateCondition now1 infScheduler ty st reason1 message1 in
  let second := updateCondition now2 first ty st reason2 message2 in
  let stored o := FindStatusCondition (Conditions (Status o)) in
  (NoDup (map cType (Conditions (Status infScheduler))) ->
   NoDup (map cType (Conditions (Status first))))
  /\ (let c1 :=
        {| cType := ty; cStatus := st;
           ObservedGeneration := Generation (isMeta infScheduler);
           LastTransitionTime :=
             match stored infScheduler ty with
             | Some c0 => if String.eqb (cStatus c0) st then LastTransitionTime c0 else now1
             | None => now1
             end;
           Reason := reason1; Message := message1 |} in
      stored first ty = Some c1
      /\ match stored infScheduler ty with
         | Some c0 =>
           exists before after,
             Conditions (Status infScheduler) = (before ++ c0 :: after)%list
             /\ Forall (fun x => cType x <> ty) before
             /\ Conditions (Status first) = (before ++ c1 :: after)%list
         | None =>
           Conditions (Status first) = (Conditions (Status infScheduler) ++ [c1])%list
         end
      /\ (forall ty', ty' <> ty -> stored first ty' = stored infScheduler ty')
      /\ isMeta first = isMeta infScheduler
      /\ Spec first = Spec infScheduler
      /\ Status first = set_Conditions (Conditions (Status first)) (Status infScheduler))
  /\ (exists c1 c2,
        stored first ty = Some c1 /\ stored second ty = Some c2 /\
        LastTransitionTime c2 = LastTransitionTime c1 /\
        cStatus c1 = st /\ cStatus c2 = st /\
        Reason c2 = reason2 /\ Message c2 = message2 /\
        cType c2 = cType c1 /\ ObservedGeneration c2 = ObservedGeneration c1)
  /\ (forall ty', ty' <> ty -> stored second ty' = stored first ty')
  /\ length (Conditions (Status second)) = length (Conditions (Status first))
  /\ (forall c0, stored infScheduler ty = Some c0 ->
        exists c1, stored first ty = Some c1 /\
          LastTransitionTime c1
          = if String.eqb (cStatus c0) st then LastTransitionTime c0 else now1).
Proof.
  intros first second stored. unfold stored, second, first, updateCondition. simpl.
  set (conds := Conditions (Status infScheduler)).
  set (gen := Generation (isMeta infScheduler)).
  set (n1 := {| cType := ty; cStatus := st; ObservedGeneration := gen;
                LastTransitionTime := now1; Reason := reason1; Message := message1 |}).
  set (n2 := {| cType := ty; cStatus := st; ObservedGeneration := gen;
                LastTransitionTime := now2; Reason := reason2; Message := message2 |}).
  pose proof (Find_Set_same now1 conds n1) as F1. simpl in F1.
  pose proof (Find_Set_same now2 (SetStatusCondition now1 conds n1) n2) as F2.
  simpl in F2. rewrite F1 in F2.
  split; [apply Set_NoDup|].
  split.
  { assert (Hc1 : match FindStatusCondition conds ty with
                  | Some c0 => overwrite now1 c0 n1
                  | None => stamped now1 n1
                  end
                  = {| cType := ty; cStatus := st; ObservedGeneration := gen;
                       LastTransitionTime :=
                         match FindStatusCondition conds ty with
                         | Some c0 =>
                           if String.eqb (cStatus c0) st then LastTransitionTime c0 else now1
                         | None => now1
                         end;
                       Reason := reason1; Message := message1 |}).
    { destruct (FindStatusCondition conds ty) as [c0|] eqn:E0.
      - apply Find_type in E0. unfold overwrite. simpl. rewrite E0.
        destruct (String.eqb (cStatus c0) st) eqn:Es; simpl.
        + apply String.eqb_eq in Es. now rewrite Es.
        + now destruct (Time_IsZero now1).
      - unfold stamped. simpl. now destruct (Time_IsZero now1). }
    split; [rewrite F1; f_equal; exact Hc1|].
    split.
    { pose proof (Set_splits now1 conds n1) as Hs. simpl in Hs.
      rewrite <- Hc1.
      destruct (FindStatusCondition conds ty) as [c0|]; [|exact Hs].
      destruct Hs as (before & after & Hb & Hf & Ha). exists before, after. auto. }
    split; [intros ty' Hne; now apply (Find_Set_other now1 conds n1)|].
    repeat split. }
  split.
  { eexists. eexists. split; [exact F1|]. split; [exact F2|].
    destruct (FindStatusCondition conds ty) as [c0|] eqn:E0; simpl.
    - destruct (String.eqb (cStatus c0) st) eqn:Es; simpl.
      + apply String.eqb_eq in Es. rewrite Es, String.eqb_refl. simpl. tauto.
      + rewrite String.eqb_refl. simpl. tauto.
    - rewrite String.eqb_refl. simpl. tauto. }
  split; [intros ty' Hne; now apply (Find_Set_other now2 _ n2)|].
  split.
  { pose proof (Set_types now2 (SetStatusCondition now1 conds n1) n2) as T.
    assert (E : existsb (fun x => String.eqb (cType x) (cType n2))
                  (SetStatusCondition now1 conds n1) = true).
    { clear. induction conds as [|x l IH]; simpl.
      - now rewrite String.eqb_refl.
      - destruct (String.eqb (cType x) ty) eqn:E; simpl; rewrite E; [reflexivity|exact IH]. }
    rewrite E in T. apply (f_equal (@length string)) in T.
    now rewrite !length_map in T. }
  intros c0 E0. rewrite E0 in F1. eexists. split; [exact F1|]. simpl.
  destruct (String.eqb (cStatus c0) st); simpl; [reflexivity|].
  now destruct (Time_IsZero now1).
Qed.

(** ** Prerequisite validation *)

Lemma validatePrerequisites_run (infScheduler : InferenceScheduler) (s : Run) :
  let p1 := List gvkGateway (Some 1%Z) (world s) in
  let p2 := List gvkHTTPRoute (Some 1%Z) (snd p1) in
  let p3 := List gvkInferencePool (Some 1%Z) (snd p2) in
  let p4 := List gvkGatewayClass None (snd p3) in
  validatePrerequisites infScheduler s
  = (Return (verdict (missing_of infScheduler (fst p1) (fst p2) (fst p3) (fst p4))),
     {| world := snd p4;
        calls := (calls s ++ [CallList gvkGateway (Some 1%Z); CallList gvkHTTPRoute (Some 1%Z);
                              CallList gvkInferencePool (Some 1%Z);
                              CallList gvkGatewayClass None])%list |}).
Proof.
  intros p1 p2 p3 p4. unfold validatePrerequisites, verdict, missing_of. go.
  fold p1. fold p2. fold p3. fold p4. rewrite <- !app_assoc. simpl.
  assert (Hc : contains [missingGatewayAPI] "Gateway API" = true) by (vm_compute; reflexivity).
  destruct (fst p1) as [e1|l1]; simpl;
    [destruct (IsNoMatchError e1); simpl|];
    (destruct (fst p2) as [e2|l2]; simpl;
     [destruct (IsNoMatchError e2); simpl|]);
    rewrite ?Hc; simpl;
    (destruct (fst p3) as [e3|l3]; simpl;
     [destruct (IsNoMatchError e3); simpl|]);
    (destruct (fst p4) as [e4|l4]; simpl;
     [destruct (IsNoMatchError e4); simpl|
      destruct (existsb _ l4); simpl]);
    reflexivity.
Qed.

Lemma verdict_None (missing : list string) : verdict missing = None <-> missing = [].
Proof. unfold verdict. destruct missing; simpl; split; congruence. Qed.

Lemma no_match_other {A} (r : error + A) : other_error r = true -> no_match r = false.
Proof. destruct r as [e|]; simpl; [|reflexivity]. now destruct (IsNoMatchError e). Qed.

Ltac entries :=
  unfold missingGatewayAPI, missingHTTPRoute, missingGIE, missingGatewayClassCRD,
    missingGatewayClass in *; simpl in *.

(** What the validator does with the answers of the four list probes. A
    probe that reports no matching type is recorded in the missing list
    (the HTTPRoute probe only when the Gateway API entry is not there
    already), and a missing list that is not empty is the validator's
    error. The error of a probe that fails in any other way is dropped:
    nothing is recorded for it, the next probe is made, and when all four
    probes fail so the validator returns nil. *)
Lemma validator_drops_other_list_errors (infScheduler : InferenceScheduler) (s : Run) :
  let p1 := List gvkGateway (Some 1%Z) (world s) in
  let p2 := List gvkHTTPRoute (Some 1%Z) (snd p1) in
  let p3 := List gvkInferencePool (Some 1%Z) (snd p2) in
  let p4 := List gvkGatewayClass None (snd p3) in
  let missing := missing_of infScheduler (fst p1) (fst p2) (fst p3) (fst p4) in
  let after :=
    {| world := snd p4;
       calls := (calls s ++ [CallList gvkGateway (Some 1%Z); CallList gvkHTTPRoute (Some 1%Z);
                             CallList gvkInferencePool (Some 1%Z);
                             CallList gvkGatewayClass None])%list |} in
  validatePrerequisites infScheduler s = (Return (verdict missing), after)
  /\ (verdict missing = None <-> missing = [])
  /\ (no_match (fst p1) = true -> In missingGatewayAPI missing)
  /\ (no_match (fst p2) = true -> In missingHTTPRoute missing \/ In missingGatewayAPI missing)
  /\ (no_match (fst p3) = true -> In missingGIE missing)
  /\ (no_match (fst p4) = true -> In missingGatewayClassCRD missing)
  /\ (other_error (fst p1) = true -> ~ In missingGatewayAPI missing)
  /\ (other_error (fst p2) = true -> ~ In missingHTTPRoute missing)
  /\ (other_error (fst p3) = true -> ~ In missingGIE missing)
  /\ (other_error (fst p4) = true ->
      ~ In missingGatewayClassCRD missing /\ forall n, ~ In (missingGatewayClass n) missing)
  /\ (other_error (fst p1) = true -> other_error (fst p2) = true ->
      other_error (fst p3) = true -> other_error (fst p4) = true ->
      validatePrerequisites infScheduler s = (Return None, after)).
Proof.
  intros p1 p2 p3 p4 missing after.
  pose proof (validatePrerequisites_run infScheduler s) as Hrun. simpl in Hrun.
  fold p1 p2 p3 p4 in Hrun. fold missing after in Hrun.
  split; [exact Hrun|]. split; [apply verdict_None|].
  unfold missing, missing_of.
  repeat split.
  - intros ->. simpl. now left.
  - intros ->. destruct (no_match (fst p1)); simpl; [right|left]; now left.
  - intros ->. rewrite !in_app_iff. right. right. left. now left.
  - destruct (fst p4) as [e|l]; simpl; [|discriminate]. intros ->.
    rewrite !in_app_iff. right. right. right. now left.
  - intros Ho. rewrite (no_match_other _ Ho). rewrite !in_app_iff. simpl.
    destruct (no_match (fst p2)), (no_match (fst p3)), (fst p4) as [e|l];
      try destruct (IsNoMatchError e); try destruct (existsb _ l);
      entries; intuition discriminate.
  - intros Ho. rewrite (no_match_other _ Ho). rewrite !in_app_iff. simpl.
    destruct (no_match (fst p1)), (no_match (fst p3)), (fst p4) as [e|l];
      try destruct (IsNoMatchError e); try destruct (existsb _ l);
      entries; intuition discriminate.
  - intros Ho. rewrite (no_match_other _ Ho). rewrite !in_app_iff. simpl.
    destruct (no_match (fst p1)), (no_match (fst p2)), (fst p4) as [e|l];
      try destruct (IsNoMatchError e); try destruct (existsb _ l);
      entries; intuition discriminate.
  - destruct (fst p4) as [e|l]; simpl in *; [|discriminate].
    destruct (IsNoMatchError e); [discriminate|]. rewrite !in_app_iff. simpl.
    destruct (no_match (fst p1)), (no_match (fst p2)), (no_match (fst p3));
      entries; intuition discriminate.
  - intros n. destruct (fst p4) as [e|l]; simpl in *; [|discriminate].
    destruct (IsNoMatchError e); [discriminate|]. rewrite !in_app_iff. simpl.
    destruct (no_match (fst p1)), (no_match (fst p2)), (no_match (fst p3));
      entries; intuition discriminate.
  - intros H1 H2 H3 H4. rewrite Hrun. f_equal. f_equal. apply verdict_None.
    unfold missing, missing_of.
    rewrite (no_match_other _ H1), (no_match_other _ H2), (no_match_other _ H3). simpl.
    destruct (fst p4) as [e|l]; simpl in *; [|discriminate].
    now destruct (IsNoMatchError e).
Qed.

(** ** The start of [Reconcile] *)

(** Unfolds one [match] of the hypothesis that describes a run. *)
Ltac split_run H :=
  match type of H with
  | context [match ?x with _ => _ end] =>
    lazymatch x with
    | context [match _ with _ => _ end] => fail
    | _ => destruct x eqn:?; simpl in H
    end
  end.

Ltac close_run H := inversion H; subst; clear H; simpl.

Ltac made_calls :=
  first [ exists []; rewrite app_nil_r; split; [reflexivity|constructor]
        | rewrite <- ?app_assoc; simpl; eexists; split; [reflexivity|];
          repeat constructor ].

Lemma Reconcile_fetch_run (req : NamespacedName) (s s1 : Run) (f : Flow R InferenceScheduler) :
  Reconcile_fetch req s = (f, s1) ->
  (exists made, calls s1 = (calls s ++ made)%list
                /\ Forall (fun c => touches_child c = false) made)
  /\ match f with
     | Next infScheduler =>
       exists fetched w, Get KInferenceScheduler req (world s) = (inr fetched, w)
         /\ Name (isMeta infScheduler) = Name (isMeta fetched)
         /\ Namespace (isMeta infScheduler) = Namespace (isMeta fetched)
         /\ TimePtr_IsZero (DeletionTimestamp (isMeta fetched)) = true
     | Return r => RequeueAfter (fst r) = 0%Z
     | Panic => False
     end.
Proof.
  unfold Reconcile_fetch, handleDeletion, AddFinalizer. go. intros Hrun.
  destruct (Get KInferenceScheduler req (world s)) as [[err|fetched] w] eqn:Hget; simpl in Hrun.
  { repeat split_run Hrun; close_run Hrun; (split; [made_calls|reflexivity]). }
  destruct (TimePtr_IsZero (DeletionTimestamp (isMeta fetched))) eqn:Hdel; simpl in Hrun.
  2: { repeat split_run Hrun; close_run Hrun; (split; [made_calls|reflexivity]). }
  repeat split_run Hrun; close_run Hrun;
    (split; [made_calls|]); try reflexivity;
    try (exists fetched, w; repeat split; solve [reflexivity|assumption]).
Qed.

(** ** What a phase writes *)

Lemma child_writes_app (l l' : list Call) :
  child_writes (l ++ l') = (child_writes l ++ child_writes l')%list.
Proof. apply omap_app. Qed.

Lemma attached_ident {k : Kind} (owner : InferenceScheduler) (obj obj' : ObjOf k) :
  attached scheme owner obj obj' ->
  Name (getMeta obj') = Name (getMeta obj) /\ Namespace (getMeta obj') = Namespace (getMeta obj).
Proof. intros (gvk & refs & _ & _ & ->). rewrite getMeta_setMeta. now split. Qed.

(** A call of [createOrUpdate] returns; when it returns no error it has
    written the descriptor, once. *)
Lemma createOrUpdate_call {A : Type} {k : Kind} (obj : ObjOf k) (owner : InferenceScheduler)
  (s s1 : Run) (f : Flow A (option error)) :
  call (createOrUpdate scheme obj owner) s = (f, s1) ->
  exists res, f = Next res
    /\ (res = None -> is_root k = false ->
        child_writes (calls s1)
        = (child_writes (calls s) ++ [(k, Namespace (getMeta obj), Name (getMeta obj))])%list).
Proof.
  unfold call, createOrUpdate. go. intros Hrun.
  destruct (Get k (ObjectKeyFromObject obj) (world s)) as [[err|existing] w1];
    simpl in Hrun.
  - destruct (IsNotFound err);
      [|close_run Hrun; eexists; split; [reflexivity|discriminate]].
    destruct (SetControllerReference owner obj scheme) as [e|obj'] eqn:Hs; simpl in Hrun;
      [close_run Hrun; eexists; split; [reflexivity|discriminate]|].
    apply SetControllerReference_attached, attached_ident in Hs as [Hn Hns].
    close_run Hrun. eexists. split; [reflexivity|]. intros _ Hk.
    rewrite <- app_assoc, child_writes_app. simpl. rewrite Hk.
    unfold ident, oMeta. simpl. now rewrite Hn, Hns.
  - destruct (SetControllerReference owner _ scheme) as [e|obj'] eqn:Hs; simpl in Hrun;
      [close_run Hrun; eexists; split; [reflexivity|discriminate]|].
    apply SetControllerReference_attached, attached_ident in Hs as [Hn Hns].
    unfold SetResourceVersion in Hn, Hns. rewrite getMeta_setMeta in Hn, Hns.
    close_run Hrun. eexists. split; [reflexivity|]. intros _ Hk.
    rewrite <- app_assoc, child_writes_app. simpl. rewrite Hk.
    unfold ident, oMeta. simpl. now rewrite Hn, Hns.
Qed.

(** The readiness probe writes nothing. *)
Lemma isDeploymentReady_call {A : Type} (namespace name : string) (s s1 : Run)
  (f : Flow A (bool * option error)) :
  call (isDeploymentReady namespace name) s = (f, s1) ->
  child_writes (calls s1) = child_writes (calls s).
Proof.
  unfold isDeploymentReady. go. intros Hrun.
  repeat split_run Hrun; close_run Hrun;
    rewrite child_writes_app; simpl; apply app_nil_r.
Qed.

Lemma call_no_return {A B : Type} (body : Go (W := W) B B) (s s1 : Run) (r : A) :
  call body s = (Return r, s1) -> False.
Proof. unfold call. destruct (body s) as [[b|b|] s']; discriminate. Qed.

Ltac phase_unfold :=
  unfold apply_or_return, bind, ret, return_, r_updateCondition, metav1_Now,
    r_Status_Update, record, set_status.

(** Steps over one upsert of the run [Hrun] with the lemma [on_upsert]
    about such calls. *)
Ltac upsert_step Hrun on_upsert :=
  match type of Hrun with
  | context [call (@createOrUpdate _ _ ?sc ?k ?o ?ow) ?st] =>
    let E := fresh "E" in
    let f := fresh "f" in
    let s' := fresh "s" in
    let res := fresh "res" in
    let Hw := fresh "Hw" in
    destruct (call (@createOrUpdate _ _ sc k o ow) st) as [f s'] eqn:E;
    apply on_upsert in E as (res & -> & Hw);
    simpl in Hrun; destruct res as [?e|]; simpl in Hrun;
    [|specialize (Hw eq_refl eq_refl)]
  end.

(** Steps over one readiness probe, with the lemmas [on_probe] (what the
    probe leaves in the trace) and [on_call] (a call does not return from
    its caller). *)
Ltac probe_step Hrun on_probe on_call :=
  match type of Hrun with
  | context [call (isDeploymentReady ?ns ?n) ?st] =>
    let E := fresh "E" in
    let f := fresh "f" in
    let s' := fresh "s" in
    let Hp := fresh "Hp" in
    destruct (call (isDeploymentReady ns n) st) as [f s'] eqn:E;
    pose proof (on_probe _ _ _ _ _ _ E) as Hp;
    destruct f as [[[|] [?e|]]|?r|]; simpl in Hrun;
    [ | | | | exfalso; exact (on_call _ _ _ _ _ _ E) | ]
  end.

Ltac not_ready_result Hrun :=
  close_run Hrun; unfold Minute, Second; simpl; try discriminate; try exact I.

Local Arguments buildModelServerDeployment : simpl never.
Local Arguments buildModelServerService : simpl never.
Local Arguments buildEPPServiceAccount : simpl never.
Local Arguments buildEPPRole : simpl never.
Local Arguments buildEPPRoleBinding : simpl never.
Local Arguments buildEPPConfigMap : simpl never.
Local Arguments buildEPPDeployment : simpl never.
Local Arguments buildEPPService : simpl never.
Local Arguments buildInferencePool : simpl never.
Local Arguments buildGateway : simpl never.
Local Arguments buildHTTPRoute : simpl never.

Lemma Reconcile_phase4_run (infScheduler : InferenceScheduler) (s s1 : Run)
  (f : Flow R InferenceScheduler) :
  Reconcile_phase4 scheme infScheduler s = (f, s1) ->
  match f with
  | Next infScheduler' =>
    isMeta infScheduler' = isMeta infScheduler
    /\ child_writes (calls s1)
       = (child_writes (calls s)
          ++ firstn 2 (children (namespace_of infScheduler) (name_of infScheduler)))%list
  | Return r => RequeueAfter (fst r) <> (5 * Minute)%Z
  | Panic => True
  end.
Proof.
  unfold Reconcile_phase4. phase_unfold. intros Hrun.
  upsert_step Hrun @createOrUpdate_call; [not_ready_result Hrun|].
  upsert_step Hrun @createOrUpdate_call; [not_ready_result Hrun|].
  probe_step Hrun @isDeploymentReady_call @call_no_return; try not_ready_result Hrun.
  split; [reflexivity|].
  rewrite Hp, Hw0, Hw, <- app_assoc. reflexivity.
Qed.

Lemma Reconcile_phase5_run (infScheduler : InferenceScheduler) (s s1 : Run)
  (f : Flow R InferenceScheduler) :
  Reconcile_phase5 scheme infScheduler s = (f, s1) ->
  match f with
  | Next infScheduler' =>
    isMeta infScheduler' = isMeta infScheduler
    /\ child_writes (calls s1)
       = (child_writes (calls s)
          ++ firstn 6 (skipn 2 (children (namespace_of infScheduler) (name_of infScheduler))))%list
  | Return r => RequeueAfter (fst r) <> (5 * Minute)%Z
  | Panic => True
  end.
Proof.
  unfold Reconcile_phase5. phase_unfold. intros Hrun.
  upsert_step Hrun @createOrUpdate_call; [not_ready_result Hrun|].
  upsert_step Hrun @createOrUpdate_call; [not_ready_result Hrun|].
  upsert_step Hrun @createOrUpdate_call; [not_ready_result Hrun|].
  upsert_step Hrun @createOrUpdate_call; [not_ready_result Hrun|].
  upsert_step Hrun @createOrUpdate_call; [not_ready_result Hrun|].
  upsert_step Hrun @createOrUpdate_call; [not_ready_result Hrun|].
  probe_step Hrun @isDeploymentReady_call @call_no_return; try not_ready_result Hrun.
  split; [reflexivity|].
  rewrite Hp, Hw4, Hw3, Hw2, Hw1, Hw0, Hw, <- !app_assoc. reflexivity.
Qed.

Ltac upsert_unstructured_step Hrun on_upsert :=
  match type of Hrun with
  | context [call (@createOrUpdateUnstructured _ _ ?sc ?o ?ow) ?st] =>
    change (@createOrUpdateUnstructured _ _ sc o ow)
      with (createOrUpdate sc (k := KUnstructured (uGVK o)) o ow) in Hrun;
    upsert_step Hrun on_upsert
  end.

Lemma Reconcile_phase6_run (infScheduler : InferenceScheduler) (s s1 : Run)
  (f : Flow R InferenceScheduler) :
  Reconcile_phase6 scheme infScheduler s = (f, s1) ->
  match f with
  | Next infScheduler' =>
    isMeta infScheduler' = isMeta infScheduler
    /\ child_writes (calls s1)
       = (child_writes (calls s)
          ++ firstn 1 (skipn 8 (children (namespace_of infScheduler) (name_of infScheduler))))%list
  | Return r => RequeueAfter (fst r) <> (5 * Minute)%Z
  | Panic => True
  end.
Proof.
  unfold Reconcile_phase6. phase_unfold. intros Hrun.
  upsert_unstructured_step Hrun @createOrUpdate_call; [not_ready_result Hrun|].
  close_run Hrun. split; [reflexivity|]. rewrite Hw. reflexivity.
Qed.

Lemma Reconcile_phase7_run (infScheduler : InferenceScheduler) (s s1 : Run) (f : Flow R R) :
  Reconcile_phase7 scheme infScheduler s = (f, s1) ->
  match f with
  | Next r | Return r =>
    RequeueAfter (fst r) = (5 * Minute)%Z ->
    child_writes (calls s1)
    = (child_writes (calls s)
       ++ skipn 9 (children (namespace_of infScheduler) (name_of infScheduler)))%list
  | Panic => True
  end.
Proof.
  unfold Reconcile_phase7. phase_unfold. intros Hrun.
  upsert_unstructured_step Hrun @createOrUpdate_call; [not_ready_result Hrun|].
  upsert_unstructured_step Hrun @createOrUpdate_call; [not_ready_result Hrun|].
  repeat split_run Hrun; close_run Hrun; try (unfold Minute, Second; discriminate).
  intros _. rewrite child_writes_app. simpl. rewrite app_nil_r, Hw0, Hw, <- app_assoc.
  reflexivity.
Qed.

Lemma Reconcile_phase1_run (infScheduler : InferenceScheduler) (s s1 : Run)
  (f : Flow R InferenceScheduler) :
  Reconcile_phase1 infScheduler s = (f, s1) ->
  (exists made, calls s1 = (calls s ++ made)%list
                /\ Forall (fun c => touches_child c = false) made)
  /\ match f with
     | Next infScheduler' => isMeta infScheduler' = isMeta infScheduler
     | Return r => r = (requeueAfter (60 * Second), None)
     | Panic => False
     end.
Proof.
  pose proof (validatePrerequisites_run infScheduler s) as Hv. simpl in Hv.
  unfold Reconcile_phase1, bind, call. rewrite Hv. clear Hv. go.
  intros Hrun.
  repeat split_run Hrun; close_run Hrun; (split; [made_calls|reflexivity]).
Qed.

(** ** Whole invocations *)

Lemma untouched_no_writes (l : list Call) :
  Forall (fun c => touches_child c = false) l -> child_writes l = [].
Proof.
  induction 1 as [|c l Hc _ IH]; [reflexivity|].
  change (child_writes (c :: l))
    with (match child_write c with
          | Some y => y :: child_writes l
          | None => child_writes l
          end).
  rewrite IH.
  destruct c as [| |o|o|]; simpl in *; try reflexivity;
    destruct (is_root (oKind o)); simpl in *; congruence.
Qed.

Lemma append_cancel (n a b : string) : n +:+ a = n +:+ b -> a = b.
Proof. induction n as [|c n IH]; simpl; [auto|]. intros E. inversion E. auto. Qed.

Lemma children_NoDup (namespace name : string) : NoDup (children namespace name).
Proof.
  unfold children.
  repeat (apply NoDup_cons_2;
          [rewrite ?elem_of_cons, elem_of_nil;
           intros Hin; repeat (destruct Hin as [Hin|Hin]); try discriminate Hin;
           try contradiction;
           inversion Hin as [Hn]; apply append_cancel in Hn; discriminate Hn|]).
  apply NoDup_nil_2.
Qed.

(** C3, as the code has it. An invocation that runs the whole phase
    sequence (it returns the five-minute requeue of phase Ready) creates
    or replaces exactly eleven children of the root object it fetched, in
    a fixed order; each is named by the root name followed by the fixed
    suffix of its builder, in the root's namespace. The eleven are pairwise
    distinct as (kind, name), and the list depends on the root's name and
    namespace only, so it is the same on every invocation. *)
Theorem full_pass_applies_eleven_children (req : NamespacedName) (w w' : W)
  (made : list Call) :
  invoke scheme req w = (Some (requeueAfter (5 * Minute), None), w', made) ->
  exists fetched : InferenceScheduler,
    fst (Get KInferenceScheduler req w) = inr fetched
    /\ child_writes made = children (Namespace (isMeta fetched)) (Name (isMeta fetched))
    /\ length (child_writes made) = 11%nat
    /\ NoDup (child_writes made).
Proof.
  unfold invoke, call, Reconcile, bind. intros Hrun.
  destruct (Reconcile_fetch req (start w)) as [f0 s0] eqn:E0.
  apply Reconcile_fetch_run in E0 as [(made0 & Hc0 & Hq0) Hf0].
  destruct f0 as [i0|r|]; simpl in Hrun; [| |contradiction].
  2: { close_run Hrun. simpl in Hf0. unfold Minute, Second in Hf0. discriminate. }
  destruct Hf0 as (fetched & w0 & Hget & Hname & Hns & _).
  destruct (Reconcile_phase1 i0 s0) as [f1 s1] eqn:E1.
  apply Reconcile_phase1_run in E1 as [(made1 & Hc1 & Hq1) Hf1].
  destruct f1 as [i1|r|]; simpl in Hrun; [| |contradiction].
  2: { subst r. exfalso. inversion Hrun. }
  destruct (Reconcile_phase4 scheme i1 s1) as [f4 s4] eqn:E4.
  apply Reconcile_phase4_run in E4.
  destruct f4 as [i4|r|]; simpl in Hrun; [| |discriminate].
  2: { close_run Hrun. simpl in E4. congruence. }
  destruct E4 as [Hm4 Hw4].
  destruct (Reconcile_phase5 scheme i4 s4) as [f5 s5] eqn:E5.
  apply Reconcile_phase5_run in E5.
  destruct f5 as [i5|r|]; simpl in Hrun; [| |discriminate].
  2: { close_run Hrun. simpl in E5. congruence. }
  destruct E5 as [Hm5 Hw5].
  destruct (Reconcile_phase6 scheme i5 s5) as [f6 s6] eqn:E6.
  apply Reconcile_phase6_run in E6.
  destruct f6 as [i6|r|]; simpl in Hrun; [| |discriminate].
  2: { close_run Hrun. simpl in E6. congruence. }
  destruct E6 as [Hm6 Hw6].
  destruct (Reconcile_phase7 scheme i6 s6) as [f7 s7] eqn:E7.
  apply Reconcile_phase7_run in E7.
  assert (Hw7 : child_writes (calls s7)
                = (child_writes (calls s6)
                   ++ skipn 9 (children (namespace_of i6) (name_of i6)))%list).
  { destruct f7 as [r|r|]; simpl in Hrun; [| |discriminate];
      close_run Hrun; apply E7; reflexivity. }
  assert (Hmade : made = calls s7) by (destruct f7; simpl in Hrun; congruence).
  assert (Hstart : child_writes (calls s1) = []).
  { apply untouched_no_writes. rewrite Hc1, Hc0. simpl.
    apply Forall_app. split; assumption. }
  exists fetched. unfold start in Hget. simpl in Hget. rewrite Hget.
  assert (Hall : child_writes made
                 = children (Namespace (isMeta fetched)) (Name (isMeta fetched))).
  { rewrite Hmade, Hw7, Hw6, Hw5, Hw4, Hstart.
    unfold namespace_of, name_of. rewrite Hm6, Hm5, Hm4, Hf1, Hname, Hns. reflexivity. }
  split; [reflexivity|]. split; [exact Hall|]. rewrite Hall.
  split; [reflexivity|apply children_NoDup].
Qed.

(** C1. An invocation that reaches prerequisite validation, and in which
    validation reports a missing prerequisite, makes exactly one more
    call: a status update of an object with phase [PrerequisitesMissing],
    the validator's message (the missing list) as prerequisite message,
    the validated flag off and a false [PrerequisitesValidated] condition.
    It returns a 60-second requeue and no error. No call of the whole
    invocation reads or writes a child resource: phases 4 to 7, with
    their builders and upserts, are not run. *)
Theorem missing_prerequisite_blocks_deploy (req : NamespacedName) (w : W)
  (infScheduler : InferenceScheduler) (s1 s2 : Run) (err : error) :
  Reconcile_fetch req (start w) = (Next infScheduler, s1) ->
  call (R := R) (validatePrerequisites infScheduler) s1 = (Next (Some err), s2) ->
  exists reported : InferenceScheduler,
    invoke scheme req w
    = (Some (requeueAfter (60 * Second), None),
       snd (StatusUpdate reported (world s2)),
       (calls s2 ++ [CallStatusUpdate reported])%list)
    /\ Phase (Status reported) = "PrerequisitesMissing"
    /\ PrerequisiteMessage (Status reported) = Error err
    /\ PrerequisitesValidated (Status reported) = false
    /\ (exists c, FindStatusCondition (Conditions (Status reported)) "PrerequisitesValidated"
                  = Some c
                  /\ cStatus c = ConditionFalse /\ Message c = Error err)
    /\ (exists missing, missing <> [] /\ err = missingError missing)
    /\ Forall (fun c => touches_child c = false) (calls s2 ++ [CallStatusUpdate reported])
    /\ child_writes (calls s2 ++ [CallStatusUpdate reported]) = [].
Proof.
  intros Hfetch Hval.
  set (flagged := set_status (set_Phase "PrerequisitesMissing")
                    (set_status (set_PrerequisiteMessage (Error err))
                       (set_status (set_PrerequisitesValidated false) infScheduler))).
  set (reported := updateCondition (Now (world s2)) flagged "PrerequisitesValidated"
                     ConditionFalse "ValidationFailed" (Error err)).
  exists reported.
  assert (Hquiet : Forall (fun c => touches_child c = false)
                     (calls s2 ++ [CallStatusUpdate reported])).
  { apply Reconcile_fetch_run in Hfetch as [(made0 & Hc0 & Hq0) _].
    pose proof (validatePrerequisites_run infScheduler s1) as Hv. simpl in Hv.
    unfold call in Hval. rewrite Hv in Hval. inversion Hval as [[Herr Hs2]]. simpl.
    rewrite Hc0. simpl. rewrite <- !app_assoc. apply Forall_app. split; [exact Hq0|].
    repeat constructor. }
  split.
  { unfold invoke. unfold call at 1. unfold Reconcile, bind. rewrite Hfetch.
    unfold Reconcile_phase1, bind. unfold R in *. rewrite Hval. go. reflexivity. }
  split; [reflexivity|]. split; [reflexivity|]. split; [reflexivity|].
  split.
  { unfold reported, updateCondition.
    pose proof (Find_Set_same (Now (world s2)) (Conditions (Status flagged))
                  {| cType := "PrerequisitesValidated"; cStatus := ConditionFalse;
                     ObservedGeneration := Generation (isMeta flagged);
                     LastTransitionTime := Now (world s2);
                     Reason := "ValidationFailed"; Message := Error err |}) as Hf.
    simpl in *. eexists. split; [exact Hf|].
    destruct (FindStatusCondition (Conditions (Status infScheduler)) "PrerequisitesValidated")
      as [c0|]; simpl; [|split; reflexivity].
    split; [|reflexivity]. destruct (String.eqb (cStatus c0) ConditionFalse) eqn:E; simpl.
    + now apply String.eqb_eq in E.
    + reflexivity. }
  split.
  { pose proof (validatePrerequisites_run infScheduler s1) as Hv. simpl in Hv.
    unfold call in Hval. rewrite Hv in Hval. inversion Hval as [[Herr Hs2]].
    unfold verdict in *.
    destruct (missing_of _ _ _ _ _) as [|m l]; simpl in *; [discriminate|].
    exists (m :: l). split; [discriminate|]. now inversion Herr. }
  split; [exact Hquiet|]. now apply untouched_no_writes.
Qed.

(** ** Workload readiness *)

Lemma condition_set (now : Time) (infScheduler : InferenceScheduler)
  (ty st reason message : string) :
  exists c,
    FindStatusCondition
      (Conditions (Status (updateCondition now infScheduler ty st reason message))) ty
    = Some c
    /\ cStatus c = st /\ Reason c = reason /\ Message c = message.
Proof.
  unfold updateCondition. simpl.
  pose proof (Find_Set_same now (Conditions (Status infScheduler))
                {| cType := ty; cStatus := st;
                   ObservedGeneration := Generation (isMeta infScheduler);
                   LastTransitionTime := now; Reason := reason; Message := message |}) as Hf.
  simpl in Hf. eexists. split; [exact Hf|].
  destruct (FindStatusCondition (Conditions (Status infScheduler)) ty) as [c0|]; simpl;
    [|repeat split].
  split; [|split; reflexivity].
  destruct (String.eqb (cStatus c0) st) eqn:E; simpl; [now apply String.eqb_eq in E|reflexivity].
Qed.

(** C4. The readiness probe of a workload makes one call, the read of the
    Deployment, and answers true exactly when that read returned a
    Deployment whose ready-replica count equals its desired replica count:
    a failed read gives false and the read's error, and a Deployment
    without a replica count makes the probe panic. When the probe of the model server, or of the
    endpoint picker, answers false (and no error), the phase returns from
    [Reconcile] there: a 30-second requeue and no error, after one status
    update that carries the step's readiness condition set to false and a
    replica count of zero; nothing after the probe is applied. *)
Theorem workload_readiness_gate :
  (forall (namespace name : string) (s : Run),
      let key := {| nnNamespace := namespace; nnName := name |} in
      let read := Get KDeployment key (world s) in
      let probe := isDeploymentReady namespace name s in
      snd probe = {| world := snd read; calls := (calls s ++ [CallGet KDeployment key])%list |}
      /\ (forall a, fst probe <> Next a)
      /\ (fst probe = Panic
          <-> exists deployment,
                fst read = inr deployment /\ Replicas (dSpec deployment) = None)
      /\ (forall (ready : bool) (err : option error),
            fst probe = Return (ready, err) ->
            (ready = true
             <-> exists deployment,
                   fst read = inr deployment
                   /\ Replicas (dSpec deployment)
                      = Some (ReadyReplicas (dStatus deployment)))
            /\ match fst read with
               | inl e => err = Some e
               | inr _ => err = None
               end))
  /\ (forall (namespace name : string) (s : Run) (deployment : Deployment) (w1 : W)
          (replicas : Z),
      Get KDeployment {| nnNamespace := namespace; nnName := name |} (world s)
      = (inr deployment, w1) ->
      Replicas (dSpec deployment) = Some replicas ->
      exists ready : bool,
        isDeploymentReady namespace name s
        = (Return (ready, None),
           {| world := w1;
              calls := (calls s ++ [CallGet KDeployment
                                      {| nnNamespace := namespace; nnName := name |}])%list |})
        /\ (ready = true <-> ReadyReplicas (dStatus deployment) = replicas))
  /\ (forall (infScheduler : InferenceScheduler) (s sa sb sc : Run),
      let deployment := buildModelServerDeployment infScheduler in
      call (R := R) (createOrUpdate scheme (k := KDeployment) deployment infScheduler) s
      = (Next None, sa) ->
      call (R := R) (createOrUpdate scheme (k := KService) (buildModelServerService infScheduler)
              infScheduler) sa
      = (Next None, sb) ->
      call (R := R) (isDeploymentReady (Namespace (dMeta deployment)) (Name (dMeta deployment))) sb
      = (Next (false, None), sc) ->
      exists reported : InferenceScheduler,
        Reconcile_phase4 scheme infScheduler s
        = (Return (requeueAfter (30 * Second), None),
           {| world := snd (StatusUpdate reported (world sc));
              calls := (calls sc ++ [CallStatusUpdate reported])%list |})
        /\ ModelServerReplicas (Status reported) = 0%Z
        /\ exists c, FindStatusCondition (Conditions (Status reported)) "ModelServerReady"
                     = Some c
                     /\ cStatus c = ConditionFalse /\ Reason c = "NotReady")
  /\ (forall (infScheduler : InferenceScheduler) (s s1 s2 s3 s4 s5 s6 s7 : Run),
      let eppDeployment := buildEPPDeployment infScheduler in
      apply_or_return scheme (k := KServiceAccount) (buildEPPServiceAccount infScheduler)
        infScheduler s = (Next tt, s1) ->
      apply_or_return scheme (k := KRole) (buildEPPRole infScheduler) infScheduler s1
      = (Next tt, s2) ->
      apply_or_return scheme (k := KRoleBinding) (buildEPPRoleBinding infScheduler)
        infScheduler s2 = (Next tt, s3) ->
      apply_or_return scheme (k := KConfigMap) (buildEPPConfigMap infScheduler)
        infScheduler s3 = (Next tt, s4) ->
      call (R := R) (createOrUpdate scheme (k := KDeployment) eppDeployment infScheduler) s4
      = (Next None, s5) ->
      apply_or_return scheme (k := KService) (buildEPPService infScheduler) infScheduler s5
      = (Next tt, s6) ->
      call (R := R) (isDeploymentReady (Namespace (dMeta eppDeployment)) (Name (dMeta eppDeployment))) s6
      = (Next (false, None), s7) ->
      exists reported : InferenceScheduler,
        Reconcile_phase5 scheme infScheduler s
        = (Return (requeueAfter (30 * Second), None),
           {| world := snd (StatusUpdate reported (world s7));
              calls := (calls s7 ++ [CallStatusUpdate reported])%list |})
        /\ EPPReplicas (Status reported) = 0%Z
        /\ exists c, FindStatusCondition (Conditions (Status reported)) "EPPReady" = Some c
                     /\ cStatus c = ConditionFalse /\ Reason c = "NotReady")
  /\ (forall (req : NamespacedName) (s s0 s1 s4 s5 : Run)
             (i0 i1 i4 : InferenceScheduler) (r : R),
      Reconcile_fetch req s = (Next i0, s0) ->
      Reconcile_phase1 i0 s0 = (Next i1, s1) ->
      (Reconcile_phase4 scheme i1 s1 = (Return r, s4) ->
       Reconcile scheme req s = (Return r, s4))
      /\ (Reconcile_phase4 scheme i1 s1 = (Next i4, s4) ->
          Reconcile_phase5 scheme i4 s4 = (Return r, s5) ->
          Reconcile scheme req s = (Return r, s5))).
Proof.
  split; [|split; [|split; [|split]]].
  - intros namespace name s key read probe. subst probe read key.
    unfold isDeploymentReady. go.
    destruct (Get KDeployment _ (world s)) as [[e|deployment] w1]; simpl.
    + split; [reflexivity|]. split; [discriminate|]. split.
      * split; [discriminate|]. intros (d & Hd & _). discriminate.
      * intros ready err [= <- <-]. split; [|reflexivity].
        split; [discriminate|]. intros (d & Hd & _). discriminate.
    + destruct (Replicas (dSpec deployment)) as [replicas|] eqn:Hrep; simpl.
      * split; [reflexivity|]. split; [discriminate|]. split.
        -- split; [discriminate|]. intros (d & [= <-] & Hd). congruence.
        -- intros ready err [= <- <-]. split; [|reflexivity]. rewrite Z.eqb_eq. split.
           ++ intros <-. exists deployment. split; [reflexivity|exact Hrep].
           ++ intros (d & [= <-] & Hd). congruence.
      * split; [reflexivity|]. split; [discriminate|]. split.
        -- split; [|reflexivity]. intros _. exists deployment. split; [reflexivity|exact Hrep].
        -- intros ready err Hr. discriminate.
  - intros namespace name s deployment w1 replicas Hget Hrep.
    exists (ReadyReplicas (dStatus deployment) =? replicas)%Z.
    unfold isDeploymentReady. go. rewrite Hget. simpl. rewrite Hrep.
    split; [reflexivity|apply Z.eqb_eq].
  - intros infScheduler s sa sb sc deployment Hdep Hsvc Hprobe.
    subst deployment. unfold Reconcile_phase4. phase_unfold. unfold R in *.
    rewrite Hdep. simpl. rewrite Hsvc. simpl. simpl in Hprobe.
    rewrite Hprobe. simpl.
    eexists. split; [reflexivity|]. split; [reflexivity|].
    destruct (condition_set (Now (world sc)) infScheduler "ModelServerReady" ConditionFalse
                "NotReady" "Model server pods are not ready yet") as (c & Hc & Hs & Hr & _).
    exists c. simpl. auto.
  - intros infScheduler s s1 s2 s3 s4 s5 s6 s7 eppDeployment
      Hsa Hrole Hrb Hcm Hdep Hsvc Hprobe.
    subst eppDeployment.
    unfold R in *. unfold Reconcile_phase5. unfold bind at 1. rewrite Hsa.
    unfold bind at 1. rewrite Hrole. unfold bind at 1. rewrite Hrb.
    unfold bind at 1. rewrite Hcm.
    unfold bind at 1. rewrite Hdep. unfold bind at 1. unfold ret at 1.
    unfold bind at 1. rewrite Hsvc. unfold bind at 1. rewrite Hprobe.
    phase_unfold. simpl.
    eexists. split; [reflexivity|]. split; [reflexivity|].
    destruct (condition_set (Now (world s7)) infScheduler "EPPReady" ConditionFalse
                "NotReady" "EPP pods are not ready yet") as (c & Hc & Hs & Hr & _).
    exists c. simpl. auto.
  - intros req s s0 s1 s4 s5 i0 i1 i4 r Hfetch Hp1. split.
    + intros Hp4. unfold Reconcile, bind. rewrite Hfetch, Hp1, Hp4. reflexivity.
    + intros Hp4 Hp5. unfold Reconcile, bind. rewrite Hfetch, Hp1, Hp4, Hp5. reflexivity.
Qed.

End Properties.

(* ===================================================================== *)
(** * Names and defaults *)
(* ===================================================================== *)

Lemma trim_left_allowed (l : list N) :
  Forall (fun b => allowed b = true) l -> Forall (fun b => allowed b = true) (trim_left l).
Proof.
  induction 1 as [|b l Hb Hl IH]; simpl; [constructor|].
  destruct (b =? hyphen)%N; [exact IH|now constructor].
Qed.

Lemma trim_left_strips (l : list N) :
  exists k, l = (repeat hyphen k ++ trim_left l)%list.
Proof.
  induction l as [|b l [k IH]]; simpl; [now exists 0%nat|].
  destruct (b =? hyphen)%N eqn:E; [|now exists 0%nat].
  apply N.eqb_eq in E. subst b. exists (S k). simpl. now rewrite <- IH.
Qed.

Lemma trim_left_head (l : list N) : head (trim_left l) <> Some hyphen.
Proof.
  induction l as [|b l IH]; simpl; [discriminate|].
  destruct (b =? hyphen)%N eqn:E; [exact IH|].
  simpl. intros [= ->]. now rewrite N.eqb_refl in E.
Qed.

Lemma trim_right_prefix (l : list N) :
  exists k, l = (trim_right l ++ repeat hyphen k)%list.
Proof.
  unfold trim_right. destruct (trim_left_strips (rev l)) as [k Hk].
  exists k. rewrite <- (rev_involutive l) at 1. rewrite Hk at 1.
  rewrite rev_app_distr. f_equal.
  clear. induction k as [|k IH]; simpl; [reflexivity|].
  rewrite IH. clear. induction k as [|k IH]; simpl; [reflexivity|]. now rewrite <- IH.
Qed.

(** What [sanitizeName] does guarantee: at most 63 bytes. *)
Lemma sanitize_bytes_length (rs : list N) : (length (sanitize_bytes rs) <= 63)%nat.
Proof.
  unfold sanitize_bytes.
  destruct (63 <? length (Trim_hyphen (replace_invalid rs)))%nat eqn:E.
  - rewrite length_take. lia.
  - apply Nat.ltb_ge in E. exact E.
Qed.

(** Only lower-case letters, digits and hyphens. *)
Lemma sanitize_bytes_allowed (rs : list N) :
  Forall (fun b => allowed b = true) (sanitize_bytes rs).
Proof.
  assert (Hr : Forall (fun b => allowed b = true) (replace_invalid rs)).
  { unfold replace_invalid. apply Forall_map. apply Forall_forall. intros r _. simpl.
    destruct (allowed (unicode_ToLower r)) eqn:E; [exact E|reflexivity]. }
  assert (Ht : Forall (fun b => allowed b = true) (Trim_hyphen (replace_invalid rs))).
  { unfold Trim_hyphen, trim_right.
    apply Forall_rev, trim_left_allowed, Forall_rev, trim_left_allowed, Hr. }
  unfold sanitize_bytes. destruct (63 <? _)%nat; [now apply Forall_take|exact Ht].
Qed.

(** No hyphen in front. *)
Lemma sanitize_bytes_head (rs : list N) : head (sanitize_bytes rs) <> Some hyphen.
Proof.
  assert (Ht : head (Trim_hyphen (replace_invalid rs)) <> Some hyphen).
  { unfold Trim_hyphen.
    pose proof (trim_left_head (replace_invalid rs)) as Hh.
    destruct (trim_right_prefix (trim_left (replace_invalid rs))) as [k Hk].
    destruct (trim_right (trim_left (replace_invalid rs))) as [|b t]; [discriminate|].
    rewrite Hk in Hh. exact Hh. }
  unfold sanitize_bytes. destruct (63 <? _)%nat; [|exact Ht].
  destruct (Trim_hyphen (replace_invalid rs)); [discriminate|exact Ht].
Qed.

(** C6. The validator fails open on a list error. A list probe that fails
    with an error other than no-match is neither recorded as missing nor
    returned: with any client, when each of the four probes fails so, the
    validator returns nil. (A probe that reports no match is recorded, and
    the validator then returns the error made of the missing list.) Take a
    root object that names the GatewayClass [istio], on a cluster that has
    only [kgateway]. When the lists are served the validator names the
    class as missing, and the invocation stops with phase
    [PrerequisitesMissing], a 60-second requeue and no child touched. When
    every list call times out the validator returns nil for the same
    object on the same cluster: the invocation records
    [All prerequisites validated successfully], creates the eleven
    children, among them the Gateway of class [istio], and reports the
    object Ready. *)
Theorem validator_fails_open_on_list_errors :
  (forall (W : Type) (client : Client W) (infScheduler : InferenceScheduler) (s : Run),
      let p1 := List gvkGateway (Some 1%Z) (world s) in
      let p2 := List gvkHTTPRoute (Some 1%Z) (snd p1) in
      let p3 := List gvkInferencePool (Some 1%Z) (snd p2) in
      let p4 := List gvkGatewayClass None (snd p3) in
      other_error (fst p1) = true -> other_error (fst p2) = true ->
      other_error (fst p3) = true -> other_error (fst p4) = true ->
      validatePrerequisites infScheduler s
      = (Return None,
         {| world := snd p4;
            calls := (calls s ++ [CallList gvkGateway (Some 1%Z);
                                  CallList gvkHTTPRoute (Some 1%Z);
                                  CallList gvkInferencePool (Some 1%Z);
                                  CallList gvkGatewayClass None])%list |}))
  /\ (forall (W : Type) (client : Client W) (infScheduler : InferenceScheduler) (s : Run),
      let p1 := List gvkGateway (Some 1%Z) (world s) in
      let p2 := List gvkHTTPRoute (Some 1%Z) (snd p1) in
      let p3 := List gvkInferencePool (Some 1%Z) (snd p2) in
      let p4 := List gvkGatewayClass None (snd p3) in
      no_match (fst p1) = true \/ no_match (fst p2) = true
      \/ no_match (fst p3) = true \/ no_match (fst p4) = true ->
      exists missing,
        missing <> []
        /\ fst (validatePrerequisites infScheduler s) = Return (Some (missingError missing))
        /\ (no_match (fst p1) = true -> In missingGatewayAPI missing)
        /\ (no_match (fst p2) = true ->
            In missingHTTPRoute missing \/ In missingGatewayAPI missing)
        /\ (no_match (fst p3) = true -> In missingGIE missing)
        /\ (no_match (fst p4) = true -> In missingGatewayClassCRD missing))
  /\ (let root := sample 2 "istio" in
      let lists_served := cluster root true in
      let lists_fail := {| served := cluster root true |} in
      IsNoMatchError timeout = false
      /\ (forall gvk limit, fst (List gvk limit lists_fail) = inl timeout)
      /\ fst (validatePrerequisites root (start lists_served))
         = Return (Some (missingError [missingGatewayClass "istio"]))
      /\ fst (validatePrerequisites root (start lists_fail)) = Return None
      /\ (let run := invoke scheme demo lists_served in
          fst (fst run) = Some (requeueAfter (60 * Second), None)
          /\ child_writes (snd run) = []
          /\ last (prerequisites_written (snd run))
             = Some ("PrerequisitesMissing", false,
                     Error (missingError [missingGatewayClass "istio"])))
      /\ (let run := invoke scheme demo lists_fail in
          fst (fst run) = Some (requeueAfter (5 * Minute), None)
          /\ child_creates (snd run) = children "default" "demo"
          /\ gateway_classes_created (snd run) = [VString "istio"]
          /\ last (prerequisites_written (snd run))
             = Some ("Ready", true, "All prerequisites validated successfully"))).
Proof.
  split.
  - intros W client infScheduler s p1 p2 p3 p4 H1 H2 H3 H4.
    destruct (validator_drops_other_list_errors infScheduler s) as (_ & Hall).
    do 9 destruct Hall as (_ & Hall).
    exact (Hall H1 H2 H3 H4).
  - split.
    { intros W client infScheduler s p1 p2 p3 p4 Hany.
      destruct (validator_drops_other_list_errors infScheduler s)
        as (Hrun & _ & Hg & Hr & Hp & Hc & _).
      fold p1 p2 p3 p4 in Hrun, Hg, Hr, Hp, Hc.
      exists (missing_of infScheduler (fst p1) (fst p2) (fst p3) (fst p4)).
      assert (Hne : missing_of infScheduler (fst p1) (fst p2) (fst p3) (fst p4) <> []).
      { intros Hnil. rewrite Hnil in Hg, Hr, Hp, Hc. simpl in *.
        destruct Hany as [Ha|[Ha|[Ha|Ha]]]; tauto. }
      split; [exact Hne|]. rewrite Hrun. simpl. unfold verdict.
      destruct (missing_of infScheduler (fst p1) (fst p2) (fst p3) (fst p4)) as [|m l];
        [congruence|]. simpl. auto. }
    cbv zeta. split; [reflexivity|]. split; [reflexivity|].
    vm_compute. repeat split.
Qed.

(** C10. On the model name [longModelName] the name [sanitizeName] returns
    has 63 bytes and ends in a hyphen, and [sanitizeName] changes it when
    applied again: the trailing hyphens are trimmed before the name is cut
    to 63 bytes, and the cut can end on a hyphen. *)
Theorem sanitizeName_cut_leaves_hyphen :
  sanitizeName longModelName
  = "acme-research-llama-3-1-70b-instruct-customer-support-finetune-"
  /\ String.length (sanitizeName longModelName) = 63%nat
  /\ last (bytes (sanitizeName longModelName)) = Some hyphen
  /\ sanitizeName (sanitizeName longModelName)
     = "acme-research-llama-3-1-70b-instruct-customer-support-finetune"
  /\ sanitizeName (sanitizeName longModelName) <> sanitizeName longModelName.
Proof. vm_compute. repeat split; discriminate. Qed.


(* ===================================================================== *)
(** * Scenarios on the in-memory API server *)
(* ===================================================================== *)

(** The object is gone: one read, nothing else. *)
Lemma root_not_found_ends_witness :
  Get KInferenceScheduler demo emptyCluster = (inl (notFound demo), emptyCluster)
  /\ invoke scheme demo emptyCluster
     = (Some (noRequeue, None), emptyCluster, [CallGet KInferenceScheduler demo]).
Proof.
  split; [reflexivity|].
  apply (root_not_found_ends scheme demo emptyCluster emptyCluster (notFound demo));
    reflexivity.
Defined.

(** A delete request with the finalizer on: one update takes it off. *)
Lemma deletion_removes_finalizer_witness :
  let w := cluster deleting true in
  ContainsFinalizer deleting finalizerName = true
  /\ snd (invoke scheme demo w)
     = [CallGet KInferenceScheduler demo;
        CallUpdate {| oKind := KInferenceScheduler;
                      oValue := RemoveFinalizer deleting finalizerName |}]
  /\ fst (fst (invoke scheme demo w)) = Some (noRequeue, None)
  /\ Finalizers (isMeta (RemoveFinalizer deleting finalizerName)) = [].
Proof.
  intros w.
  assert (Hget : Get KInferenceScheduler demo w = (inr deleting, w))
    by (vm_compute; reflexivity).
  assert (Hdel : TimePtr_IsZero (DeletionTimestamp (isMeta deleting)) = false)
    by reflexivity.
  assert (Hfin : ContainsFinalizer deleting finalizerName = true)
    by (vm_compute; reflexivity).
  destruct (deletion_removes_finalizer scheme demo w w deleting Hget Hdel)
    as (_ & Hwith & _).
  destruct (Hwith Hfin) as [Hrun _].
  split; [exact Hfin|]. rewrite Hrun. repeat split.
Defined.

(** The class [istio] is asked for and only [kgateway] is installed. *)
Lemma missing_prerequisite_blocks_deploy_witness :
  let w := cluster (sample 2 "istio") false in
  exists reported w' made,
    invoke scheme demo w = (Some (requeueAfter (60 * Second), None), w', made)
    /\ Phase (Status reported) = "PrerequisitesMissing"
    /\ PrerequisiteMessage (Status reported)
       = Error (missingError [missingGatewayClass "istio"])
    /\ last made = Some (CallStatusUpdate reported)
    /\ child_writes made = [].
Proof.
  intros w.
  let r1 := eval vm_compute in (Reconcile_fetch demo (start w)) in
  lazymatch r1 with
  | (Next ?i, ?s1) =>
    assert (H1 : Reconcile_fetch demo (start w) = (Next i, s1))
      by (vm_compute; reflexivity);
    let r2 := eval vm_compute in (call (R := R) (validatePrerequisites i) s1) in
    lazymatch r2 with
    | (Next (Some ?e), ?s2) =>
      assert (H2 : call (R := R) (validatePrerequisites i) s1 = (Next (Some e), s2))
        by (vm_compute; reflexivity);
      destruct (missing_prerequisite_blocks_deploy scheme demo w i s1 s2 e H1 H2)
        as (reported & Hrun & Hphase & Hmsg & _ & _ & _ & _ & Hnone)
    end
  end.
  exists reported. eexists. eexists. split; [exact Hrun|].
  split; [exact Hphase|]. split; [exact Hmsg|].
  split; [apply last_snoc|exact Hnone].
Defined.

(** A full pass on a cluster whose workloads are ready at once. *)
Lemma full_pass_applies_eleven_children_witness :
  let run := invoke scheme demo (cluster (sample 1 "") true) in
  fst (fst run) = Some (requeueAfter (5 * Minute), None)
  /\ child_writes (snd run) = children "default" "demo".
Proof.
  intros run. split; [vm_compute; reflexivity|].
  destruct run as [[res w'] made] eqn:Hrun.
  assert (Hres : res = Some (requeueAfter (5 * Minute), None)).
  { change res with (fst (fst (res, w', made))). rewrite <- Hrun. vm_compute. reflexivity. }
  subst res.
  destruct (full_pass_applies_eleven_children scheme demo _ w' made Hrun)
    as (fetched & Hget & Hall & _).
  simpl. rewrite Hall. vm_compute in Hget. inversion Hget. reflexivity.
Defined.

(** The first pass on a cluster whose workloads take time to start. *)
Lemma workload_readiness_gate_witness :
  let root := sample 2 "" in
  exists s',
    Reconcile_phase4 scheme root (start (cluster root false))
    = (Return (requeueAfter (30 * Second), None), s')
    /\ child_writes (calls s')
       = [(KDeployment, "default", "demo-vllm"); (KService, "default", "demo-vllm")].
Proof.
  intros root.
  destruct (workload_readiness_gate (W := Cluster) scheme) as (_ & _ & Hgate & _).
  pose (s := start (cluster root false)).
  pose (ra := call (R := R) (createOrUpdate scheme (k := KDeployment)
                               (buildModelServerDeployment root) root) s).
  pose (rb := call (R := R) (createOrUpdate scheme (k := KService)
                               (buildModelServerService root) root) (snd ra)).
  pose (rc := call (R := R)
                (isDeploymentReady (Namespace (dMeta (buildModelServerDeployment root)))
                   (Name (dMeta (buildModelServerDeployment root)))) (snd rb)).
  assert (Ha1 : fst ra = Next None) by (vm_compute; reflexivity).
  assert (Ha : ra = (Next None, snd ra)) by (rewrite <- Ha1; apply surjective_pairing).
  assert (Hb1 : fst rb = Next None) by (vm_compute; reflexivity).
  assert (Hb : rb = (Next None, snd rb)) by (rewrite <- Hb1; apply surjective_pairing).
  assert (Hc1 : fst rc = Next (false, None)) by (vm_compute; reflexivity).
  assert (Hc : rc = (Next (false, None), snd rc)) by (rewrite <- Hc1; apply surjective_pairing).
  destruct (Hgate root s (snd ra) (snd rb) (snd rc) Ha Hb Hc) as (reported & Hrun & _).
  eexists. split; [exact Hrun|]. vm_compute. reflexivity.
Defined.

(** A condition set to False at time 10, then again at time 20. *)
Lemma condition_upsert_by_type_witness :
  let first := updateCondition 10%Z (sample 2 "") "EPPReady" ConditionFalse "NotReady" "waiting" in
  let second := updateCondition 20%Z first "EPPReady" ConditionFalse "DeploymentFailed" "boom" in
  NoDup (map cType (Conditions (Status (sample 2 ""))))
  /\ NoDup (map cType (Conditions (Status first)))
  /\ Conditions (Status second)
     = [ {| cType := "EPPReady"; cStatus := ConditionFalse; ObservedGeneration := 1%Z;
            LastTransitionTime := 10%Z; Reason := "DeploymentFailed"; Message := "boom" |} ].
Proof.
  intros first second.
  destruct (condition_upsert_by_type 10%Z 20%Z (sample 2 "") "EPPReady" ConditionFalse
              "NotReady" "waiting" "DeploymentFailed" "boom") as (Hnd & _).
  assert (H0 : NoDup (map cType (Conditions (Status (sample 2 ""))))) by constructor.
  split; [exact H0|]. split; [exact (Hnd H0)|]. reflexivity.
Defined.

(** C3, the claim as written fails: a full pass on a fresh cluster creates
    eleven children, not nine, and a suffix is not particular to a kind
    ([-vllm] names a Deployment and a Service, and the Deployments carry
    two suffixes). *)
Lemma nine_children_counterexample :
  let run := invoke scheme demo (cluster (sample 1 "") true) in
  fst (fst run) = Some (requeueAfter (5 * Minute), None)
  /\ child_creates (snd run) = children "default" "demo"
  /\ length (child_creates (snd run)) = 11%nat
  /\ length (child_creates (snd run)) <> 9%nat
  /\ In (KDeployment, "default", "demo-vllm") (child_creates (snd run))
  /\ In (KService, "default", "demo-vllm") (child_creates (snd run))
  /\ In (KDeployment, "default", "demo-epp") (child_creates (snd run)).
Proof.
  vm_compute. repeat split; auto 12. discriminate.
Qed.

(** Every call of the API server times out: no list probe succeeds, and
    the validator returns nil. *)
Example validator_passes_on_timeouts :
  let w := unreachable (sample 2 "") in
  fst (List gvkGateway (Some 1%Z) w) = inl timeout
  /\ fst (List gvkHTTPRoute (Some 1%Z) w) = inl timeout
  /\ fst (List gvkInferencePool (Some 1%Z) w) = inl timeout
  /\ fst (List gvkGatewayClass None w) = inl timeout
  /\ IsNoMatchError timeout = false
  /\ fst (validatePrerequisites (sample 2 "") (start w)) = Return None
  /\ Phase (Status
       (match fst (Reconcile_phase1 (sample 2 "") (start w)) with
        | Next o => o
        | _ => sample 2 ""
        end)) = "Deploying".
Proof. vm_compute. repeat split. Qed.

(** ** Further scenarios *)

Example sanitizeName_model_name :
  sanitizeName "Meta-Llama/Llama_3.1-8B" = "meta-llama-llama-3-1-8b".
Proof. vm_compute. reflexivity. Qed.

(** A two-byte rune (U+00E9) becomes one hyphen; the Kelvin sign becomes [k]. *)
Example sanitizeName_utf8 :
  sanitizeName
    (String "a" (String (ascii_of_N 0xC3) (String (ascii_of_N 0xA9)
       (String (ascii_of_N 0xE2) (String (ascii_of_N 0x84) (String (ascii_of_N 0xAA)
          EmptyString))))))
  = "a-k".
Proof. vm_compute. reflexivity. Qed.

Example formatFloat_defaults :
  formatFloat 2 f0_9 = "0.90" /\ formatFloat 1 f1_0 = "1.0" /\ formatFloat 1 f2_0 = "2.0".
Proof. vm_compute. repeat split. Qed.

(** The first pass on a cluster whose workloads take time: the finalizer
    and the initial phase are written, the prerequisites pass, the model
    server is created, and the pass ends on the 30-second requeue. *)
Example first_pass_waits_for_model_server :
  let run := invoke scheme demo (cluster (sample 2 "") false) in
  fst (fst run) = Some (requeueAfter (30 * Second), None)
  /\ child_creates (snd run)
     = [(KDeployment, "default", "demo-vllm"); (KService, "default", "demo-vllm")].
Proof. vm_compute. split; reflexivity. Qed.

(** A second full pass creates nothing: it replaces the same eleven. *)
Example second_pass_replaces :
  let after := snd (fst (invoke scheme demo (cluster (sample 1 "") true))) in
  let run := invoke scheme demo after in
  fst (fst run) = Some (requeueAfter (5 * Minute), None)
  /\ child_creates (snd run) = []
  /\ child_writes (snd run) = children "default" "demo".
Proof. vm_compute. repeat split. Qed.

(** A missing type is a missing prerequisite. *)
Example missing_inference_extension :
  let w := {| objects := [gatewayClass "kgateway"; root (sample 2 "")];
              registered := [gvkGateway; gvkHTTPRoute; gvkGatewayClass];
              outage := None; workloadsReady := false; nextVersion := 2%Z;
              clock := 1000%Z |} in
  fst (validatePrerequisites (sample 2 "") (start w)) = Return (Some (missingError [missingGIE])).
Proof. vm_compute. reflexivity. Qed.

(** The upsert of the model-server Service on a fresh cluster reads, then
    creates it with the controller reference of the root; applied again it
    reads, then replaces it under the stored resourceVersion. *)
Example upsert_twice :
  let o := sample 2 "" in
  let service := buildModelServerService o in
  let first := createOrUpdate scheme (k := KService) service o (start (cluster o false)) in
  let second := createOrUpdate scheme (k := KService) service o (start (world (snd first))) in
  fst first = Return None
  /\ fst second = Return None
  /\ map (fun c => match c with
                   | CallCreate w => ("create", ResourceVersion (oMeta w),
                                      map orName (OwnerReferences (oMeta w)))
                   | CallUpdate w => ("update", ResourceVersion (oMeta w),
                                      map orName (OwnerReferences (oMeta w)))
                   | _ => ("read", "", [])
                   end) (calls (snd first) ++ calls (snd second))
     = [("read", "", []); ("create", "", ["demo"]);
        ("read", "", []); ("update", "2", ["demo"])].
Proof. vm_compute. repeat split. Qed.

(* ===================================================================== *)
(** * More about names: what [sanitizeName] guarantees *)
(* ===================================================================== *)

Lemma of_bytes_length (l : list N) : String.length (of_bytes l) = length l.
Proof. unfold of_bytes. induction l as [|b l IH]; simpl; [reflexivity|]. now rewrite IH. Qed.

Lemma bytes_of_bytes (l : list N) :
  Forall (fun b => (b < 256)%N) l -> bytes (of_bytes l) = l.
Proof.
  unfold bytes, of_bytes. rewrite list_ascii_of_string_of_list_ascii.
  induction 1 as [|b l Hb _ IH]; simpl; [reflexivity|].
  now rewrite IH, N_ascii_embedding.
Qed.

Lemma of_bytes_bytes (s : string) : of_bytes (bytes s) = s.
Proof.
  unfold bytes, of_bytes. rewrite map_map.
  rewrite (map_ext _ (fun a => a)) by apply ascii_N_embedding.
  rewrite map_id. apply string_of_list_ascii_of_string.
Qed.

Lemma bytes_length (s : string) : length (bytes s) = String.length s.
Proof. rewrite <- (of_bytes_bytes s) at 2. now rewrite of_bytes_length. Qed.

Lemma allowed_ascii (b : N) : allowed b = true -> (b < 128)%N.
Proof.
  unfold allowed, between, hyphen. intros Ha.
  repeat (apply orb_prop in Ha as [Ha|Ha]).
  - apply andb_prop in Ha as [_ Ha]. apply N.leb_le in Ha. lia.
  - apply andb_prop in Ha as [_ Ha]. apply N.leb_le in Ha. lia.
  - apply N.eqb_eq in Ha. subst b. reflexivity.
Qed.

Lemma allowed_kept (b : N) : allowed b = true -> unicode_ToLower b = b.
Proof.
  intros Ha. unfold unicode_ToLower.
  assert (Hup : between 0x41 0x5A b = false).
  { unfold allowed, between, hyphen in *.
    destruct (0x41 <=? b)%N eqn:E1, (b <=? 0x5A)%N eqn:E2; try reflexivity.
    apply N.leb_le in E1, E2.
    repeat (apply orb_prop in Ha as [Ha|Ha]).
    - apply andb_prop in Ha as [Ha _]. apply N.leb_le in Ha. lia.
    - apply andb_prop in Ha as [_ Ha]. apply N.leb_le in Ha. lia.
    - apply N.eqb_eq in Ha. lia. }
  rewrite Hup. pose proof (allowed_ascii b Ha) as Hlt.
  destruct (b =? 0x130)%N eqn:E; [apply N.eqb_eq in E; lia|].
  destruct (b =? 0x212A)%N eqn:E'; [apply N.eqb_eq in E'; lia|]. reflexivity.
Qed.

Lemma runes_ascii (l : list N) :
  Forall (fun b => (b < 128)%N) l -> runes_from 0 l = l.
Proof.
  induction 1 as [|b l Hb _ IH]; [reflexivity|].
  cbn [runes_from]. unfold DecodeRune.
  apply N.ltb_lt in Hb. change 0x80%N with 128%N. rewrite Hb. simpl. now rewrite IH.
Qed.

Lemma runes_from_length (p : list N) (skip : nat) :
  (length (runes_from skip p) <= length p)%nat.
Proof.
  revert skip. induction p as [|b t IH]; intros skip; [simpl; lia|].
  cbn [runes_from]. destruct skip as [|k].
  - destruct (DecodeRune (b :: t)) as [r size]. simpl. specialize (IH (Nat.pred size)). lia.
  - specialize (IH k). simpl. lia.
Qed.

Lemma replace_invalid_id (l : list N) :
  Forall (fun b => allowed b = true) l -> replace_invalid l = l.
Proof.
  unfold replace_invalid. induction 1 as [|b l Hb _ IH]; simpl; [reflexivity|].
  rewrite IH. rewrite (allowed_kept b Hb), Hb. reflexivity.
Qed.

Lemma trim_left_length (l : list N) : (length (trim_left l) <= length l)%nat.
Proof.
  induction l as [|b l IH]; simpl; [lia|]. destruct (b =? hyphen)%N; simpl; lia.
Qed.

Lemma Trim_hyphen_length (l : list N) : (length (Trim_hyphen l) <= length l)%nat.
Proof.
  unfold Trim_hyphen, trim_right. rewrite length_rev.
  pose proof (trim_left_length (rev (trim_left l))) as H1.
  pose proof (trim_left_length l) as H2. rewrite length_rev in H1. lia.
Qed.

Lemma trim_left_id (l : list N) : head l <> Some hyphen -> trim_left l = l.
Proof.
  destruct l as [|b l]; simpl; [reflexivity|]. intros Hh.
  destruct (b =? hyphen)%N eqn:E; [|reflexivity].
  apply N.eqb_eq in E. subst b. now contradiction Hh.
Qed.

Lemma last_rev_head (l : list N) : last (rev l) = head l.
Proof.
  destruct l as [|b l]; [reflexivity|]. simpl. apply last_snoc.
Qed.

Lemma head_rev_last (l : list N) : head (rev l) = last l.
Proof. rewrite <- (rev_involutive l) at 2. symmetry. apply last_rev_head. Qed.

Lemma trim_right_last (l : list N) : last (trim_right l) <> Some hyphen.
Proof. unfold trim_right. rewrite last_rev_head. apply trim_left_head. Qed.

Lemma trim_right_id (l : list N) : last l <> Some hyphen -> trim_right l = l.
Proof.
  intros Hl. unfold trim_right. rewrite trim_left_id; [apply rev_involutive|].
  now rewrite head_rev_last.
Qed.

Lemma Trim_hyphen_ends (l : list N) :
  head (Trim_hyphen l) <> Some hyphen /\ last (Trim_hyphen l) <> Some hyphen.
Proof.
  unfold Trim_hyphen. split; [|apply trim_right_last].
  pose proof (trim_left_head l) as Hh.
  destruct (trim_right_prefix (trim_left l)) as [k Hk].
  destruct (trim_right (trim_left l)) as [|b t]; [discriminate|].
  rewrite Hk in Hh. exact Hh.
Qed.

Lemma Trim_hyphen_allowed (l : list N) :
  Forall (fun b => allowed b = true) l -> Forall (fun b => allowed b = true) (Trim_hyphen l).
Proof.
  intros Hl. unfold Trim_hyphen, trim_right.
  apply Forall_rev, trim_left_allowed, Forall_rev, trim_left_allowed, Hl.
Qed.

Lemma replace_invalid_allowed (rs : list N) :
  Forall (fun b => allowed b = true) (replace_invalid rs).
Proof.
  unfold replace_invalid. apply Forall_map. apply Forall_forall. intros r _. simpl.
  destruct (allowed (unicode_ToLower r)) eqn:E; [exact E|reflexivity].
Qed.

(** X1. Whatever the input, the sanitized name has at most 63 bytes, all of
    them lower-case letters, digits or hyphens, and the first is not a
    hyphen. *)
Theorem sanitizeName_shape (name : string) :
  (String.length (sanitizeName name) <= 63)%nat
  /\ Forall (fun b => allowed b = true) (bytes (sanitizeName name))
  /\ head (bytes (sanitizeName name)) <> Some hyphen.
Proof.
  unfold sanitizeName.
  pose proof (sanitize_bytes_allowed (runes name)) as Ha.
  assert (Hb : bytes (of_bytes (sanitize_bytes (runes name))) = sanitize_bytes (runes name)).
  { apply bytes_of_bytes. eapply Forall_impl; [exact Ha|].
    intros b Hb. apply allowed_ascii in Hb. lia. }
  rewrite of_bytes_length, Hb.
  split; [apply sanitize_bytes_length|]. split; [exact Ha|apply sanitize_bytes_head].
Qed.

(** X2. A name of at most 63 bytes is never cut: its sanitized form has no
    hyphen at the end either, and sanitizing it again changes nothing. *)
Theorem sanitizeName_short_is_stable (name : string) :
  (String.length name <= 63)%nat ->
  last (bytes (sanitizeName name)) <> Some hyphen
  /\ sanitizeName (sanitizeName name) = sanitizeName name.
Proof.
  intros Hlen. unfold sanitizeName.
  set (t := Trim_hyphen (replace_invalid (runes name))).
  assert (Hshort : (length t <= 63)%nat).
  { unfold t. pose proof (Trim_hyphen_length (replace_invalid (runes name))) as H1.
    unfold replace_invalid in H1 at 2. rewrite length_map in H1.
    pose proof (runes_from_length (bytes name) 0) as H2. rewrite bytes_length in H2.
    unfold runes in *. lia. }
  assert (Hs : sanitize_bytes (runes name) = t).
  { unfold sanitize_bytes. fold t.
    destruct (63 <? length t)%nat eqn:E; [apply Nat.ltb_lt in E; lia|reflexivity]. }
  assert (Ha : Forall (fun b => allowed b = true) t)
    by apply Trim_hyphen_allowed, replace_invalid_allowed.
  destruct (Trim_hyphen_ends (replace_invalid (runes name))) as [Hh Hl]. fold t in Hh, Hl.
  assert (Hb : bytes (of_bytes t) = t).
  { apply bytes_of_bytes. eapply Forall_impl; [exact Ha|].
    intros b Hb. apply allowed_ascii in Hb. lia. }
  rewrite Hs, Hb. split; [exact Hl|]. f_equal.
  unfold runes. rewrite Hb, runes_ascii
    by (eapply Forall_impl; [exact Ha|apply allowed_ascii]).
  unfold sanitize_bytes. rewrite (replace_invalid_id t Ha).
  unfold Trim_hyphen. rewrite (trim_left_id t Hh), (trim_right_id t Hl).
  destruct (63 <? length t)%nat eqn:E; [apply Nat.ltb_lt in E; lia|reflexivity].
Qed.

Lemma sanitizeName_short_is_stable_witness :
  (String.length "Qwen/Qwen2.5-0.5B_" <= 63)%nat
  /\ sanitizeName "Qwen/Qwen2.5-0.5B_" = "qwen-qwen2-5-0-5b"
  /\ sanitizeName (sanitizeName "Qwen/Qwen2.5-0.5B_") = sanitizeName "Qwen/Qwen2.5-0.5B_".
Proof.
  assert (Hlen : (String.length "Qwen/Qwen2.5-0.5B_" <= 63)%nat) by (simpl; lia).
  split; [exact Hlen|]. split; [vm_compute; reflexivity|].
  exact (proj2 (sanitizeName_short_is_stable "Qwen/Qwen2.5-0.5B_" Hlen)).
Defined.

Lemma trim_left_hyphens (l : list N) :
  Forall (fun b => b = hyphen) l -> trim_left l = [].
Proof. induction 1 as [|b l -> _ IH]; simpl; [reflexivity|exact IH]. Qed.

Lemma Trim_hyphen_nil (l : list N) :
  Trim_hyphen l = [] <-> Forall (fun b => b = hyphen) l.
Proof.
  unfold Trim_hyphen. split.
  - intros Ht. destruct (trim_right_prefix (trim_left l)) as [k Hk].
    rewrite Ht in Hk. simpl in Hk.
    pose proof (trim_left_head l) as Hh. rewrite Hk in Hh.
    destruct k as [|k]; [|now contradiction Hh].
    destruct (trim_left_strips l) as [j Hj]. rewrite Hk in Hj. simpl in Hj.
    rewrite app_nil_r in Hj. rewrite Hj. clear.
    induction j as [|j IH]; simpl; constructor; auto.
  - intros Hl. now rewrite (trim_left_hyphens l Hl).
Qed.

(** X3. The sanitized name is empty exactly when no rune of the name is a
    letter or a digit (after lower-casing): every rune has then become a
    hyphen, and the hyphens are trimmed. *)
Theorem sanitizeName_empty (name : string) :
  sanitizeName name = ""
  <-> Forall (fun r => allowed (unicode_ToLower r) = false \/ unicode_ToLower r = hyphen)
        (runes name).
Proof.
  unfold sanitizeName.
  assert (Hnil : forall l, of_bytes l = "" <-> l = []).
  { intros l. split; [|now intros ->]. destruct l; [reflexivity|discriminate]. }
  rewrite Hnil. unfold sanitize_bytes.
  set (t := Trim_hyphen (replace_invalid (runes name))).
  assert (Ht : (if (63 <? length t)%nat then take 63 t else t) = [] <-> t = []).
  { destruct (63 <? length t)%nat eqn:E; [|reflexivity].
    apply Nat.ltb_lt in E. split.
    - intros Hk. apply (f_equal (@length N)) in Hk. rewrite length_take in Hk.
      change (length (@nil N)) with 0%nat in Hk. lia.
    - intros ->. simpl in E. lia. }
  rewrite Ht. unfold t. rewrite Trim_hyphen_nil. unfold replace_invalid.
  rewrite Forall_map. apply Forall_iff. intros r. simpl.
  destruct (allowed (unicode_ToLower r)); split; auto.
  intros [Hf|Hh]; [discriminate|exact Hh].
Qed.

(* ===================================================================== *)
(** * More about the validator *)
(* ===================================================================== *)

Lemma HasPrefix_spec (s prefix : string) :
  HasPrefix s prefix = true <-> exists rest, s = prefix +:+ rest.
Proof.
  revert s. induction prefix as [|c p IH]; intros s; simpl.
  - split; [intros _; now exists s|intros _; destruct s; reflexivity].
  - destruct s as [|d t]; simpl.
    + split; [discriminate|intros [rest Hr]; discriminate].
    + destruct (Ascii.eqb c d) eqn:E.
      * apply Ascii.eqb_eq in E. subst d. rewrite IH. split.
        -- intros [rest ->]. now exists rest.
        -- intros [rest Hr]. inversion Hr. now exists rest.
      * split; [discriminate|]. intros [rest Hr]. inversion Hr. subst.
        now rewrite Ascii.eqb_refl in E.
Qed.

Lemma Contains_spec (s substr : string) :
  GoStrings.Contains s substr = true <-> exists before rest, s = before +:+ substr +:+ rest.
Proof.
  induction s as [|c t IH].
  - change (GoStrings.Contains "" substr) with (HasPrefix "" substr || false).
    rewrite orb_false_r, HasPrefix_spec. split.
    + intros [rest Hr]. now exists "", rest.
    + intros (before & rest & Hr). destruct before; [now exists rest|discriminate].
  - change (GoStrings.Contains (String c t) substr)
      with (HasPrefix (String c t) substr || GoStrings.Contains t substr).
    rewrite orb_true_iff, HasPrefix_spec, IH. split.
    + intros [[rest Hr]|(before & rest & Hr)].
      * now exists "", rest.
      * exists (String c before), rest. simpl. now rewrite Hr.
    + intros (before & rest & Hr). destruct before as [|d before].
      * left. now exists rest.
      * right. simpl in Hr. inversion Hr. now exists before, rest.
Qed.

(** X4. [contains] asks whether some element of the slice has the given text
    inside it, anywhere; it is not a test of membership. *)
Theorem contains_is_substring_search (slice : list string) (substr : string) :
  contains slice substr = true
  <-> exists item before rest, In item slice /\ item = before +:+ substr +:+ rest.
Proof.
  unfold contains. rewrite existsb_exists. split.
  - intros (item & Hin & Hc). apply Contains_spec in Hc as (before & rest & Hr).
    now exists item, before, rest.
  - intros (item & before & rest & Hin & Hr). exists item. split; [exact Hin|].
    apply Contains_spec. now exists before, rest.
Qed.

Lemma validator_run_again (infScheduler : InferenceScheduler)
  {W : Type} `{Client W} (s : Run) :
  fst (validatePrerequisites infScheduler s)
  = Return (verdict (missing_of infScheduler
              (fst (List gvkGateway (Some 1%Z) (world s)))
              (fst (List gvkHTTPRoute (Some 1%Z)
                      (snd (List gvkGateway (Some 1%Z) (world s)))))
              (fst (List gvkInferencePool (Some 1%Z)
                      (snd (List gvkHTTPRoute (Some 1%Z)
                              (snd (List gvkGateway (Some 1%Z) (world s)))))))
              (fst (List gvkGatewayClass None
                      (snd (List gvkInferencePool (Some 1%Z)
                              (snd (List gvkHTTPRoute (Some 1%Z)
                                      (snd (List gvkGateway (Some 1%Z) (world s))))))))))).
Proof.
  pose proof (validatePrerequisites_run infScheduler s) as Hv. simpl in Hv.
  now rewrite Hv.
Qed.

Lemma missing_of_nil (infScheduler : InferenceScheduler)
  (gateways routes pools classes : error + list Unstructured) :
  missing_of infScheduler gateways routes pools classes = []
  <-> no_match gateways = false /\ no_match routes = false /\ no_match pools = false
      /\ match classes with
         | inl err => IsNoMatchError err = false
         | inr items =>
           exists item, In item items
             /\ Name (uMeta item)
                = getDefaultString (ClassName (Gateway (Spec infScheduler))) "kgateway"
         end.
Proof.
  unfold missing_of.
  destruct (no_match gateways), (no_match routes), (no_match pools); simpl;
    try (split; [discriminate|intros (? & ? & ? & _); discriminate]).
  destruct classes as [err|items]; simpl.
  - destruct (IsNoMatchError err); split; try discriminate; auto.
    intros (_ & _ & _ & ?). discriminate.
  - destruct (existsb _ items) eqn:E.
    + split; [|reflexivity]. intros _. repeat split.
      apply existsb_exists in E as (item & Hin & Heq). exists item. split; [exact Hin|].
      now apply String.eqb_eq.
    + split; [discriminate|]. intros (_ & _ & _ & item & Hin & Heq).
      assert (existsb (fun item => String.eqb (Name (uMeta item))
                         (getDefaultString (ClassName (Gateway (Spec infScheduler))) "kgateway"))
                items = true); [|congruence].
      apply existsb_exists. exists item. split; [exact Hin|]. now apply String.eqb_eq.
Qed.

(** X5. The validator returns no error exactly when none of the four probes
    reported a missing type and the GatewayClass probe either failed with
    another error or listed a class with the requested name ([kgateway]
    when the spec names none). *)
Theorem validator_passes_exactly_when {W : Type} `{Client W}
  (infScheduler : InferenceScheduler) (s : Run) :
  let p1 := List gvkGateway (Some 1%Z) (world s) in
  let p2 := List gvkHTTPRoute (Some 1%Z) (snd p1) in
  let p3 := List gvkInferencePool (Some 1%Z) (snd p2) in
  let p4 := List gvkGatewayClass None (snd p3) in
  fst (validatePrerequisites infScheduler s) = Return None
  <-> no_match (fst p1) = false /\ no_match (fst p2) = false /\ no_match (fst p3) = false
      /\ match fst p4 with
         | inl err => IsNoMatchError err = false
         | inr items =>
           exists item, In item items
             /\ Name (uMeta item)
                = getDefaultString (ClassName (Gateway (Spec infScheduler))) "kgateway"
         end.
Proof.
  intros p1 p2 p3 p4. rewrite validator_run_again. fold p1 p2 p3 p4.
  rewrite <- missing_of_nil. unfold verdict.
  destruct (missing_of infScheduler (fst p1) (fst p2) (fst p3) (fst p4)); simpl;
    split; congruence.
Qed.

(** X6. The validator and the Gateway builder agree on the class: when
    validation passes on a class list it could read, the class name the
    built Gateway asks for is the name of a listed class. *)
Theorem validated_class_is_the_one_built {W : Type} `{Client W}
  (infScheduler : InferenceScheduler) (s : Run) (items : list Unstructured) :
  let p1 := List gvkGateway (Some 1%Z) (world s) in
  let p2 := List gvkHTTPRoute (Some 1%Z) (snd p1) in
  let p3 := List gvkInferencePool (Some 1%Z) (snd p2) in
  let p4 := List gvkGatewayClass None (snd p3) in
  fst (validatePrerequisites infScheduler s) = Return None ->
  fst p4 = inr items ->
  exists item, In item items
    /\ at_path [Field "gatewayClassName"] (uSpec (buildGateway infScheduler))
       = Some (VString (Name (uMeta item))).
Proof.
  intros p1 p2 p3 p4 Hpass Hlist.
  rewrite validator_run_again in Hpass. fold p1 p2 p3 p4 in Hpass.
  assert (Hnil : missing_of infScheduler (fst p1) (fst p2) (fst p3) (fst p4) = []).
  { unfold verdict in Hpass.
    destruct (missing_of infScheduler (fst p1) (fst p2) (fst p3) (fst p4));
      [reflexivity|discriminate]. }
  apply missing_of_nil in Hnil as (_ & _ & _ & Hclass). rewrite Hlist in Hclass.
  destruct Hclass as (item & Hin & Hname). exists item. split; [exact Hin|].
  cbn. now rewrite Hname.
Qed.

Lemma validated_class_is_the_one_built_witness :
  let o := sample 2 "" in
  exists item,
    fst (validatePrerequisites o (start (cluster o false))) = Return None
    /\ Name (uMeta item) = "kgateway"
    /\ at_path [Field "gatewayClassName"] (uSpec (buildGateway o))
       = Some (VString (Name (uMeta item))).
Proof.
  intros o.
  assert (Hpass : fst (validatePrerequisites o (start (cluster o false))) = Return None)
    by (vm_compute; reflexivity).
  destruct (validated_class_is_the_one_built o (start (cluster o false))
              [{| uGVK := gvkGatewayClass; uMeta := mkMeta "kgateway" "" ∅; uSpec := VMap [] |}]
              Hpass)
    as (item & Hin & Hpath); [vm_compute; reflexivity|].
  destruct Hin as [<-|[]].
  exists {| uGVK := gvkGatewayClass; uMeta := mkMeta "kgateway" "" ∅; uSpec := VMap [] |}.
  split; [exact Hpass|]. split; [reflexivity|exact Hpath].
Defined.

Lemma missing_entries_differ (c : string) :
  missingGatewayAPI <> missingHTTPRoute /\ missingGatewayAPI <> missingGIE
  /\ missingGatewayAPI <> missingGatewayClassCRD /\ missingGatewayAPI <> missingGatewayClass c
  /\ missingHTTPRoute <> missingGIE /\ missingHTTPRoute <> missingGatewayClassCRD
  /\ missingHTTPRoute <> missingGatewayClass c /\ missingGIE <> missingGatewayClassCRD
  /\ missingGIE <> missingGatewayClass c
  /\ missingGatewayClassCRD <> missingGatewayClass c.
Proof.
  unfold missingGatewayAPI, missingHTTPRoute, missingGIE, missingGatewayClassCRD,
    missingGatewayClass. simpl. repeat split; discriminate.
Qed.

Lemma missing_entries_NoDup (c : string) :
  NoDup [missingGatewayAPI; missingHTTPRoute; missingGIE; missingGatewayClassCRD;
         missingGatewayClass c].
Proof.
  destruct (missing_entries_differ c) as (? & ? & ? & ? & ? & ? & ? & ? & ? & ?).
  repeat (apply NoDup_cons_2;
          [rewrite ?elem_of_cons, elem_of_nil; intuition congruence|]).
  apply NoDup_nil_2.
Qed.

(** X7. The missing list behind the validator's answer. The validator
    returns nil when the list is empty and the error made of the list
    otherwise; the list holds, in the order of the probes and each at most
    once, the Gateway API entry exactly when the Gateway probe reported no
    match, the HTTPRoute entry exactly when the HTTPRoute probe reported
    no match and the Gateway probe did not, the extension entry and the
    GatewayClass type entry exactly when their probes reported no match,
    and the entry of the named class exactly when the class list was read
    and does not hold the name. So it has at most four entries and never
    lists the HTTPRoute type next to the Gateway API entry that covers it:
    the substring search of the guard finds [Gateway API] exactly when
    that entry was recorded. *)
Theorem missing_list_is_deduplicated {W : Type} `{Client W}
  (infScheduler : InferenceScheduler) (s : Run) :
  let p1 := List gvkGateway (Some 1%Z) (world s) in
  let p2 := List gvkHTTPRoute (Some 1%Z) (snd p1) in
  let p3 := List gvkInferencePool (Some 1%Z) (snd p2) in
  let p4 := List gvkGatewayClass None (snd p3) in
  let className := getDefaultString (ClassName (Gateway (Spec infScheduler))) "kgateway" in
  exists missing,
    fst (validatePrerequisites infScheduler s)
    = Return (if (0 <? length missing)%nat then Some (missingError missing) else None)
    /\ sublist missing [missingGatewayAPI; missingHTTPRoute; missingGIE;
                        missingGatewayClassCRD; missingGatewayClass className]
    /\ NoDup missing
    /\ (length missing <= 4)%nat
    /\ ~ (In missingGatewayAPI missing /\ In missingHTTPRoute missing)
    /\ (In missingGatewayAPI missing <-> no_match (fst p1) = true)
    /\ (In missingHTTPRoute missing
        <-> no_match (fst p2) = true /\ no_match (fst p1) = false)
    /\ (In missingGIE missing <-> no_match (fst p3) = true)
    /\ (In missingGatewayClassCRD missing <-> no_match (fst p4) = true)
    /\ (In (missingGatewayClass className) missing
        <-> exists items,
              fst p4 = inr items
              /\ existsb (fun item => String.eqb (Name (uMeta item)) className) items = false)
    /\ (forall recorded : bool,
          contains (if recorded then [missingGatewayAPI] else []) "Gateway API" = recorded).
Proof.
  intros p1 p2 p3 p4 className.
  exists (missing_of infScheduler (fst p1) (fst p2) (fst p3) (fst p4)).
  split; [apply validator_run_again|].
  assert (Hsub : sublist (missing_of infScheduler (fst p1) (fst p2) (fst p3) (fst p4))
                   [missingGatewayAPI; missingHTTPRoute; missingGIE;
                    missingGatewayClassCRD; missingGatewayClass className]).
  { unfold missing_of. fold className.
    destruct (fst p4) as [err|items]; simpl;
      [destruct (IsNoMatchError err)|destruct (existsb _ items)];
      destruct (no_match (fst p1)), (no_match (fst p2)), (no_match (fst p3)); simpl;
      repeat first [apply sublist_nil_l | apply sublist_skip | apply sublist_cons]. }
  split; [exact Hsub|].
  split; [eapply sublist_NoDup; [apply missing_entries_NoDup|exact Hsub]|].
  destruct (missing_entries_differ className) as (? & ? & ? & ? & ? & ? & ? & ? & ? & ?).
  clear Hsub. unfold missing_of. fold className.
  split.
  { destruct (fst p4) as [err|items]; simpl;
      [destruct (IsNoMatchError err)|destruct (existsb _ items)];
      destruct (no_match (fst p1)), (no_match (fst p2)), (no_match (fst p3)); simpl; lia. }
  rewrite !in_app_iff.
  assert (Hin : forall (b : bool) (x y : string),
            In x (if b then [y] else []) <-> b = true /\ y = x).
  { intros [] x y; simpl; intuition congruence. }
  rewrite !Hin.
  assert (Hclass : forall x,
            In x match fst p4 with
                 | inl err => if IsNoMatchError err then [missingGatewayClassCRD] else []
                 | inr items =>
                   if existsb (fun item => String.eqb (Name (uMeta item)) className) items
                   then [] else [missingGatewayClass className]
                 end
            <-> (no_match (fst p4) = true /\ x = missingGatewayClassCRD)
                \/ (x = missingGatewayClass className
                    /\ exists items,
                         fst p4 = inr items
                         /\ existsb (fun item => String.eqb (Name (uMeta item)) className)
                              items = false)).
  { intros x. destruct (fst p4) as [err|items]; simpl.
    - rewrite Hin. split.
      + intros [-> <-]. now left.
      + intros [[-> ->]|(_ & items & Hi & _)]; [split; reflexivity|discriminate].
    - destruct (existsb _ items) eqn:Hfound; simpl.
      + split; [intros []|].
        intros [[Hf _]|(_ & items' & [= <-] & Hf)]; congruence.
      + split.
        * intros [<-|[]]. right. split; [reflexivity|]. now exists items.
        * intros [[Hf _]|[-> _]]; [discriminate|now left]. }
  rewrite !Hclass.
  split; [destruct (no_match (fst p1)); simpl; rewrite ?andb_false_r, ?andb_true_r;
          intuition congruence|].
  split; [intuition congruence|].
  split; [destruct (no_match (fst p1)); simpl; rewrite ?andb_false_r, ?andb_true_r;
          intuition congruence|].
  split; [intuition congruence|].
  split; [intuition congruence|].
  split; [intuition congruence|].
  intros []; vm_compute; reflexivity.
Qed.

Lemma append_assoc_s (a b c : string) : (a +:+ b) +:+ c = a +:+ b +:+ c.
Proof.
  induction a as [|x a IH]; [reflexivity|].
  change (String x ((a +:+ b) +:+ c) = String x (a +:+ b +:+ c)). now rewrite IH.
Qed.

Lemma append_empty_r (a : string) : a +:+ "" = a.
Proof.
  induction a as [|x a IH]; [reflexivity|].
  change (String x (a +:+ "") = String x a). now rewrite IH.
Qed.

Lemma Join_names (elems : list string) (sep item : string) :
  In item elems -> exists before rest, Join elems sep = before +:+ item +:+ rest.
Proof.
  induction elems as [|e l IH]; [intros []|].
  intros [->|Hin].
  - destruct l as [|e' l].
    + exists "", "". simpl. now rewrite append_empty_r.
    + exists "", (sep +:+ Join (e' :: l) sep). reflexivity.
  - destruct l as [|e' l]; [destruct Hin|].
    destruct (IH Hin) as (before & rest & Hj).
    exists (e +:+ sep +:+ before), rest.
    change (Join (e :: e' :: l) sep) with (e +:+ sep +:+ Join (e' :: l) sep).
    now rewrite Hj, !append_assoc_s.
Qed.

(** X8. What the validator returns. It always returns (it neither falls
    through nor panics): nil when nothing is missing, and otherwise an
    error whose text starts with [missing prerequisites: ] and names every
    entry of the missing list. *)
Theorem validator_error_names_what_is_missing {W : Type} `{Client W}
  (infScheduler : InferenceScheduler) (s : Run) :
  let p1 := List gvkGateway (Some 1%Z) (world s) in
  let p2 := List gvkHTTPRoute (Some 1%Z) (snd p1) in
  let p3 := List gvkInferencePool (Some 1%Z) (snd p2) in
  let p4 := List gvkGatewayClass None (snd p3) in
  let missing := missing_of infScheduler (fst p1) (fst p2) (fst p3) (fst p4) in
  match fst (validatePrerequisites infScheduler s) with
  | Return None => missing = []
  | Return (Some err) =>
    missing <> []
    /\ HasPrefix (Error err) "missing prerequisites: " = true
    /\ Forall (fun entry => GoStrings.Contains (Error err) entry = true) missing
  | _ => False
  end.
Proof.
  intros p1 p2 p3 p4 missing. rewrite validator_run_again. fold p1 p2 p3 p4 missing.
  unfold verdict. destruct missing as [|m l] eqn:Hm; [reflexivity|].
  change (0 <? length (m :: l))%nat with true. cbv iota.
  split; [discriminate|]. split; [apply HasPrefix_spec; eexists; reflexivity|].
  apply List.Forall_forall. intros entry Hin. apply Contains_spec.
  destruct (Join_names (m :: l) "; " entry Hin) as (before & rest & Hj).
  unfold missingError, Errorf. cbn [Error]. rewrite Hj.
  exists ("missing prerequisites: " +:+ before), (rest +:+ ". See installation guide: https://github.com/aneeshkp/inference-scheduler-operator/blob/main/README.md#prerequisites").
  now rewrite !append_assoc_s.
Qed.

(* ===================================================================== *)
(** * The builders: how the children fit together *)
(* ===================================================================== *)

Lemma getDefaultString_nonempty (value defaultValue : string) :
  defaultValue <> "" -> getDefaultString value defaultValue <> "".
Proof.
  intros Hd. unfold getDefaultString. destruct (String.eqb value "") eqn:E; simpl; [exact Hd|].
  now apply String.eqb_neq in E.
Qed.

Lemma model_server_labels (infScheduler : InferenceScheduler) (key : string) :
  tplLabels (Template (dSpec (buildModelServerDeployment infScheduler))) !! key
  = match msLabels (ModelServer (Spec infScheduler)) !! key with
    | Some v => Some v
    | None =>
      (<["app" := "vllm"]>
        (<["model" := sanitizeName (ModelName (ModelServer (Spec infScheduler)))]>
        (<["app.kubernetes.io/name" := "model-server"]>
        (<["app.kubernetes.io/instance" := name_of infScheduler]>
        (<["app.kubernetes.io/component" := "inference"]> (∅ : gmap string string)))))) !! key
    end.
Proof.
  unfold buildModelServerDeployment. cbn [tplLabels Template dSpec].
  rewrite lookup_union.
  destruct (msLabels (ModelServer (Spec infScheduler)) !! key) as [v|]; simpl.
  - now destruct (_ !! key).
  - now rewrite (left_id None _).
Qed.

(** X9. The model-server Deployment selects its own pods. Its Service selects
    them exactly when the labels of the spec do not override [app] or
    [model] with another value: the labels of the spec win over the
    operator's in the pod labels, but the Service selector is fixed. The
    InferencePool selects by the same two labels as the Service. *)
Theorem model_server_service_selects_pods (infScheduler : InferenceScheduler) :
  let ms := ModelServer (Spec infScheduler) in
  let deployment := buildModelServerDeployment infScheduler in
  let service := buildModelServerService infScheduler in
  MatchLabels (dSpec deployment) = tplLabels (Template (dSpec deployment))
  /\ (Selector (sSpec service) ⊆ tplLabels (Template (dSpec deployment))
      <-> (forall v, msLabels ms !! "app" = Some v -> v = "vllm")
          /\ (forall v, msLabels ms !! "model" = Some v -> v = sanitizeName (ModelName ms)))
  /\ (forall key value,
        Selector (sSpec service) !! key = Some value
        <-> at_path [Field "selector"; Field "matchLabels"; Field key]
              (uSpec (buildInferencePool infScheduler))
            = Some (VString value)).
Proof.
  intros ms deployment service. split; [reflexivity|]. split.
  - rewrite map_subseteq_spec. unfold deployment. split.
    + intros Hsub. split; intros v Hv.
      * specialize (Hsub "app" "vllm" eq_refl).
        rewrite model_server_labels in Hsub. fold ms in Hsub. rewrite Hv in Hsub. congruence.
      * specialize (Hsub "model" (sanitizeName (ModelName ms)) eq_refl).
        rewrite model_server_labels in Hsub. fold ms in Hsub. rewrite Hv in Hsub. congruence.
    + intros [Happ Hmodel] key value Hkey. rewrite model_server_labels. fold ms.
      unfold service, buildModelServerService in Hkey. cbn [Selector sSpec] in Hkey.
      destruct (decide (key = "app")) as [->|Hna].
      { rewrite lookup_insert_eq in Hkey. injection Hkey as <-.
        destruct (msLabels ms !! "app") as [v|] eqn:E; [now rewrite (Happ v)|reflexivity]. }
      rewrite lookup_insert_ne in Hkey by congruence.
      destruct (decide (key = "model")) as [->|Hnm].
      { rewrite lookup_insert_eq in Hkey. injection Hkey as <-.
        destruct (msLabels ms !! "model") as [v|] eqn:E; [now rewrite (Hmodel v)|reflexivity]. }
      rewrite lookup_insert_ne in Hkey by congruence. now rewrite lookup_empty in Hkey.
  - intros key value. unfold service, buildModelServerService.
    cbn [Selector sSpec].
    change (at_path [Field "selector"; Field "matchLabels"; Field key]
              (uSpec (buildInferencePool infScheduler)))
      with (match assoc key [("app", VString "vllm");
                             ("model", VString (sanitizeName (ModelName ms)))] with
            | Some v => Some v
            | None => None
            end).
    destruct (decide (key = "app")) as [->|Hna].
    { rewrite lookup_insert_eq. simpl. split; intros Hx; inversion Hx; reflexivity. }
    rewrite lookup_insert_ne by congruence.
    destruct (decide (key = "model")) as [->|Hnm].
    { rewrite lookup_insert_eq. simpl. split; intros Hx; inversion Hx; reflexivity. }
    rewrite lookup_insert_ne, lookup_empty by congruence.
    assert (Ha : String.eqb "app" key = false) by (apply String.eqb_neq; congruence).
    assert (Hm : String.eqb "model" key = false) by (apply String.eqb_neq; congruence).
    unfold assoc. rewrite Ha, Hm. split; discriminate.
Qed.

(** X10. The endpoint-picker Service selects the endpoint-picker pods, and the
    Deployment its own, whatever the spec. *)
Theorem epp_service_selects_pods (infScheduler : InferenceScheduler) :
  let deployment := buildEPPDeployment infScheduler in
  MatchLabels (dSpec deployment) = tplLabels (Template (dSpec deployment))
  /\ Selector (sSpec (buildEPPService infScheduler)) ⊆ tplLabels (Template (dSpec deployment)).
Proof.
  split; [reflexivity|]. apply map_subseteq_spec. intros key value.
  unfold buildEPPService, buildEPPDeployment. cbn [Selector sSpec tplLabels Template dSpec].
  destruct (decide (key = "app")) as [->|Hna].
  - rewrite !lookup_insert_eq. auto.
  - rewrite lookup_insert_ne, lookup_empty by congruence. discriminate.
Qed.

(** X11. The children name each other consistently: the RoleBinding binds the
    Role to the ServiceAccount the endpoint-picker pods run as; the pods
    mount the ConfigMap under the directory and key their [--config-file]
    argument names, and are told the name and namespace of the
    InferencePool; the pool refers to the endpoint-picker Service; the
    HTTPRoute is attached to the Gateway and sends to the pool. *)
Theorem children_reference_each_other (infScheduler : InferenceScheduler) :
  let sa := buildEPPServiceAccount infScheduler in
  let role := buildEPPRole infScheduler in
  let binding := buildEPPRoleBinding infScheduler in
  let configMap := buildEPPConfigMap infScheduler in
  let epp := buildEPPDeployment infScheduler in
  let eppService := buildEPPService infScheduler in
  let pool := buildInferencePool infScheduler in
  let gateway := buildGateway infScheduler in
  let route := buildHTTPRoute infScheduler in
  Subjects binding = [ {| subjKind := "ServiceAccount";
                          subjName := Name (saMeta sa);
                          subjNamespace := Namespace (saMeta sa) |} ]
  /\ rrKind (RoleRef_ binding) = "Role"
  /\ rrName (RoleRef_ binding) = Name (rMeta role)
  /\ Namespace (rbMeta binding) = Namespace (rMeta role)
  /\ ServiceAccountName (tplSpec (Template (dSpec epp))) = Name (saMeta sa)
  /\ Volumes (tplSpec (Template (dSpec epp)))
     = [ {| volName := "config"; volConfigMap := Name (cmMeta configMap) |} ]
  /\ (exists container pluginConfig,
        Containers (tplSpec (Template (dSpec epp))) = [container]
        /\ VolumeMounts container = [ {| vmName := "config"; MountPath := "/config" |} ]
        /\ dom (Data configMap) = {["plugins.yaml"]}
        /\ Data configMap !! "plugins.yaml" = Some pluginConfig
        /\ In ("--config-file=" +:+ "/config" +:+ "/" +:+ "plugins.yaml") (Args container)
        /\ In ("--pool-name=" +:+ Name (uMeta pool)) (Args container)
        /\ In ("--pool-namespace=" +:+ Namespace (uMeta pool)) (Args container))
  /\ at_path [Field "endpointPickerRef"; Field "name"] (uSpec pool)
     = Some (VString (Name (sMeta eppService)))
  /\ at_path [Field "parentRefs"; Item 0; Field "name"] (uSpec route)
     = Some (VString (Name (uMeta gateway)))
  /\ at_path [Field "parentRefs"; Item 0; Field "namespace"] (uSpec route)
     = Some (VString (Namespace (uMeta gateway)))
  /\ at_path [Field "rules"; Item 0; Field "backendRefs"; Item 0; Field "group"] (uSpec route)
     = Some (VString (Group (uGVK pool)))
  /\ at_path [Field "rules"; Item 0; Field "backendRefs"; Item 0; Field "kind"] (uSpec route)
     = Some (VString (gvkKind (uGVK pool)))
  /\ at_path [Field "rules"; Item 0; Field "backendRefs"; Item 0; Field "name"] (uSpec route)
     = Some (VString (Name (uMeta pool)))
  /\ at_path [Field "listeners"; Item 0; Field "allowedRoutes"; Field "namespaces"; Field "from"]
       (uSpec gateway)
     = Some (VString "Same")
  /\ Namespace (uMeta route) = Namespace (uMeta gateway).
Proof.
  cbv zeta. repeat (split; [reflexivity|]).
  split; [|repeat (split; [reflexivity|]); reflexivity].
  eexists. eexists. split; [reflexivity|]. split; [reflexivity|].
  split; [|split; [apply lookup_insert_eq|]].
  - unfold buildEPPConfigMap. cbn [Data]. now rewrite dom_insert_L, dom_empty_L, (right_id_L ∅ _).
  - cbn [Args]. split; [|split]; simpl; tauto.
Qed.

(** X12. The ports agree, and they are the ports of the spec as they are (the
    integer defaults are not applied). The model-server port is the
    container port, the [--port] argument, the Service port and target
    port, the target port of the InferencePool and the backend port of the
    HTTPRoute; the gRPC port of the endpoint picker is its container port,
    its [--grpc-port] argument, its Service port and the port of the pool's
    picker reference; the health port is 9003 in the argument, the
    container and the Service. *)
Theorem ports_agree (infScheduler : InferenceScheduler) :
  let port := msPort (ModelServer (Spec infScheduler)) in
  let grpc := GRPCPort (EndpointPicker (Spec infScheduler)) in
  let route := buildHTTPRoute infScheduler in
  let pool := buildInferencePool infScheduler in
  (exists container,
     Containers (tplSpec (Template (dSpec (buildModelServerDeployment infScheduler))))
     = [container]
     /\ Ports container = [ {| ContainerPort_ := port; cpName := "http"; cpProtocol := "TCP" |} ]
     /\ In ("--port=" +:+ itoa port) (Args container))
  /\ svcPorts (sSpec (buildModelServerService infScheduler))
     = [ {| spName := "http"; Port := port; TargetPort := port; spProtocol := "TCP" |} ]
  /\ at_path [Field "targetPorts"; Item 0; Field "number"] (uSpec pool) = Some (VInt port)
  /\ at_path [Field "rules"; Item 0; Field "backendRefs"; Item 0; Field "port"] (uSpec route)
     = Some (VInt port)
  /\ (exists container,
        Containers (tplSpec (Template (dSpec (buildEPPDeployment infScheduler)))) = [container]
        /\ Ports container
           = [ {| ContainerPort_ := grpc; cpName := "grpc"; cpProtocol := "TCP" |};
               {| ContainerPort_ := 9003; cpName := "health"; cpProtocol := "TCP" |};
               {| ContainerPort_ := 9090; cpName := "metrics"; cpProtocol := "TCP" |} ]
        /\ In ("--grpc-port=" +:+ itoa grpc) (Args container)
        /\ In ("--grpc-health-port=" +:+ itoa 9003) (Args container))
  /\ svcPorts (sSpec (buildEPPService infScheduler))
     = [ {| spName := "grpc"; Port := grpc; TargetPort := grpc; spProtocol := "TCP" |};
         {| spName := "health"; Port := 9003; TargetPort := 9003; spProtocol := "TCP" |};
         {| spName := "metrics"; Port := 9090; TargetPort := 9090; spProtocol := "TCP" |} ]
  /\ at_path [Field "endpointPickerRef"; Field "port"] (uSpec pool) = Some (VInt grpc)
  /\ at_path [Field "listeners"; Item 0; Field "port"] (uSpec (buildGateway infScheduler))
     = Some (VInt (ListenerPort (Gateway (Spec infScheduler)))).
Proof.
  cbv zeta. split.
  { eexists. split; [reflexivity|]. split; [reflexivity|].
    unfold buildModelServerDeployment. cbn [Args].
    destruct (EnablePrefixCaching (ModelServer (Spec infScheduler))); simpl; tauto. }
  repeat (split; [reflexivity|]).
  split; [|repeat (split; [reflexivity|]); reflexivity].
  eexists. split; [reflexivity|]. split; [reflexivity|]. cbn [Args].
  split; simpl; tauto.
Qed.

(** X13. The string defaults are applied: no container is built without an
    image and no Gateway without a class, whatever the spec leaves empty;
    a value the spec gives is used as it is. *)
Theorem images_and_class_are_never_empty (infScheduler : InferenceScheduler) :
  Forall (fun c => Image c <> "")
    (Containers (tplSpec (Template (dSpec (buildModelServerDeployment infScheduler))))
     ++ Containers (tplSpec (Template (dSpec (buildEPPDeployment infScheduler)))))%list
  /\ (exists className,
        at_path [Field "gatewayClassName"] (uSpec (buildGateway infScheduler))
        = Some (VString className)
        /\ className <> ""
        /\ (ClassName (Gateway (Spec infScheduler)) <> "" ->
            className = ClassName (Gateway (Spec infScheduler))))
  /\ (msImage (ModelServer (Spec infScheduler)) <> "" ->
      Image <$> Containers (tplSpec (Template (dSpec (buildModelServerDeployment infScheduler))))
      = [msImage (ModelServer (Spec infScheduler))])
  /\ (eppImage (EndpointPicker (Spec infScheduler)) <> "" ->
      Image <$> Containers (tplSpec (Template (dSpec (buildEPPDeployment infScheduler))))
      = [eppImage (EndpointPicker (Spec infScheduler))]).
Proof.
  assert (Hgiven : forall value defaultValue,
            value <> "" -> getDefaultString value defaultValue = value).
  { intros value defaultValue Hv. unfold getDefaultString.
    apply String.eqb_neq in Hv. now rewrite Hv. }
  split; [|split; [|split]].
  - repeat constructor; simpl; apply getDefaultString_nonempty; discriminate.
  - eexists. split; [reflexivity|]. split; [apply getDefaultString_nonempty; discriminate|].
    apply Hgiven.
  - intros Hv. simpl. now rewrite Hgiven.
  - intros Hv. simpl. now rewrite Hgiven.
Qed.

(** X14. Three fields of the spec have no effect on any child: the model-server
    type, the Service type of the gateway and the name of the Gateway
    resource are never read by a builder. The Gateway is always named after
    the root object, and the descriptors are those of a vLLM server behind
    ClusterIP Services, whatever these fields say. *)
Theorem type_serviceType_and_gateway_name_are_never_read
  (type serviceType name : string) (infScheduler : InferenceScheduler) :
  descriptors (with_type_serviceType_name type serviceType name infScheduler)
  = descriptors infScheduler
  /\ Name (uMeta (buildGateway (with_type_serviceType_name type serviceType name infScheduler)))
     = name_of infScheduler +:+ "-gateway"
  /\ svcType <$> [sSpec (buildModelServerService infScheduler);
                  sSpec (buildEPPService infScheduler)]
     = ["ClusterIP"; "ClusterIP"].
Proof. split; [reflexivity|]. split; reflexivity. Qed.

(* ===================================================================== *)
(** * Every invocation: what holds of all of its calls and results *)
(* ===================================================================== *)

Section Invariants.

Context {W : Type} `{Client W}.
Variable scheme : runtimeScheme.

(** ** Rules for [traces] *)

Lemma traces_ret {R A} (a : A) (G : list Call -> Flow R A -> Prop) :
  G [] (Next a) -> traces (W := W) (ret a) G.
Proof. intros HG s. exists []. rewrite app_nil_r. split; [reflexivity|exact HG]. Qed.

Lemma traces_return {R A} (r : R) (G : list Call -> Flow R A -> Prop) :
  G [] (Return r) -> traces (W := W) (return_ r) G.
Proof. intros HG s. exists []. rewrite app_nil_r. split; [reflexivity|exact HG]. Qed.

Lemma traces_panic {R A} (G : list Call -> Flow R A -> Prop) :
  G [] Panic -> traces (W := W) panic G.
Proof. intros HG s. exists []. rewrite app_nil_r. split; [reflexivity|exact HG]. Qed.

Lemma traces_bind {R A B} (m : Go (W := W) R A) (f : A -> Go (W := W) R B)
  (G : list Call -> Flow R B -> Prop) :
  traces m (fun cs fl =>
              match fl with
              | Next a => traces (f a) (fun cs' fl' => G (cs ++ cs')%list fl')
              | Return r => G cs (Return r)
              | Panic => G cs Panic
              end) ->
  traces (bind m f) G.
Proof.
  intros Hm s. destruct (Hm s) as (cs & Hcs & HG). unfold bind.
  destruct (m s) as [[a|r|] s1]; simpl in *.
  - destruct (HG s1) as (cs' & Hcs' & HG'). exists (cs ++ cs')%list.
    rewrite Hcs', Hcs, app_assoc. split; [reflexivity|exact HG'].
  - exists cs. split; assumption.
  - exists cs. split; assumption.
Qed.

Lemma traces_call {R R'} (body : Go (W := W) R' R') (G : list Call -> Flow R R' -> Prop) :
  traces body (fun cs fl =>
                 match fl with
                 | Next r | Return r => G cs (Next r)
                 | Panic => G cs Panic
                 end) ->
  traces (call body) G.
Proof.
  intros Hm s. destruct (Hm s) as (cs & Hcs & HG). unfold call.
  destruct (body s) as [[a|r|] s1]; simpl in *; exists cs; split; assumption.
Qed.

Lemma traces_weaken {R A} (m : Go (W := W) R A) (G G' : list Call -> Flow R A -> Prop) :
  traces m G -> (forall cs fl, G cs fl -> G' cs fl) -> traces m G'.
Proof.
  intros Hm HG s. destruct (Hm s) as (cs & Hcs & Hg). exists cs. split; [exact Hcs|auto].
Qed.

Lemma traces_record {R A} (c : Call) (op : W -> A * W) (G : list Call -> Flow R A -> Prop) :
  (forall w, G [c] (Next (fst (op w)))) ->
  traces (fun s => record c (op (world s)) s) G.
Proof. intros HG s. exists [c]. split; [reflexivity|apply HG]. Qed.

Lemma traces_Get {R} (k : Kind) (key : NamespacedName)
  (G : list Call -> Flow R (error + ObjOf k) -> Prop) :
  (forall res, G [CallGet k key] (Next res)) -> traces (r_Get k key) G.
Proof. intros HG. apply (traces_record (CallGet k key) (Get k key)). auto. Qed.

Lemma traces_List {R} (gvk : GroupVersionKind) (limit : option Z)
  (G : list Call -> Flow R (error + list Unstructured) -> Prop) :
  (forall res, G [CallList gvk limit] (Next res)) -> traces (r_List gvk limit) G.
Proof. intros HG. apply (traces_record (CallList gvk limit) (List gvk limit)). auto. Qed.

Lemma traces_Create {R} {k : Kind} (obj : ObjOf k)
  (G : list Call -> Flow R (option error) -> Prop) :
  (forall res, G [CallCreate {| oKind := k; oValue := obj |}] (Next res)) ->
  traces (r_Create obj) G.
Proof. intros HG. apply (traces_record (CallCreate _) (Create k obj)). auto. Qed.

Lemma traces_Update {R} {k : Kind} (obj : ObjOf k)
  (G : list Call -> Flow R (option error) -> Prop) :
  (forall res, G [CallUpdate {| oKind := k; oValue := obj |}] (Next res)) ->
  traces (r_Update obj) G.
Proof. intros HG. apply (traces_record (CallUpdate _) (Update k obj)). auto. Qed.

Lemma traces_Status_Update {R} (obj : InferenceScheduler)
  (G : list Call -> Flow R (option error) -> Prop) :
  (forall res, G [CallStatusUpdate obj] (Next res)) -> traces (r_Status_Update obj) G.
Proof. intros HG. apply (traces_record (CallStatusUpdate obj) (StatusUpdate obj)). auto. Qed.

Lemma traces_updateCondition {R} (infScheduler : InferenceScheduler)
  (type status reason message : string)
  (G : list Call -> Flow R InferenceScheduler -> Prop) :
  (forall now, G [] (Next (updateCondition now infScheduler type status reason message))) ->
  traces (r_updateCondition infScheduler type status reason message) G.
Proof.
  intros HG s. exists []. rewrite app_nil_r. split; [reflexivity|apply HG].
Qed.

(** ** The callees *)

Lemma upsert_traces {R} {k : Kind} (obj : ObjOf k) (owner : InferenceScheduler) :
  traces (call (R := R) (createOrUpdate scheme obj owner))
    (fun cs fl => exists res, fl = Next res /\ upsert_trace scheme owner obj res cs).
Proof.
  intros s. unfold call, createOrUpdate, bind, r_Get, r_Create, r_Update, record, return_.
  simpl.
  destruct (Get k (ObjectKeyFromObject obj) (world s)) as [[err|existing] w1]; simpl.
  - destruct (IsNotFound err).
    + destruct (SetControllerReference owner obj scheme) as [e|obj'] eqn:Hs; simpl.
      * eexists. split; [reflexivity|]. eexists. split; [reflexivity|].
        eexists. split; [reflexivity|]. left. split; [reflexivity|discriminate].
      * eexists. split; [rewrite <- app_assoc; reflexivity|].
        eexists. split; [reflexivity|]. eexists. split; [reflexivity|].
        right. eexists. split; [reflexivity|]. exists obj'. left.
        split; [reflexivity|]. now apply SetControllerReference_attached.
    + eexists. split; [reflexivity|]. eexists. split; [reflexivity|].
      eexists. split; [reflexivity|]. left. split; [reflexivity|discriminate].
  - destruct (SetControllerReference owner _ scheme) as [e|obj'] eqn:Hs; simpl.
    + eexists. split; [reflexivity|]. eexists. split; [reflexivity|].
      eexists. split; [reflexivity|]. left. split; [reflexivity|discriminate].
    + eexists. split; [rewrite <- app_assoc; reflexivity|].
      eexists. split; [reflexivity|]. eexists. split; [reflexivity|].
      right. eexists. split; [reflexivity|]. exists obj'. right.
      exists (ResourceVersion (getMeta existing)).
      split; [reflexivity|]. now apply SetControllerReference_attached.
Qed.

Lemma probe_traces {R} (namespace name : string) :
  traces (call (R := R) (isDeploymentReady namespace name))
    (fun cs fl =>
       cs = [CallGet KDeployment {| nnNamespace := namespace; nnName := name |}]
       /\ match fl with
          | Next _ => True
          | Return _ => False
          | Panic =>
            exists w deployment,
              fst (Get KDeployment {| nnNamespace := namespace; nnName := name |} w)
              = inr deployment
              /\ Replicas (dSpec deployment) = None
          end).
Proof.
  intros s. unfold call, isDeploymentReady, bind, r_Get, record, return_, panic. simpl.
  destruct (Get KDeployment _ (world s)) as [[err|deployment] w1] eqn:Hget; simpl.
  - eexists. split; [reflexivity|]. split; [reflexivity|exact I].
  - destruct (Replicas (dSpec deployment)) as [replicas|] eqn:Hr; simpl.
    + eexists. split; [reflexivity|]. split; [reflexivity|exact I].
    + eexists. split; [reflexivity|]. split; [reflexivity|].
      exists (world s), deployment. rewrite Hget. split; [reflexivity|exact Hr].
Qed.

Lemma validator_traces {R} (infScheduler : InferenceScheduler) :
  traces (call (R := R) (validatePrerequisites infScheduler))
    (fun cs fl =>
       cs = [CallList gvkGateway (Some 1%Z); CallList gvkHTTPRoute (Some 1%Z);
             CallList gvkInferencePool (Some 1%Z); CallList gvkGatewayClass None]
       /\ exists res, fl = Next res).
Proof.
  intros s. unfold call.
  pose proof (validatePrerequisites_run infScheduler s) as Hv. simpl in Hv.
  rewrite Hv. simpl. eexists. split; [reflexivity|].
  split; [reflexivity|]. eexists. reflexivity.
Qed.

(** ** [Reconcile] is the fetch, then [Reconcile_live] *)

Lemma Reconcile_run (req : NamespacedName) (s : Run) :
  Reconcile scheme req s
  = let r := Get KInferenceScheduler req (world s) in
    let s' := {| world := snd r; calls := (calls s ++ [CallGet KInferenceScheduler req])%list |} in
    match fst r with
    | inl err => (Return (noRequeue, if IsNotFound err then None else Some err), s')
    | inr fetched => Reconcile_live scheme fetched s'
    end.
Proof.
  unfold Reconcile, Reconcile_live, Reconcile_phases, Reconcile_fetch, Reconcile_fetched.
  unfold bind at 1 2. unfold r_Get at 1. unfold record. simpl.
  destruct (Get KInferenceScheduler req (world s)) as [[err|fetched] w1]; simpl.
  - destruct (IsNotFound err); reflexivity.
  - reflexivity.
Qed.

Lemma invoke_run (req : NamespacedName) (w : W)
  (G : InferenceScheduler -> list Call -> Flow R R -> Prop) :
  (forall fetched, traces (Reconcile_live scheme fetched) (G fetched)) ->
  match fst (Get KInferenceScheduler req w) with
  | inl err =>
    invoke scheme req w
    = (Some (noRequeue, if IsNotFound err then None else Some err),
       snd (Get KInferenceScheduler req w), [CallGet KInferenceScheduler req])
  | inr fetched =>
    exists cs fl,
      snd (invoke scheme req w) = CallGet KInferenceScheduler req :: cs
      /\ fst (fst (invoke scheme req w))
         = match fl with Next r | Return r => Some r | Panic => None end
      /\ G fetched cs fl
  end.
Proof.
  intros HG. unfold invoke, call. rewrite Reconcile_run. simpl.
  destruct (Get KInferenceScheduler req w) as [[err|fetched] w1]; simpl; [reflexivity|].
  destruct (HG fetched {| world := w1; calls := [CallGet KInferenceScheduler req] |})
    as (cs & Hcs & Hg).
  destruct (Reconcile_live scheme fetched _) as [fl s1]. simpl in *.
  exists cs, fl. destruct fl; simpl; (split; [exact Hcs|split; [reflexivity|exact Hg]]).
Qed.

(** ** Calls stay within the root; results *)

Ltac wp_struct :=
  lazymatch goal with
  | |- traces (bind _ _) _ => apply traces_bind
  | |- traces (ret _) _ => apply traces_ret
  | |- traces (return_ _) _ => apply traces_return
  | |- traces panic _ => apply traces_panic
  | |- traces (r_Get _ _) _ => apply traces_Get; intros ?res
  | |- traces (r_List _ _) _ => apply traces_List; intros ?res
  | |- traces (r_Create _) _ => apply traces_Create; intros ?res
  | |- traces (r_Update _) _ => apply traces_Update; intros ?res
  | |- traces (r_Status_Update _) _ => apply traces_Status_Update; intros ?res
  | |- traces (r_updateCondition _ _ _ _ _) _ => apply traces_updateCondition; intros ?now
  | |- traces (if ?c then _ else _) _ => first [progress cbn [negb] | destruct c eqn:?]
  | |- traces (match ?x with _ => _ end) _ => destruct x eqn:?
  | |- traces (apply_or_return _ _ _) _ => unfold apply_or_return
  | |- traces (call _) _ => apply traces_call
  end; cbv beta iota.

Lemma AddFinalizer_meta (o : InferenceScheduler) (f : string) :
  Name (isMeta (AddFinalizer o f)) = Name (isMeta o)
  /\ Namespace (isMeta (AddFinalizer o f)) = Namespace (isMeta o)
  /\ UID (isMeta (AddFinalizer o f)) = UID (isMeta o).
Proof. unfold AddFinalizer. destruct (ContainsFinalizer o f); repeat split. Qed.

Lemma same_root_AddFinalizer (root o : InferenceScheduler) (f : string) :
  same_root root o -> same_root root (AddFinalizer o f).
Proof.
  unfold same_root. destruct (AddFinalizer_meta o f) as (-> & -> & ->). auto.
Qed.

Lemma same_root_RemoveFinalizer (root o : InferenceScheduler) (f : string) :
  same_root root o -> same_root root (RemoveFinalizer o f).
Proof. intros Hroot. exact Hroot. Qed.

Lemma same_root_set_status (root o : InferenceScheduler)
  (f : InferenceSchedulerStatus -> InferenceSchedulerStatus) :
  same_root root o -> same_root root (set_status f o).
Proof. intros Hroot. exact Hroot. Qed.

Lemma same_root_updateCondition (root o : InferenceScheduler) (now : Time)
  (type status reason message : string) :
  same_root root o -> same_root root (updateCondition now o type status reason message).
Proof. intros Hroot. exact Hroot. Qed.

Lemma within_root_update (root o : InferenceScheduler) :
  same_root root o ->
  within scheme root (CallUpdate {| oKind := KInferenceScheduler; oValue := o |}).
Proof. intros (Hn & Hns & _). split; assumption. Qed.

Lemma within_status_update (root o : InferenceScheduler) :
  same_root root o -> within scheme root (CallStatusUpdate o).
Proof. intros (Hn & Hns & _). split; assumption. Qed.

Ltac root_same Hroot :=
  repeat first [ exact Hroot
               | apply same_root_AddFinalizer
               | apply same_root_RemoveFinalizer
               | apply same_root_set_status
               | apply same_root_updateCondition ].

Lemma controllerRef_same_root (gvk : GroupVersionKind) (root o : InferenceScheduler) :
  same_root root o -> controllerRef gvk o = controllerRef gvk root.
Proof. intros (Hn & _ & Hu). unfold controllerRef. now rewrite Hn, Hu. Qed.

Lemma upsert_within (root owner : InferenceScheduler) {k : Kind} (obj : ObjOf k)
  (res : option error) (cs : list Call) :
  same_root root owner ->
  is_root k = false ->
  In (k, Namespace (getMeta obj), Name (getMeta obj))
    (children (Namespace (isMeta root)) (Name (isMeta root))) ->
  upsert_trace scheme owner obj res cs ->
  Forall (within scheme root) cs.
Proof.
  intros Hroot Hk Hin (tail & -> & Htail). apply Forall_cons_2.
  { right. exact Hin. }
  destruct Htail as [[-> _]|(c & -> & obj' & Hc)]; [constructor|].
  apply Forall_cons_2; [|constructor].
  assert (Howned : forall o : ObjOf k, attached scheme owner o obj' ->
            Namespace (getMeta o) = Namespace (getMeta obj) ->
            Name (getMeta o) = Name (getMeta obj) ->
            owned scheme root {| oKind := k; oValue := obj' |}).
  { intros o (gvk & refs & Hs & Href & ->) Hns Hn. split.
    - unfold ident, oMeta. simpl. rewrite getMeta_setMeta. simpl. now rewrite Hns, Hn.
    - exists gvk. split; [exact Hs|]. unfold oMeta. simpl. rewrite getMeta_setMeta. simpl.
      now rewrite <- (controllerRef_same_root gvk root owner Hroot). }
  destruct Hc as [[-> Ha]|(rv & -> & Ha)]; simpl; rewrite ?Hk.
  - now apply (Howned obj).
  - apply (Howned (SetResourceVersion rv obj)); [exact Ha| |];
      unfold SetResourceVersion; now rewrite getMeta_setMeta.
Qed.

(** Closes [In x (children _ _)] for the descriptor of a builder. *)
Ltac child_member Hroot :=
  let Hn := fresh in let Hns := fresh in
  destruct Hroot as (Hn & Hns & _);
  unfold children; rewrite <- Hn, <- Hns; simpl;
  repeat first [left; reflexivity | right].

Ltac within_call Hroot :=
  lazymatch goal with
  | |- within _ _ (CallStatusUpdate _) => apply within_status_update; root_same Hroot
  | |- within _ _ (CallUpdate _) => apply within_root_update; root_same Hroot
  | |- within _ _ (CallList _ _) => simpl; tauto
  | |- within _ _ (CallGet _ _) => first [left; reflexivity | right; child_member Hroot]
  end.

Ltac all_within Hroot :=
  simpl app;
  repeat first [ apply Forall_nil_2
               | assumption
               | apply Forall_app_2
               | apply Forall_cons_2; [within_call Hroot|] ].

Ltac result_A :=
  unfold result_ok, noRequeue, requeueAfter; simpl;
  first [ split; [reflexivity|]; first [reflexivity | left; simpl; tauto | right; split; reflexivity ]
        | idtac ].

Ltac nil_from Hroot :=
  lazymatch goal with
  | Hfl : ex _ |- @nil_replicas _ _ _ =>
    let w := fresh "w" in
    let d := fresh "d" in
    let Hg := fresh "Hg" in
    let Hr := fresh "Hr" in
    destruct Hfl as (w & d & Hg & Hr);
    unfold buildModelServerDeployment, buildEPPDeployment, name_of, namespace_of in Hg;
    simpl in Hg;
    let Hn := fresh in
    let Hns := fresh in
    destruct Hroot as (Hn & Hns & _); rewrite Hn, Hns in Hg;
    first [ exists "-vllm", w, d; split; [simpl; tauto|split; [exact Hg|exact Hr]]
          | exists "-epp", w, d; split; [simpl; tauto|split; [exact Hg|exact Hr]] ]
  end.

Ltac leaf_A Hroot :=
  lazymatch goal with
  | |- contained _ _ _ _ _ _ =>
    split; [all_within Hroot|];
    lazymatch goal with
    | |- ends _ _ _ (Next _) => simpl; first [exact I | root_same Hroot]
    | |- ends _ _ _ (Return _) => simpl; result_A
    | |- ends _ _ _ Panic => simpl; nil_from Hroot
    end
  end.

Ltac upsert_A Hroot :=
  eapply traces_weaken; [apply upsert_traces|];
  let cs := fresh "cs" in
  let fl := fresh "fl" in
  let res := fresh "res" in
  let Hup := fresh "Hup" in
  intros cs fl (res & -> & Hup);
  apply (upsert_within _ _ _ _ _ Hroot) in Hup; [|reflexivity|child_member Hroot];
  cbv beta iota.

Ltac probe_A Hroot :=
  eapply traces_weaken; [apply probe_traces|];
  let cs := fresh "cs" in
  let fl := fresh "fl" in
  let Hfl := fresh "Hfl" in
  intros cs fl (-> & Hfl);
  destruct fl as [[? ?]|?|]; [|contradiction|]; cbv beta iota.

Ltac validator_A :=
  eapply traces_weaken; [apply validator_traces|];
  let cs := fresh "cs" in
  let fl := fresh "fl" in
  let res := fresh "res" in
  intros cs fl (-> & res & ->); cbv beta iota.

Ltac wp_A Hroot :=
  repeat first
    [ lazymatch goal with
      | |- traces (call (createOrUpdate _ _ _)) _ => upsert_A Hroot
      | |- traces (call (createOrUpdateUnstructured ?sc ?o ?ow)) _ =>
        change (createOrUpdateUnstructured sc o ow)
          with (createOrUpdate sc (k := KUnstructured (uGVK o)) o ow);
        upsert_A Hroot
      | |- traces (call (isDeploymentReady _ _)) _ => probe_A Hroot
      | |- traces (call (validatePrerequisites _)) _ => validator_A
      end
    | wp_struct
    | leaf_A Hroot ].

Lemma phase4_contained (root infScheduler : InferenceScheduler) :
  same_root root infScheduler ->
  traces (Reconcile_phase4 scheme infScheduler) (contained scheme root true (same_root root)).
Proof.
  intros Hroot. unfold Reconcile_phase4. cbv zeta.
  wp_A Hroot.
Qed.

Lemma phase5_contained (root infScheduler : InferenceScheduler) :
  same_root root infScheduler ->
  traces (Reconcile_phase5 scheme infScheduler) (contained scheme root true (same_root root)).
Proof. intros Hroot. unfold Reconcile_phase5. cbv zeta. wp_A Hroot. Qed.

Lemma phase6_contained (root infScheduler : InferenceScheduler) :
  same_root root infScheduler ->
  traces (Reconcile_phase6 scheme infScheduler) (contained scheme root true (same_root root)).
Proof. intros Hroot. unfold Reconcile_phase6. cbv zeta. wp_A Hroot. Qed.

Lemma phase7_contained (root infScheduler : InferenceScheduler) :
  same_root root infScheduler ->
  traces (Reconcile_phase7 scheme infScheduler) (contained scheme root true (result_ok true)).
Proof. intros Hroot. unfold Reconcile_phase7. cbv zeta. wp_A Hroot. Qed.

Lemma phase1_contained (root infScheduler : InferenceScheduler) :
  same_root root infScheduler ->
  traces (Reconcile_phase1 infScheduler) (contained scheme root true (same_root root)).
Proof. intros Hroot. unfold Reconcile_phase1. cbv zeta. wp_A Hroot. Qed.

Lemma fetched_contained (root : InferenceScheduler) :
  traces (Reconcile_fetched root)
    (contained scheme root (TimePtr_IsZero (DeletionTimestamp (isMeta root)))
       (same_root root)).
Proof.
  assert (Hroot : same_root root root) by (repeat split).
  unfold Reconcile_fetched, handleDeletion. cbv zeta.
  destruct (TimePtr_IsZero (DeletionTimestamp (isMeta root))); wp_A Hroot.
Qed.
Lemma result_ok_live (live : bool) (r : Result * option error) :
  result_ok true r -> result_ok live r.
Proof.
  unfold result_ok. intros [Hq Hr]. split; [exact Hq|].
  destruct (snd r); [exact Hr|]. destruct Hr as [Hr|[Hr _]]; [now left|discriminate].
Qed.

(** Steps over a phase of [Reconcile_live] with the lemma [lem] about it. *)
Ltac phase_A lem :=
  eapply traces_weaken; [apply lem; assumption|];
  let cs := fresh "cs" in
  let fl := fresh "fl" in
  let Hcs := fresh "Hcs" in
  let He := fresh "He" in
  intros cs fl [Hcs He]; destruct fl as [?i|?r|]; simpl in He; cbv beta iota;
  [ | split; [repeat (apply Forall_app_2); assumption
             |first [exact He | apply result_ok_live; exact He]]
    | split; [repeat (apply Forall_app_2); assumption|exact He] ].

Lemma phases_contained (root infScheduler : InferenceScheduler) :
  same_root root infScheduler ->
  traces (Reconcile_phases scheme infScheduler)
    (contained scheme root true (result_ok true)).
Proof.
  intros Hroot. unfold Reconcile_phases.
  apply traces_bind. phase_A (phase1_contained root).
  apply traces_bind. phase_A (phase4_contained root).
  apply traces_bind. phase_A (phase5_contained root).
  apply traces_bind. phase_A (phase6_contained root).
  phase_A (phase7_contained root).
  split; [repeat (apply Forall_app_2); assumption|exact He3].
Qed.

Lemma live_contained (root : InferenceScheduler) :
  traces (Reconcile_live scheme root)
    (contained scheme root (TimePtr_IsZero (DeletionTimestamp (isMeta root)))
       (result_ok (TimePtr_IsZero (DeletionTimestamp (isMeta root))))).
Proof.
  unfold Reconcile_live.
  apply traces_bind. phase_A fetched_contained.
  phase_A (phases_contained root).
  split; [repeat (apply Forall_app_2); assumption|apply result_ok_live; exact He0].
Qed.

(** X15. Every call of an invocation stays within the root object it fetched:
    besides the fetch and the four prerequisite probes, it reads and writes
    only the eleven children of that object, every child it creates or
    updates carries the controller reference to the object, and every
    write of the root goes to the object fetched. An invocation whose
    fetch fails makes no other call. *)
Theorem calls_stay_within_the_root (req : NamespacedName) (w : W) :
  match fst (Get KInferenceScheduler req w) with
  | inl _ => snd (invoke scheme req w) = [CallGet KInferenceScheduler req]
  | inr fetched => Forall (within scheme fetched) (snd (invoke scheme req w))
  end.
Proof.
  pose proof (invoke_run req w _ live_contained) as Hrun.
  destruct (fst (Get KInferenceScheduler req w)) as [err|fetched].
  - now rewrite Hrun.
  - destruct Hrun as (cs & fl & -> & _ & Hcs & _).
    apply Forall_cons_2; [now left|exact Hcs].
Qed.

(** X16. What [Reconcile] returns: never the [Requeue] flag; with an error, no
    delay; without an error a delay of 30 seconds, one minute or five
    minutes, and no delay at all only when the object was not found or is
    being deleted. *)
Theorem result_contract (req : NamespacedName) (w : W) :
  match fst (fst (invoke scheme req w)) with
  | Some r =>
    result_ok match fst (Get KInferenceScheduler req w) with
              | inl _ => false
              | inr fetched => TimePtr_IsZero (DeletionTimestamp (isMeta fetched))
              end r
  | None => True
  end.
Proof.
  pose proof (invoke_run req w _ live_contained) as Hrun.
  destruct (fst (Get KInferenceScheduler req w)) as [err|fetched].
  - rewrite Hrun. simpl. unfold result_ok. simpl. split; [reflexivity|].
    destruct (IsNotFound err); simpl; [right; split; reflexivity|reflexivity].
  - destruct Hrun as (cs & fl & _ & -> & _ & He).
    destruct fl; simpl in *; auto.
Qed.

(** ** Status writes *)

Lemma condition_is_same (now : Time) (o : InferenceScheduler)
  (type status reason message : string) :
  condition_is (Status (updateCondition now o type status reason message)) type status.
Proof.
  destruct (condition_set now o type status reason message) as (c & Hc & Hs & _).
  exists c. split; assumption.
Qed.

Lemma condition_is_other (now : Time) (o : InferenceScheduler)
  (type status reason message type' status' : string) :
  type' <> type ->
  condition_is (Status o) type' status' ->
  condition_is (Status (updateCondition now o type status reason message)) type' status'.
Proof.
  intros Hne (c & Hc & Hs). exists c. split; [|exact Hs].
  unfold updateCondition. simpl. rewrite Find_Set_other; [exact Hc|exact Hne].
Qed.

Lemma condition_is_set_status (f : InferenceSchedulerStatus -> InferenceSchedulerStatus)
  (o : InferenceScheduler) (type status : string) :
  (forall st, Conditions (f st) = Conditions st) ->
  condition_is (Status o) type status ->
  condition_is (Status (set_status f o)) type status.
Proof.
  intros Hf (c & Hc & Hs). exists c. split; [|exact Hs].
  unfold set_status. simpl. now rewrite Hf.
Qed.

(** Closes [condition_is] of an object built from one of the context, with
    the three lemmas above. *)
Ltac cond_is same other set :=
  repeat first [ eassumption
               | apply same
               | apply other; [discriminate|]
               | apply set; [intros ?; reflexivity|] ].

Lemma upsert_reported {k : Kind} (owner : InferenceScheduler) (obj : ObjOf k)
  (res : option error) (cs : list Call) :
  upsert_trace scheme owner obj res cs -> Forall status_ok cs.
Proof.
  intros (tail & -> & Htail). apply Forall_cons_2; [exact I|].
  destruct Htail as [[-> _]|(c & -> & obj' & [[-> _]|(rv & -> & _)])];
    repeat constructor.
Qed.

Ltac member := simpl; solve [repeat first [left; reflexivity | right]].

(** Closes [status_ok] of a status write whose phase is [Hph]. *)
Ltac status_phase Hph :=
  unfold status_ok; simpl; rewrite ?Hph;
  split; [member|split; intros Hx; discriminate Hx].

(** Closes [status_ok] of the status write of phase Ready. *)
Ltac status_ready same other set :=
  lazymatch goal with
  | Hpv : PrerequisitesValidated _ = _,
    Hms : In "ModelServerReady" _ -> _, Hepp : In "EPPReady" _ -> _,
    Hpool : In "InferencePoolReady" _ -> _ |- status_ok _ =>
    unfold status_ok;
    split; [member|split; [intros _|intros Hx; discriminate Hx]];
    unfold ready_status;
    split; [simpl; exact Hpv|];
    split; [reflexivity|];
    split; [simpl; apply Hpool; member|];
    split; [simpl; apply Hms; member|];
    split; [simpl; apply Hepp; member|];
    repeat (apply Forall_cons_2; [cond_is same other set|]); apply Forall_nil_2
  end.

Ltac status_call same other set :=
  lazymatch goal with
  | |- status_ok (CallStatusUpdate _) =>
    first [ lazymatch goal with
            | Hph : Phase _ = _ |- _ => status_phase Hph
            | _ => status_phase I
            end
          | status_ready same other set ]
  | |- status_ok _ => exact I
  end.

Ltac all_status same other set :=
  simpl app;
  repeat first [ apply Forall_nil_2
               | assumption
               | apply Forall_app_2
               | apply Forall_cons_2; [status_call same other set|] ].

(** Steps over an upsert, keeping what [on_upsert] says of its calls. *)
Ltac upsert_with on_upsert :=
  eapply traces_weaken; [apply upsert_traces|];
  let cs := fresh "cs" in
  let fl := fresh "fl" in
  let res := fresh "res" in
  let Hup := fresh "Hup" in
  intros cs fl (res & -> & Hup); apply on_upsert in Hup; [|try reflexivity..];
  cbv beta iota.

Ltac probe_B :=
  eapply traces_weaken; [apply probe_traces|];
  let cs := fresh "cs" in
  let fl := fresh "fl" in
  let Hfl := fresh "Hfl" in
  intros cs fl (-> & Hfl);
  destruct fl as [[? ?]|?|]; [|contradiction|]; cbv beta iota.

(** Closes [deploying done' o'] from the facts of [deploying done o] in
    the context. *)
Ltac still_deploying same other set :=
  lazymatch goal with
  | Hph : Phase _ = _, Hpv : PrerequisitesValidated _ = _,
    Hms : In "ModelServerReady" _ -> _, Hepp : In "EPPReady" _ -> _,
    Hpool : In "InferencePoolReady" _ -> _ |- deploying _ _ =>
    unfold deploying;
    split; [simpl; exact Hph|];
    split; [simpl; exact Hpv|];
    split; [repeat (apply Forall_cons_2; [cond_is same other set|]); apply Forall_nil_2|];
    split; [|split];
    (let Hin := fresh "Hin" in
     intros Hin; simpl;
     first [ reflexivity
           | apply Hms; member
           | apply Hepp; member
           | apply Hpool; member
           | exfalso; simpl in Hin; intuition discriminate ])
  end.

Ltac deploying_facts Hpre :=
  let Hc := fresh "Hc" in
  destruct Hpre as (Hph & Hpv & Hc & Hms & Hepp & Hpool);
  repeat (apply Forall_cons_1 in Hc as [? Hc]).

Ltac leaf_B same other set :=
  lazymatch goal with
  | |- reported _ _ _ =>
    split; [all_status same other set
           |simpl; first [exact I | still_deploying same other set]]
  end.

(** Walks a phase, with the lemma [on_upsert] about upserts and the tactic
    [leaf] for what is left at each exit. *)
Ltac wp_with on_upsert leaf :=
  repeat first
    [ lazymatch goal with
      | |- traces (call (createOrUpdate _ _ _)) _ => upsert_with on_upsert
      | |- traces (call (createOrUpdateUnstructured ?sc ?o ?ow)) _ =>
        change (createOrUpdateUnstructured sc o ow)
          with (createOrUpdate sc (k := KUnstructured (uGVK o)) o ow);
        upsert_with on_upsert
      | |- traces (call (isDeploymentReady _ _)) _ => probe_B
      | |- traces (call (validatePrerequisites _)) _ => validator_A
      end
    | wp_struct
    | leaf ].

Ltac wp_B on_upsert same other set := wp_with on_upsert ltac:(idtac; leaf_B same other set).

Lemma phase4_reported (infScheduler : InferenceScheduler) :
  deploying [] infScheduler ->
  traces (Reconcile_phase4 scheme infScheduler) (reported (deploying ["ModelServerReady"])).
Proof.
  intros Hpre. deploying_facts Hpre. unfold Reconcile_phase4. cbv zeta.
  wp_B @upsert_reported @condition_is_same @condition_is_other @condition_is_set_status.
Qed.

Lemma phase5_reported (infScheduler : InferenceScheduler) :
  deploying ["ModelServerReady"] infScheduler ->
  traces (Reconcile_phase5 scheme infScheduler)
    (reported (deploying ["ModelServerReady"; "EPPReady"])).
Proof.
  intros Hpre. deploying_facts Hpre. unfold Reconcile_phase5. cbv zeta.
  wp_B @upsert_reported @condition_is_same @condition_is_other @condition_is_set_status.
Qed.

Lemma phase6_reported (infScheduler : InferenceScheduler) :
  deploying ["ModelServerReady"; "EPPReady"] infScheduler ->
  traces (Reconcile_phase6 scheme infScheduler)
    (reported (deploying ["ModelServerReady"; "EPPReady"; "InferencePoolReady"])).
Proof.
  intros Hpre. deploying_facts Hpre. unfold Reconcile_phase6. cbv zeta.
  wp_B @upsert_reported @condition_is_same @condition_is_other @condition_is_set_status.
Qed.

Lemma phase7_reported (infScheduler : InferenceScheduler) :
  deploying ["ModelServerReady"; "EPPReady"; "InferencePoolReady"] infScheduler ->
  traces (Reconcile_phase7 scheme infScheduler) (reported (fun _ => True)).
Proof.
  intros Hpre. deploying_facts Hpre. unfold Reconcile_phase7. cbv zeta.
  wp_B @upsert_reported @condition_is_same @condition_is_other @condition_is_set_status.
Qed.

Lemma phase1_reported (infScheduler : InferenceScheduler) :
  traces (Reconcile_phase1 infScheduler) (reported (deploying [])).
Proof.
  assert (Hstart : forall o : InferenceScheduler,
            PrerequisitesValidated (Status o) = true ->
            reported (deploying [])
              [CallStatusUpdate (set_status (set_Phase "Deploying") o)]
              (Next (set_status (set_Phase "Deploying") o))).
  { intros o Hpv. split.
    - apply Forall_cons_2; [|apply Forall_nil_2]. unfold status_ok. simpl.
      split; [member|split; intros Hx; discriminate Hx].
    - simpl. unfold deploying. simpl.
      split; [reflexivity|]. split; [exact Hpv|]. split; [constructor|].
      split; [|split]; intros []. }
  unfold Reconcile_phase1. cbv zeta.
  wp_B @upsert_reported @condition_is_same @condition_is_other @condition_is_set_status.
  - apply Forall_cons_2; [|apply Forall_nil_2]. unfold status_ok.
    split; [member|]. split; [intros Hx; discriminate Hx|intros _].
    unfold blocked_status. split; [reflexivity|].
    match goal with
    | |- context [updateCondition ?t ?o ?ty ?st ?rs ?msg] =>
      destruct (condition_set t o ty st rs msg) as (c & Hc & Hs & _ & Hm)
    end.
    exists c. split; [exact Hc|]. split; [exact Hs|]. rewrite Hm. reflexivity.
  - split; [|apply Hstart; reflexivity].
    repeat (apply Forall_cons_2; [exact I|]). simpl. apply Hstart. reflexivity.
  - split; [|apply Hstart; now apply negb_false_iff].
    repeat (apply Forall_cons_2; [exact I|]). simpl. apply Hstart.
    now apply negb_false_iff.
Qed.

Lemma fetched_reported (infScheduler : InferenceScheduler) :
  traces (Reconcile_fetched infScheduler) (reported (fun _ => True)).
Proof.
  unfold Reconcile_fetched, handleDeletion. cbv zeta.
  wp_B @upsert_reported @condition_is_same @condition_is_other @condition_is_set_status.
Qed.

Ltac phase_B lem :=
  eapply traces_weaken; [apply lem; try assumption|];
  let cs := fresh "cs" in
  let fl := fresh "fl" in
  let Hcs := fresh "Hcs" in
  let He := fresh "He" in
  intros cs fl [Hcs He]; destruct fl as [?i|?r|]; simpl in He; cbv beta iota;
  [ | split; [repeat (apply Forall_app_2); assumption|exact I]
    | split; [repeat (apply Forall_app_2); assumption|exact I] ].

Lemma live_reported (infScheduler : InferenceScheduler) :
  traces (Reconcile_live scheme infScheduler) (reported (fun _ => True)).
Proof.
  unfold Reconcile_live, Reconcile_phases.
  apply traces_bind. phase_B fetched_reported.
  apply traces_bind. phase_B phase1_reported.
  apply traces_bind. phase_B phase4_reported.
  apply traces_bind. phase_B phase5_reported.
  apply traces_bind. phase_B phase6_reported.
  phase_B phase7_reported.
  split; [repeat (apply Forall_app_2); assumption|exact I].
Qed.

(** X18. Every status write of every invocation is consistent. Its phase is
    Initializing, PrerequisitesMissing, Deploying or Ready, whatever the
    phase of the object fetched. A status written with phase Ready has the
    three flags set, the two replica counts equal to the replica counts of
    the spec, and the four readiness conditions True. A status written with
    phase PrerequisitesMissing has the validated flag cleared and the
    PrerequisitesValidated condition False with the prerequisite message
    as its message. *)
Theorem status_writes_are_consistent (req : NamespacedName) (w : W) :
  Forall status_ok (snd (invoke scheme req w)).
Proof.
  pose proof (invoke_run req w (fun _ => reported (fun _ => True)) live_reported) as Hrun.
  destruct (fst (Get KInferenceScheduler req w)) as [err|fetched].
  - rewrite Hrun. simpl. repeat constructor.
  - destruct Hrun as (cs & fl & -> & _ & Hcs & _).
    apply Forall_cons_2; [exact I|exact Hcs].
Qed.
(** ** The order of the child writes *)

Lemma traces_and {R A} (m : Go (W := W) R A) (G G' : list Call -> Flow R A -> Prop) :
  traces m G -> traces m G' -> traces m (fun cs fl => G cs fl /\ G' cs fl).
Proof.
  intros Hm Hm' s. destruct (Hm s) as (cs & Hcs & Hg). destruct (Hm' s) as (cs' & Hcs' & Hg').
  exists cs. split; [exact Hcs|]. split; [exact Hg|].
  rewrite Hcs in Hcs'. apply app_inv_head in Hcs'. now subst cs'.
Qed.

Lemma take_more {A} (l : list A) (k j : nat) :
  (take k l ++ take j (drop k l))%list = take (k + j) l.
Proof.
  revert l. induction k as [|k IH]; intros [|x l]; simpl; try reflexivity.
  - now destruct j.
  - now rewrite IH.
Qed.

Lemma ordered_then {R A} (all : list (Kind * string * string)) (k len : nat)
  (cs cs' : list Call) (fl : Flow R A) :
  child_writes cs = take k all ->
  ordered (take len (drop k all)) cs' fl ->
  (exists n, child_writes (cs ++ cs') = take n all)
  /\ match fl with
     | Next _ => child_writes (cs ++ cs') = take (k + len) all
     | _ => True
     end.
Proof.
  intros Hcs [[n Hn] Hfl]. rewrite child_writes_app, Hcs. split.
  - exists (k + min n len)%nat. rewrite Hn, take_take. apply take_more.
  - destruct fl; try exact I. rewrite Hfl. apply take_more.
Qed.

Lemma upsert_ordered {k : Kind} (owner : InferenceScheduler) (obj : ObjOf k)
  (res : option error) (cs : list Call) :
  upsert_trace scheme owner obj res cs ->
  is_root k = false ->
  child_writes cs = [(k, Namespace (getMeta obj), Name (getMeta obj))]
  \/ (res <> None /\ child_writes cs = []).
Proof.
  intros (tail & -> & Htail) Hk.
  destruct Htail as [[-> Hres]|(c & -> & obj' & Hc)]; [right; split; [exact Hres|reflexivity]|].
  left. destruct Hc as [[-> Ha]|(rv & -> & Ha)];
    apply attached_ident in Ha as [Hn Hns];
    unfold child_writes; simpl; rewrite Hk; unfold ident, oMeta; simpl;
    rewrite Hn, Hns; try reflexivity.
  unfold SetResourceVersion. now rewrite getMeta_setMeta.
Qed.

Ltac count_writes :=
  first [ exists 0%nat; reflexivity | exists 1%nat; reflexivity
        | exists 2%nat; reflexivity | exists 3%nat; reflexivity
        | exists 4%nat; reflexivity | exists 5%nat; reflexivity
        | exists 6%nat; reflexivity ].

Ltac leaf_C :=
  lazymatch goal with
  | |- ordered _ _ _ =>
    repeat match goal with
           | Hup : _ \/ (_ <> _ /\ _) |- _ =>
             destruct Hup as [Hup|[? Hup]]; [|try congruence]
           end;
    unfold ordered; rewrite ?child_writes_app;
    repeat match goal with
           | Hup : child_writes _ = _ |- _ => rewrite Hup; clear Hup
           end;
    (split; [count_writes|first [exact I | reflexivity]])
  end.

Ltac wp_C on_upsert := wp_with on_upsert ltac:(idtac; leaf_C).

Lemma phase4_ordered (infScheduler : InferenceScheduler) :
  traces (Reconcile_phase4 scheme infScheduler)
    (ordered (take 2 (drop 0 (children (namespace_of infScheduler) (name_of infScheduler))))).
Proof. unfold Reconcile_phase4. cbv zeta. wp_C @upsert_ordered. Qed.

Lemma phase5_ordered (infScheduler : InferenceScheduler) :
  traces (Reconcile_phase5 scheme infScheduler)
    (ordered (take 6 (drop 2 (children (namespace_of infScheduler) (name_of infScheduler))))).
Proof. unfold Reconcile_phase5. cbv zeta. wp_C @upsert_ordered. Qed.

Lemma phase6_ordered (infScheduler : InferenceScheduler) :
  traces (Reconcile_phase6 scheme infScheduler)
    (ordered (take 1 (drop 8 (children (namespace_of infScheduler) (name_of infScheduler))))).
Proof. unfold Reconcile_phase6. cbv zeta. wp_C @upsert_ordered. Qed.

Lemma phase7_ordered (infScheduler : InferenceScheduler) :
  traces (Reconcile_phase7 scheme infScheduler)
    (ordered (take 2 (drop 9 (children (namespace_of infScheduler) (name_of infScheduler))))).
Proof. unfold Reconcile_phase7. cbv zeta. wp_C @upsert_ordered. Qed.

Lemma phase1_ordered (infScheduler : InferenceScheduler) :
  traces (Reconcile_phase1 infScheduler)
    (ordered (take 0 (drop 0 (children (namespace_of infScheduler) (name_of infScheduler))))).
Proof. unfold Reconcile_phase1. cbv zeta. wp_C @upsert_ordered. Qed.

Lemma fetched_ordered (infScheduler : InferenceScheduler) :
  traces (Reconcile_fetched infScheduler)
    (ordered (take 0 (drop 0 (children (namespace_of infScheduler) (name_of infScheduler))))).
Proof. unfold Reconcile_fetched, handleDeletion. cbv zeta. wp_C @upsert_ordered. Qed.

(** Steps over a phase with the lemmas [lemA] (the object stays the
    root's) and [lemC] (the children it writes), after the writes [Hdone];
    [after] is the lemma that appends the two. *)
Ltac phase_C lemA lemC after Hroot Hdone :=
  eapply traces_weaken; [apply traces_and; [apply (lemA _ _ Hroot)|apply lemC]|];
  let cs := fresh "cs" in
  let fl := fresh "fl" in
  let He := fresh "He" in
  let Ho := fresh "Ho" in
  let Hany := fresh "Hany" in
  let Hnext := fresh "Hnext" in
  intros cs fl [[_ He] Ho];
  unfold name_of, namespace_of in Ho;
  rewrite (proj1 Hroot), (proj1 (proj2 Hroot)) in Ho;
  apply (after _ _ _ _ _ _ _ _ Hdone) in Ho as [Hany Hnext];
  rewrite <- ?app_assoc, ?app_nil_l in Hany;
  destruct fl as [?i|?r|]; simpl in He; cbv beta iota;
  [ | exact Hany | exact Hany ].

Lemma phases_ordered (root infScheduler : InferenceScheduler) :
  same_root root infScheduler ->
  traces (Reconcile_phases scheme infScheduler)
    (fun cs _ =>
       exists n, child_writes cs
                 = take n (children (Namespace (isMeta root)) (Name (isMeta root)))).
Proof.
  intros Hroot. unfold Reconcile_phases.
  assert (Hdone : child_writes []
                  = take 0 (children (Namespace (isMeta root)) (Name (isMeta root))))
    by reflexivity.
  apply traces_bind. phase_C phase1_contained phase1_ordered @ordered_then Hroot Hdone.
  apply traces_bind. phase_C phase4_contained phase4_ordered @ordered_then He Hnext.
  apply traces_bind. phase_C phase5_contained phase5_ordered @ordered_then He0 Hnext0.
  apply traces_bind. phase_C phase6_contained phase6_ordered @ordered_then He1 Hnext1.
  phase_C phase7_contained phase7_ordered @ordered_then He2 Hnext2.
  exact Hany3.
Qed.

Lemma live_ordered (root : InferenceScheduler) :
  traces (Reconcile_live scheme root)
    (fun cs _ =>
       exists n, child_writes cs
                 = take n (children (Namespace (isMeta root)) (Name (isMeta root)))).
Proof.
  unfold Reconcile_live. apply traces_bind.
  eapply traces_weaken; [apply traces_and; [apply fetched_contained|apply fetched_ordered]|].
  intros cs fl [[_ He] [[k Hk] Ho]].
  assert (Hnone : child_writes cs = []) by (rewrite Hk; now destruct k).
  destruct fl as [i|r|]; simpl in He; cbv beta iota.
  - eapply traces_weaken; [apply (phases_ordered root i He)|].
    intros cs' _ [n Hn]. exists n. now rewrite child_writes_app, Hnone.
  - exists 0%nat. exact Hnone.
  - exists 0%nat. exact Hnone.
Qed.

(** X19. On every invocation, also one that stops early on an error or a
    requeue, the children written are an initial segment of the eleven
    children of the root object, in their fixed order: a child is written
    only after every child before it was written in the same invocation,
    and no child is written twice. *)
Theorem child_writes_follow_the_order (req : NamespacedName) (w : W) :
  (exists n,
     child_writes (snd (invoke scheme req w))
     = match fst (Get KInferenceScheduler req w) with
       | inl _ => []
       | inr fetched =>
         take n (children (Namespace (isMeta fetched)) (Name (isMeta fetched)))
       end)
  /\ NoDup (child_writes (snd (invoke scheme req w))).
Proof.
  pose proof (invoke_run req w _ live_ordered) as Hrun.
  destruct (fst (Get KInferenceScheduler req w)) as [err|fetched].
  - rewrite Hrun. split; [exists 0%nat; reflexivity|apply NoDup_nil_2].
  - destruct Hrun as (cs & fl & -> & _ & n & Hn).
    change (child_writes (CallGet KInferenceScheduler req :: cs)) with (child_writes cs).
    split; [exists n; exact Hn|]. rewrite Hn.
    eapply sublist_NoDup; [apply children_NoDup|apply sublist_take].
Qed.

(** ** The finalizer comes first *)

Lemma fetched_first (root : InferenceScheduler) :
  traces (Reconcile_fetched root)
    (fun cs fl =>
       Forall (fun c => touches_child c = false) cs
       /\ match fl with
          | Next _ =>
            TimePtr_IsZero (DeletionTimestamp (isMeta root)) = true
            /\ (ContainsFinalizer root finalizerName = true
                \/ exists rest,
                     cs = CallUpdate {| oKind := KInferenceScheduler;
                                        oValue := AddFinalizer root finalizerName |} :: rest)
          | _ => True
          end).
Proof.
  unfold Reconcile_fetched, handleDeletion. cbv zeta.
  destruct (TimePtr_IsZero (DeletionTimestamp (isMeta root)));
    destruct (ContainsFinalizer root finalizerName);
    repeat first [ wp_struct
                 | split; [repeat constructor|];
                   first [ exact I
                         | split; [reflexivity|];
                           first [left; reflexivity | right; eexists; reflexivity] ] ].
Qed.

Lemma ContainsFinalizer_AddFinalizer (o : InferenceScheduler) (finalizer : string) :
  ContainsFinalizer (AddFinalizer o finalizer) finalizer = true.
Proof.
  unfold AddFinalizer. destruct (ContainsFinalizer o finalizer) eqn:Hc; [exact Hc|].
  unfold ContainsFinalizer. simpl. rewrite existsb_app. simpl.
  rewrite String.eqb_refl. apply orb_true_iff. right. reflexivity.
Qed.

Lemma fetched_added (root i : InferenceScheduler) (s s' : Run) :
  Reconcile_fetched root s = (Next i, s') ->
  ContainsFinalizer root finalizerName = false ->
  fst (Update KInferenceScheduler (AddFinalizer root finalizerName) (world s)) = None.
Proof.
  unfold Reconcile_fetched, handleDeletion.
  unfold bind, call, ret, return_, r_Update, r_Status_Update, record. simpl.
  intros Hrun Hc. rewrite Hc in Hrun. simpl in Hrun.
  destruct (TimePtr_IsZero (DeletionTimestamp (isMeta root))); simpl in Hrun.
  - destruct (Update KInferenceScheduler (AddFinalizer root finalizerName) (world s))
      as [[err|] w1]; simpl in *; [discriminate|reflexivity].
  - discriminate.
Qed.

(** X20. No child before the finalizer. An invocation reads or writes a child
    only of an object that is not being deleted, and only when the object
    fetched carried the finalizer already, or after the update that adds
    it: that update is then the first call after the fetch, it sends the
    object with the finalizer on, and the API server has accepted it. *)
Theorem finalizer_precedes_children (req : NamespacedName) (w : W) :
  Forall (fun c => touches_child c = false) (snd (invoke scheme req w))
  \/ exists fetched,
       fst (Get KInferenceScheduler req w) = inr fetched
       /\ TimePtr_IsZero (DeletionTimestamp (isMeta fetched)) = true
       /\ (ContainsFinalizer fetched finalizerName = true
           \/ (ContainsFinalizer (AddFinalizer fetched finalizerName) finalizerName = true
               /\ fst (Update KInferenceScheduler (AddFinalizer fetched finalizerName)
                         (snd (Get KInferenceScheduler req w))) = None
               /\ exists rest,
                    snd (invoke scheme req w)
                    = CallGet KInferenceScheduler req
                      :: CallUpdate {| oKind := KInferenceScheduler;
                                       oValue := AddFinalizer fetched finalizerName |}
                      :: rest)).
Proof.
  unfold invoke, call. rewrite Reconcile_run. simpl.
  destruct (Get KInferenceScheduler req w) as [[err|fetched] w1]; simpl.
  - left. repeat constructor.
  - set (s1 := {| world := w1; calls := [CallGet KInferenceScheduler req] |}).
    unfold Reconcile_live, bind.
    destruct (fetched_first fetched s1) as (cs1 & Hcs1 & Hno & Hnext).
    destruct (fetched_contained fetched s1) as (cs1' & Hcs1' & _ & He).
    pose proof (fetched_added fetched) as Hadd. specialize (fun i s' => Hadd i s1 s').
    destruct (Reconcile_fetched fetched s1) as [[i|r|] s2]; simpl in *.
    + destruct (phases_contained fetched i He s2) as (cs2 & Hcs2 & _).
      right. exists fetched. split; [reflexivity|].
      destruct Hnext as [Hz Hf]. split; [exact Hz|].
      destruct (ContainsFinalizer fetched finalizerName) eqn:Hc; [now left|right].
      split; [apply ContainsFinalizer_AddFinalizer|].
      split; [exact (Hadd i s2 eq_refl eq_refl)|].
      destruct Hf as [Hf|[rest ->]]; [discriminate|].
      destruct (Reconcile_phases scheme i s2) as [[r|r|] s3]; simpl in *;
        rewrite Hcs2, Hcs1; simpl; eexists; reflexivity.
    + left. rewrite Hcs1. apply Forall_cons_2; [reflexivity|exact Hno].
    + left. rewrite Hcs1. apply Forall_cons_2; [reflexivity|exact Hno].
Qed.

End Invariants.
